(** * cosmosclient: the provisioning-and-broadcast pipeline

    A shallow embedding of [starport/pkg/cosmosclient/cosmosclient.go].

    The Go code talks to a ledger node, a faucet and a keyring.  Those
    collaborators are not part of the package: they appear here as the
    fields of an environment record [Env], each a function of the state
    of the outside world.  The package's own functions are written in a
    small monad that threads the process state (outside world, the
    process-wide bech32 configuration and the mutex [mconf] guarding it)
    and collects the calls made to the collaborators.

    The options and [New], which build a client, are embedded over a
    second environment, [Host].  The command that asks to join a network,
    of package [starportcmd], follows in a module of its own. *)

From Stdlib Require Import ZArith NArith QArith Bool List Lia.
From Stdlib Require Import String Ascii DecimalString.
From Stdlib.Strings Require Import Byte.
Import ListNotations.

Local Open Scope string_scope.
Local Open Scope list_scope.
Local Open Scope Z_scope.

Set Implicit Arguments.

(** ** Go values *)

(** [uint64] is carried by [Z]; arithmetic on it wraps at [2^64]. *)
Definition uint64 := Z.
Definition uint64_modulus : Z := 2 ^ 64.
Definition uint64_add (a b : uint64) : uint64 := (a + b) mod uint64_modulus.
Definition is_uint64 (a : Z) : Prop := 0 <= a < uint64_modulus.

(** Go's [error].  The package only ever creates errors with
    [errors.New], [fmt.Errorf] and [errors.Wrap], and only ever inspects
    an error through its message. *)
Inductive error : Type :=
| errorString (s : string)
| withMessage (cause : error) (msg : string).

Fixpoint Error (e : error) : string :=
  match e with
  | errorString s => s
  | withMessage cause msg => msg ++ ": " ++ Error cause
  end.

Definition errors_New (s : string) : error := errorString s.
Definition errors_Wrap (err : error) (message : string) : error :=
  withMessage err message.

(** A Go result pair [(value, err)] in which only one side is meaningful. *)
Inductive result (E A : Type) : Type :=
| Ok (a : A)
| Err (e : E).
Arguments Ok {E A} a.
Arguments Err {E A} e.

Definition res (A : Type) : Type := result error A.

(** ** package strings *)

Module strings.

Fixpoint HasPrefix (s prefix : string) : bool :=
  match prefix, s with
  | EmptyString, _ => true
  | String p prefix', String c s' => Ascii.eqb c p && HasPrefix s' prefix'
  | String _ _, EmptyString => false
  end.

Fixpoint Contains (s substr : string) : bool :=
  HasPrefix s substr ||
  match s with
  | EmptyString => false
  | String _ s' => Contains s' substr
  end.

Definition upper (c : ascii) : ascii :=
  let n := N_of_ascii c in
  if (97 <=? n)%N && (n <=? 122)%N then ascii_of_N (n - 32) else c.

(** [ToUpper], on ASCII text. *)
Fixpoint ToUpper (s : string) : string :=
  match s with
  | EmptyString => EmptyString
  | String c s' => String (upper c) (ToUpper s')
  end.

End strings.

(** [%d] of an unsigned integer. *)
Definition fmt_d (n : N) : string := NilEmpty.string_of_uint (N.to_uint n).

(** ** package encoding/hex *)

Module hex.

Inductive hexError : Type :=
| InvalidByteError (c : ascii)
| ErrLength.

Definition fromHexChar (c : ascii) : option N :=
  let n := N_of_ascii c in
  if (48 <=? n)%N && (n <=? 57)%N then Some (n - 48)%N
  else if (97 <=? n)%N && (n <=? 102)%N then Some (n - 97 + 10)%N
  else if (65 <=? n)%N && (n <=? 70)%N then Some (n - 65 + 10)%N
  else None.

Definition byte_of_nibbles (a b : N) : byte :=
  match Byte.of_N (N.lor (N.shiftl a 4) b) with
  | Some x => x
  | None => x00
  end.

Fixpoint DecodeString (s : string) : result hexError (list byte) :=
  match s with
  | EmptyString => Ok []
  | String c1 EmptyString =>
      match fromHexChar c1 with
      | None => Err (InvalidByteError c1)
      | Some _ => Err ErrLength
      end
  | String c1 (String c2 rest) =>
      match fromHexChar c1 with
      | None => Err (InvalidByteError c1)
      | Some a =>
          match fromHexChar c2 with
          | None => Err (InvalidByteError c2)
          | Some b =>
              match DecodeString rest with
              | Ok bs => Ok (byte_of_nibbles a b :: bs)
              | Err e => Err e
              end
          end
      end
  end.

Definition hextable : string := "0123456789abcdef".

Definition hexdigit (n : N) : ascii :=
  match String.get (N.to_nat n) hextable with
  | Some c => c
  | None => "0"%char
  end.

Fixpoint EncodeToString (src : list byte) : string :=
  match src with
  | [] => EmptyString
  | v :: rest =>
      String (hexdigit (N.shiftr (Byte.to_N v) 4))
        (String (hexdigit (N.land (Byte.to_N v) 15)) (EncodeToString rest))
  end.

End hex.

(** ** The broadcast response *)

(** [sdktypes.TxResponse], the fields the package reads. *)
Record TxResponse : Type := {
  TxHash : string;
  Code : N;          (* uint32 *)
  Data : string;     (* hex encoded *)
  RawLog : string
}.

(** A Go call either returns or panics; a call to [Lock] may also block
    for ever. *)
Inductive outcome (A : Type) : Type :=
| Ret (a : A)
| Panics (msg : string)
| Blocks.
Arguments Ret {A} a.
Arguments Panics {A} msg.
Arguments Blocks {A}.

(** The hint that replaces a "not found" transport error. *)
Definition balanceHint : error :=
  errors_New "make sure that your SPN account has enough balance".

(** [handleBroadcastResult(resp *sdktypes.TxResponse, err error) error].
    [resp] is a pointer: dereferencing [nil] panics. *)
Definition handleBroadcastResult (resp : option TxResponse) (err : option error)
  : outcome (option error) :=
  match err with
  | Some e =>
      if strings.Contains (Error e) "not found"
      then Ret (Some (errors_New "make sure that your SPN account has enough balance"))
      else Ret (Some e)
  | None =>
      match resp with
      | None => Panics "invalid memory address or nil pointer dereference"
      | Some r =>
          if (0 <? Code r)%N
          then Ret (Some (errors_New
                 ("SPN error with '" ++ fmt_d (Code r) ++ "' code: " ++ RawLog r)))
          else Ret None
      end
  end.


(** ** Data of the Cosmos SDK and of the sibling packages

    Only the fields the package reads or writes are kept. *)

Definition AccAddress : Type := list byte.

(** [sdktypes.Coin]: the amount is an [sdktypes.Int], an integer of
    arbitrary size. *)
Record Coin : Type := { Denom : string; Amount : Z }.

(** [Int.Uint64()] belongs to the Cosmos SDK: it panics when the value does
    not fit in 64 bits and is the value otherwise. *)
Definition Int_Uint64 (i : Z) : outcome uint64 :=
  if (0 <=? i) && (i <? uint64_modulus) then Ret i
  else Panics "Uint64() out of bounds".

(** [sdktypes.Msg]: a type tag and an opaque payload. *)
Record Msg : Type := { msg_TypeURL : string; msg_Value : list byte }.

(** Modelled from the spec: [cosmosaccount.Account], declared in the
    sibling package [cosmosaccount].  An account is a logical name with the
    address derived from its key ([Info.GetAddress()]). *)
Record Account : Type := { acc_Name : string; acc_Address : AccAddress }.

Inductive SignMode : Type :=
| SIGN_MODE_UNSPECIFIED
| SIGN_MODE_DIRECT
| SIGN_MODE_TEXTUAL
| SIGN_MODE_LEGACY_AMINO_JSON.

(** [tx.Factory] with its getters; the setters [WithX] return a copy. *)
Record Factory : Type := {
  f_chainID : string;
  f_accountNumber : uint64;
  f_sequence : uint64;
  f_gas : uint64;
  f_gasAdjustment : Q;
  f_signMode : SignMode
}.

Definition WithChainID (f : Factory) (chainID : string) : Factory :=
  {| f_chainID := chainID; f_accountNumber := f_accountNumber f;
     f_sequence := f_sequence f; f_gas := f_gas f;
     f_gasAdjustment := f_gasAdjustment f; f_signMode := f_signMode f |}.
Definition WithAccountNumber (f : Factory) (accnum : uint64) : Factory :=
  {| f_chainID := f_chainID f; f_accountNumber := accnum;
     f_sequence := f_sequence f; f_gas := f_gas f;
     f_gasAdjustment := f_gasAdjustment f; f_signMode := f_signMode f |}.
Definition WithSequence (f : Factory) (sequence : uint64) : Factory :=
  {| f_chainID := f_chainID f; f_accountNumber := f_accountNumber f;
     f_sequence := sequence; f_gas := f_gas f;
     f_gasAdjustment := f_gasAdjustment f; f_signMode := f_signMode f |}.
Definition WithGas (f : Factory) (gas : uint64) : Factory :=
  {| f_chainID := f_chainID f; f_accountNumber := f_accountNumber f;
     f_sequence := f_sequence f; f_gas := gas;
     f_gasAdjustment := f_gasAdjustment f; f_signMode := f_signMode f |}.
Definition WithGasAdjustment (f : Factory) (adj : Q) : Factory :=
  {| f_chainID := f_chainID f; f_accountNumber := f_accountNumber f;
     f_sequence := f_sequence f; f_gas := f_gas f;
     f_gasAdjustment := adj; f_signMode := f_signMode f |}.
Definition WithSignMode (f : Factory) (mode : SignMode) : Factory :=
  {| f_chainID := f_chainID f; f_accountNumber := f_accountNumber f;
     f_sequence := f_sequence f; f_gas := f_gas f;
     f_gasAdjustment := f_gasAdjustment f; f_signMode := mode |}.

(** The zero value [tx.Factory{}]. *)
Definition Factory_zero : Factory :=
  {| f_chainID := ""; f_accountNumber := 0; f_sequence := 0; f_gas := 0;
     f_gasAdjustment := 0%Q; f_signMode := SIGN_MODE_UNSPECIFIED |}.

(** The result envelope [sdktypes.TxMsgData] and [prototypes.Any]. *)
Record MsgData : Type := { MsgType : string; MsgData_Data : list byte }.
Record TxMsgData : Type := { TxMsgData_Data : list MsgData }.
Record Any : Type := { TypeUrl : string; Value : list byte }.

(** [codec.Codec], an interface: what [Unmarshal] does on a [*TxMsgData]. *)
Record Codec : Type := { Unmarshal_TxMsgData : list byte -> res TxMsgData }.

(** [client.Context]. *)
Record Context : Type := {
  ctx_ChainID : string;
  ctx_HomeDir : string;
  ctx_FromName : string;
  ctx_FromAddress : AccAddress;
  ctx_BroadcastMode : string;
  ctx_SkipConfirmation : bool;
  ctx_Codec : option Codec
}.

Definition WithFromName (c : Context) (name : string) : Context :=
  {| ctx_ChainID := ctx_ChainID c; ctx_HomeDir := ctx_HomeDir c;
     ctx_FromName := name; ctx_FromAddress := ctx_FromAddress c;
     ctx_BroadcastMode := ctx_BroadcastMode c;
     ctx_SkipConfirmation := ctx_SkipConfirmation c; ctx_Codec := ctx_Codec c |}.
Definition WithFromAddress (c : Context) (addr : AccAddress) : Context :=
  {| ctx_ChainID := ctx_ChainID c; ctx_HomeDir := ctx_HomeDir c;
     ctx_FromName := ctx_FromName c; ctx_FromAddress := addr;
     ctx_BroadcastMode := ctx_BroadcastMode c;
     ctx_SkipConfirmation := ctx_SkipConfirmation c; ctx_Codec := ctx_Codec c |}.
Definition GetFromAddress (c : Context) : AccAddress := ctx_FromAddress c.

(** A transaction under construction ([client.TxBuilder]).  The SDK's
    [tx.BuildUnsignedTx] copies the messages and the factory's gas into it;
    [tx.Sign] signs over the factory's chain id, account number and
    sequence, in the sign mode of the factory or, when that is
    unspecified, in the default mode of the transaction configuration,
    and, called with [overwriteSig = true], replaces the signatures. *)
Record SignerData : Type := {
  sd_ChainID : string;
  sd_AccountNumber : uint64;
  sd_Sequence : uint64
}.
Record SignatureV2 : Type := {
  sig_Signer : string;
  sig_Mode : SignMode;
  sig_Data : SignerData;
  sig_Bytes : list byte
}.
Record Tx : Type := {
  tx_Msgs : list Msg;
  tx_GasLimit : uint64;
  tx_Signatures : list SignatureV2
}.

(** How a call of [tx.Sign] ends: with a signature, with an error, or in a
    panic.  It panics when it reads the signers of the messages and a
    message cannot parse its signer's address under the address
    configuration in force. *)
Inductive signing (A : Type) : Type :=
| Signed (a : A)
| Refused (e : error)
| SignPanics (msg : string).
Arguments Signed {A} a.
Arguments Refused {A} e.
Arguments SignPanics {A} msg.

(** Modelled from the spec: [cosmosfaucet.TransferRequest], declared in the
    sibling package [cosmosfaucet].  A request names the account address
    and, optionally, a denom and an amount. *)
Record TransferRequest : Type := {
  AccountAddress : string;
  Request_Denom : option string;
  Request_Amount : option N
}.

(** Modelled from the spec: [cosmosfaucet.TransferResponse], declared in
    the sibling package [cosmosfaucet].  A response carries a top-level
    error and a list of transfers, each with its recipient, its coin and
    its own error; an empty string is no error. *)
Record Transfer : Type := {
  Transfer_Recipient : string;
  Transfer_Coin : string;
  Transfer_Error : string
}.
Record TransferResponse : Type := {
  Response_Error : string;
  Transfers : list Transfer
}.

(** [time.Duration], in nanoseconds. *)
Definition Duration : Type := Z.
Definition time_Second : Duration := 1000000000.
Definition time_Minute : Duration := 60 * time_Second.

(** [context.Context]: the package only derives contexts with a timeout. *)
Inductive GoContext : Type :=
| Background
| WithTimeout (parent : GoContext) (timeout : Duration).

(** [backoff.BackOff] policies, as the package builds them. *)
Inductive BackOff : Type :=
| NewConstantBackOff (d : Duration)
| WithContext (b : BackOff) (ctx : GoContext).

Fixpoint NextBackOff (b : BackOff) : Duration :=
  match b with
  | NewConstantBackOff d => d
  | WithContext b' _ => NextBackOff b'
  end.

(** The process-wide [sdktypes.Config]. *)
Record SdkConfig : Type := {
  bech32AccountAddrPrefix : string;
  bech32AccountPubPrefix : string
}.

(** ** Package-level constants and variables *)

Definition FaucetTransferEnsureDuration : Duration := time_Minute * 2.

Definition defaultNodeAddress : string := "http://localhost:26657".
Definition defaultGasAdjustment : Q := 1%Q.
Definition defaultGasLimit : uint64 := 300000.

Definition defaultFaucetAddress : string := "http://localhost:4500".
Definition defaultFaucetDenom : string := "token".
Definition defaultFaucetMinAmount : uint64 := 100.

(** [Client]. *)
Record Client : Type := {
  c_Factory : Factory;
  c_Context : Context;
  addressPrefix : string;
  nodeAddress : string;
  chainID : string;
  useFaucet : bool;
  faucetAddress : string;
  faucetDenom : string;
  faucetMinAmount : uint64;
  homePath : string
}.

(** [Response]: the codec and the embedded [*sdktypes.TxResponse]. *)
Record Response : Type := {
  codec : option Codec;
  Response_TxResponse : option TxResponse
}.
Definition Response_zero : Response :=
  {| codec := None; Response_TxResponse := None |}.

(** ** Calls to the collaborators *)

(** Every call the package makes outside itself, with what came back.
    [EvSign] also records the address configuration in force and whether
    [mconf] was held when the signature was made. *)
Inductive Event : Type :=
| EvGetByName (name : string) (r : res Account)
| EvAllBalances (ctx : GoContext) (address : string) (r : res (list Coin))
| EvFaucetTransfer (faucet : string) (req : TransferRequest) (r : res TransferResponse)
| EvRetry (b : BackOff)
| EvSleep (d : Duration)
| EvLock
| EvUnlock
| EvSetBech32PrefixForAccount (addressPrefix pubPrefix : string)
| EvEnsureExists (from : AccAddress) (r : option error)
| EvGetAccountNumberSequence (from : AccAddress) (r : res (uint64 * uint64))
| EvCalculateGas (txf : Factory) (msgs : list Msg) (r : res uint64)
| EvBuildUnsignedTx (txf : Factory) (msgs : list Msg) (r : res Tx)
| EvSign (txf : Factory) (name : string) (config : SdkConfig) (locked : bool)
    (r : signing Tx)
| EvTxEncode (tx : Tx) (r : res (list byte))
| EvBroadcastTx (txBytes : list byte) (resp : option TxResponse) (err : option error).

Section Pipeline.

(** The state of the outside world: ledger node, faucet, keyring, clock. *)
Variable W : Type.

(** A collaborator reads the process-wide address configuration and the
    world, answers, and leaves the world in a new state. *)
Definition Oracle (R : Type) : Type := SdkConfig -> W -> R * W.

Record Env : Type := {
  (* cosmosaccount.Registry.GetByName *)
  registry_GetByName : string -> Oracle (res Account);
  (* cosmosaccount.Account.Address(prefix) *)
  account_Address : Account -> string -> string;
  (* banktypes.QueryClient.AllBalances *)
  bank_AllBalances : GoContext -> string -> Oracle (res (list Coin));
  (* cosmosfaucet.HTTPClient.Transfer *)
  faucet_Transfer : string -> GoContext -> TransferRequest -> Oracle (res TransferResponse);
  (* how many further attempts backoff.Retry makes before its context is done *)
  retry_More : BackOff -> Oracle nat;
  (* the error backoff.Retry returns when it gives up after a failed attempt *)
  retry_GiveUp : BackOff -> error -> error;
  (* client.AccountRetriever.EnsureExists *)
  retriever_EnsureExists : Context -> AccAddress -> Oracle (option error);
  (* client.AccountRetriever.GetAccountNumberSequence *)
  retriever_GetAccountNumberSequence :
    Context -> AccAddress -> Oracle (res (uint64 * uint64));
  (* tx.CalculateGas: the adjusted gas of the simulation *)
  tx_CalculateGas : Context -> Factory -> list Msg -> Oracle (res uint64);
  (* what makes tx.BuildUnsignedTx fail *)
  tx_BuildRefused : Factory -> list Msg -> option error;
  (* client.TxConfig.SignModeHandler().DefaultMode() *)
  txConfig_DefaultMode : SignMode;
  (* what tx.Sign does outside this package, in the order the SDK has it:
     the key lookup, the check of the signers of the messages, the
     keyring's signature over the sign bytes *)
  sdk_Sign : string -> SignMode -> SignerData -> Tx -> Oracle (signing (list byte));
  (* client.TxConfig.TxEncoder *)
  tx_Encode : Tx -> res (list byte);
  (* client.Context.BroadcastTx in block mode *)
  ctx_BroadcastTx : Context -> list byte -> Oracle (option TxResponse * option error)
}.

(** The state of the process. *)
Record Proc : Type := {
  world : W;
  sdkConfig : SdkConfig;
  mconf : bool          (* true when the mutex is held *)
}.

Definition M (A : Type) : Type := Proc -> outcome A * Proc * list Event.

Definition ret {A} (a : A) : M A := fun p => (Ret a, p, []).

Definition bind {A B} (m : M A) (k : A -> M B) : M B :=
  fun p =>
    match m p with
    | (Ret a, p1, t1) =>
        match k a p1 with
        | (o, p2, t2) => (o, p2, t1 ++ t2)
        end
    | (Panics msg, p1, t1) => (Panics msg, p1, t1)
    | (Blocks, p1, t1) => (Blocks, p1, t1)
    end.

Definition lift {A} (o : outcome A) : M A := fun p => (o, p, []).

Definition emit (e : Event) : M unit := fun p => (Ret tt, p, [e]).

(** Ask a collaborator and record the answer. *)
Definition ask {R} (f : Oracle R) (ev : R -> Event) : M R :=
  fun p =>
    match f (sdkConfig p) (world p) with
    | (r, w) =>
        (Ret r, {| world := w; sdkConfig := sdkConfig p; mconf := mconf p |}, [ev r])
    end.

Definition out_of {A} (x : outcome A * Proc * list Event) : outcome A := fst (fst x).
Definition proc_of {A} (x : outcome A * Proc * list Event) : Proc := snd (fst x).
Definition trace_of {A} (x : outcome A * Proc * list Event) : list Event := snd x.

(** [mconf.Lock()], [mconf.Unlock()] and [defer]. *)
Definition mconf_Lock : M unit :=
  fun p =>
    if mconf p then (Blocks, p, [])
    else (Ret tt, {| world := world p; sdkConfig := sdkConfig p; mconf := true |},
          [EvLock]).

Definition mconf_Unlock : M unit :=
  fun p =>
    if mconf p
    then (Ret tt, {| world := world p; sdkConfig := sdkConfig p; mconf := false |},
          [EvUnlock])
    else (Panics "sync: unlock of unlocked mutex", p, []).

Definition defer {A} (deferred : M unit) (body : M A) : M A :=
  fun p =>
    match body p with
    | (Blocks, p1, t1) => (Blocks, p1, t1)
    | (o, p1, t1) =>
        match deferred p1 with
        | (Ret _, p2, t2) => (o, p2, t1 ++ t2)
        | (Panics msg, p2, t2) => (Panics msg, p2, t1 ++ t2)
        | (Blocks, p2, t2) => (Blocks, p2, t1 ++ t2)
        end
    end.

(** [sdktypes.GetConfig().SetBech32PrefixForAccount]. *)
Definition SetBech32PrefixForAccount (addressPrefix pubPrefix : string) : M unit :=
  fun p =>
    (Ret tt,
     {| world := world p;
        sdkConfig := {| bech32AccountAddrPrefix := addressPrefix;
                        bech32AccountPubPrefix := pubPrefix |};
        mconf := mconf p |},
     [EvSetBech32PrefixForAccount addressPrefix pubPrefix]).

Notation "x <- m ;; k" := (bind m (fun x => k))
  (at level 61, m at next level, right associativity).
Notation "m ;;; k" := (bind m (fun _ => k))
  (at level 61, right associativity).

Variable env : Env.

(** ** The client *)

(** [newFactory]. *)
Definition newFactory (clientCtx : Context) : Factory :=
  WithSignMode
    (WithGasAdjustment
       (WithGas (WithChainID Factory_zero (ctx_ChainID clientCtx)) defaultGasLimit)
       defaultGasAdjustment)
    SIGN_MODE_UNSPECIFIED.

(** [Client.Account] and [Client.Address]. *)
Definition Client_Account (c : Client) (accountName : string) : M (res Account) :=
  ask (registry_GetByName env accountName) (EvGetByName accountName).

Definition Client_Address (c : Client) (accountName : string) : M (res AccAddress) :=
  r <- Client_Account c accountName ;;
  match r with
  | Err err => ret (Err err)
  | Ok account => ret (Ok (acc_Address account))
  end.

(** [Client.checkAccountBalance]: the scan of the balances, then the call. *)
Fixpoint scanBalances (c : Client) (balances : list Coin) : outcome (option error) :=
  match balances with
  | [] => Ret (Some (errors_New "account has not enough balance"))
  | coin :: rest =>
      if String.eqb (Denom coin) (faucetDenom c)
      then match Int_Uint64 (Amount coin) with
           | Ret amount =>
               if faucetMinAmount c <=? amount then Ret None
               else scanBalances c rest
           | Panics msg => Panics msg
           | Blocks => Blocks
           end
      else scanBalances c rest
  end.

Definition checkAccountBalance (c : Client) (ctx : GoContext) (address : string)
  : M (option error) :=
  balancesResp <- ask (bank_AllBalances env ctx address) (EvAllBalances ctx address) ;;
  match balancesResp with
  | Err err => ret (Some err)
  | Ok balances =>
      if (0 <? Z.of_nat (List.length balances))
      then lift (scanBalances c balances)
      else ret (Some (errors_New "account has not enough balance"))
  end.

(** [backoff.Retry] belongs to a library outside the package.  It runs the
    operation until it succeeds, waiting [NextBackOff] between attempts,
    and gives up once the context of the policy is done; the clock, that
    is the environment, decides after how many attempts that is. *)
Fixpoint retryLoop (operation : M (option error)) (b : BackOff) (more : nat)
  : M (option error) :=
  err <- operation ;;
  match err with
  | None => ret None
  | Some e =>
      match more with
      | O => ret (Some (retry_GiveUp env b e))
      | S n => emit (EvSleep (NextBackOff b)) ;;; retryLoop operation b n
      end
  end.

Definition backoff_Retry (operation : M (option error)) (b : BackOff)
  : M (option error) :=
  emit (EvRetry b) ;;;
  more <- (fun p => match retry_More env b (sdkConfig p) (world p) with
                    | (n, w) => (Ret n, {| world := w; sdkConfig := sdkConfig p;
                                           mconf := mconf p |}, [])
                    end) ;;
  retryLoop operation b more.

(** The loop over [faucetResp.Transfers]. *)
Fixpoint firstTransferError (transfers : list Transfer) : option string :=
  match transfers with
  | [] => None
  | transfer :: rest =>
      if negb (String.eqb (Transfer_Error transfer) "")
      then Some (Transfer_Error transfer)
      else firstTransferError rest
  end.

(** [Client.makeSureAccountHasTokens]. *)
Definition makeSureAccountHasTokens (c : Client) (ctx : GoContext) (address : string)
  : M (option error) :=
  err <- checkAccountBalance c ctx address ;;
  match err with
  | None => ret None
  | Some _ =>
      let req := {| AccountAddress := address; Request_Denom := None; Request_Amount := None |} in
      r <- ask (faucet_Transfer env (faucetAddress c) ctx req)
               (EvFaucetTransfer (faucetAddress c) req) ;;
      match r with
      | Err err => ret (Some (errors_Wrap err "faucet server request failed"))
      | Ok faucetResp =>
          if negb (String.eqb (Response_Error faucetResp) "")
          then ret (Some (errors_New ("cannot retrieve tokens from faucet: "
                                        ++ Response_Error faucetResp)))
          else
            match firstTransferError (Transfers faucetResp) with
            | Some transferError =>
                ret (Some (errors_New ("cannot retrieve tokens from faucet: "
                                         ++ transferError)))
            | None =>
                let ctx' := WithTimeout ctx FaucetTransferEnsureDuration in
                backoff_Retry (checkAccountBalance c ctx' address)
                  (WithContext (NewConstantBackOff time_Second) ctx')
            end
      end
  end.

(** [Client.prepareBroadcast]. *)
Definition prepareBroadcast (c : Client) (ctx : GoContext) (accountName : string)
  (msgs : list Msg) : M (option error) :=
  r <- Client_Account c accountName ;;
  match r with
  | Err err => ret (Some err)
  | Ok account =>
      if useFaucet c
      then makeSureAccountHasTokens c ctx (account_Address env account (addressPrefix c))
      else ret None
  end.

(** [prepareFactory]. *)
Definition prepareFactory (clientCtx : Context) (txf : Factory)
  : M (Factory * option error) :=
  let from := GetFromAddress clientCtx in
  err <- ask (retriever_EnsureExists env clientCtx from) (EvEnsureExists from) ;;
  match err with
  | Some e => ret (txf, Some e)
  | None =>
      let initNum := f_accountNumber txf in
      let initSeq := f_sequence txf in
      if (initNum =? 0) || (initSeq =? 0)
      then
        r <- ask (retriever_GetAccountNumberSequence env clientCtx from)
                 (EvGetAccountNumberSequence from) ;;
        match r with
        | Err e => ret (txf, Some e)
        | Ok (num, seq) =>
            let txf1 := if initNum =? 0 then WithAccountNumber txf num else txf in
            let txf2 := if initSeq =? 0 then WithSequence txf1 seq else txf1 in
            ret (txf2, None)
        end
      else ret (txf, None)
  end.

(** [tx.BuildUnsignedTx] and [tx.Sign] of the Cosmos SDK. *)
Definition tx_BuildUnsignedTx (txf : Factory) (msgs : list Msg) : M (res Tx) :=
  let r := match tx_BuildRefused env txf msgs with
           | Some e => Err e
           | None => Ok {| tx_Msgs := msgs; tx_GasLimit := f_gas txf;
                           tx_Signatures := [] |}
           end in
  emit (EvBuildUnsignedTx txf msgs r) ;;; ret r.

(** The sign mode [tx.Sign] uses. *)
Definition tx_signMode (txf : Factory) : SignMode :=
  match f_signMode txf with
  | SIGN_MODE_UNSPECIFIED => txConfig_DefaultMode env
  | mode => mode
  end.

Definition tx_Sign (txf : Factory) (name : string) (txBuilder : Tx) : M (res Tx) :=
  fun p =>
    let signMode := tx_signMode txf in
    let signerData := {| sd_ChainID := f_chainID txf;
                         sd_AccountNumber := f_accountNumber txf;
                         sd_Sequence := f_sequence txf |} in
    match sdk_Sign env name signMode signerData txBuilder (sdkConfig p) (world p) with
    | (r, w) =>
        let p' := {| world := w; sdkConfig := sdkConfig p; mconf := mconf p |} in
        match r with
        | Signed sigBytes =>
            let signed :=
              {| tx_Msgs := tx_Msgs txBuilder;
                 tx_GasLimit := tx_GasLimit txBuilder;
                 tx_Signatures := [ {| sig_Signer := name;
                                       sig_Mode := signMode;
                                       sig_Data := signerData;
                                       sig_Bytes := sigBytes |} ] |} in
            (Ret (Ok signed), p',
             [EvSign txf name (sdkConfig p) (mconf p) (Signed signed)])
        | Refused e =>
            (Ret (Err e), p', [EvSign txf name (sdkConfig p) (mconf p) (Refused e)])
        | SignPanics msg =>
            (Panics msg, p', [EvSign txf name (sdkConfig p) (mconf p) (SignPanics msg)])
        end
    end.

(** The provision function both [BroadcastTxWithProvision] and
    [BroadcastTxWithProvisionCreateAccount] return: build, sign, encode,
    broadcast, classify. *)
Definition provision (context : Context) (txf : Factory) (accountName : string)
  (msgs : list Msg) : M (Response * option error) :=
  r <- tx_BuildUnsignedTx txf msgs ;;
  match r with
  | Err err => ret (Response_zero, Some err)
  | Ok txUnsigned =>
      r <- tx_Sign txf accountName txUnsigned ;;
      match r with
      | Err err => ret (Response_zero, Some err)
      | Ok txSigned =>
          let encoded := tx_Encode env txSigned in
          emit (EvTxEncode txSigned encoded) ;;;
          match encoded with
          | Err err => ret (Response_zero, Some err)
          | Ok txBytes =>
              b <- ask (ctx_BroadcastTx env context txBytes)
                       (fun b => EvBroadcastTx txBytes (fst b) (snd b)) ;;
              err <- lift (handleBroadcastResult (fst b) (snd b)) ;;
              ret ({| codec := ctx_Codec context; Response_TxResponse := fst b |}, err)
          end
      end
  end.

Definition Provisioner : Type := M (Response * option error).

(** [Client.BroadcastTxWithProvision]. *)
Definition BroadcastTxWithProvision (c : Client) (accountName : string)
  (msgs : list Msg) : M (uint64 * option Provisioner * option error) :=
  err <- prepareBroadcast c Background accountName msgs ;;
  match err with
  | Some e => ret (0, None, Some e)
  | None =>
      mconf_Lock ;;;
      defer mconf_Unlock
        (SetBech32PrefixForAccount (addressPrefix c) (addressPrefix c ++ "pub") ;;;
         r <- Client_Address c accountName ;;
         match r with
         | Err e => ret (0, None, Some e)
         | Ok accountAddress =>
             let context :=
               WithFromAddress (WithFromName (c_Context c) accountName) accountAddress in
             fe <- prepareFactory context (c_Factory c) ;;
             match snd fe with
             | Some e => ret (0, None, Some e)
             | None =>
                 let txf := fst fe in
                 r <- ask (tx_CalculateGas env context txf msgs)
                          (EvCalculateGas txf msgs) ;;
                 match r with
                 | Err e => ret (0, None, Some e)
                 | Ok gas =>
                     let gas := uint64_add gas 10000 in
                     let txf := WithGas txf gas in
                     ret (gas, Some (provision context txf accountName msgs), None)
                 end
             end
         end)
  end.

(** [Client.BroadcastTx]. *)
Definition BroadcastTx (c : Client) (accountName : string) (msgs : list Msg)
  : M (Response * option error) :=
  r <- BroadcastTxWithProvision c accountName msgs ;;
  match r with
  | (_, _, Some err) => ret (Response_zero, Some err)
  | (_, Some broadcast, None) => broadcast
  | (_, None, None) => lift (Panics "invalid memory address or nil pointer dereference")
  end.

(** [Client.BroadcastTxWithProvisionCreateAccount]. *)
Definition BroadcastTxWithProvisionCreateAccount (c : Client) (accountName : string)
  (msgs : list Msg) : M (uint64 * option Provisioner * option error) :=
  err <- prepareBroadcast c Background accountName msgs ;;
  match err with
  | Some e => ret (0, None, Some e)
  | None =>
      mconf_Lock ;;;
      defer mconf_Unlock
        (SetBech32PrefixForAccount (addressPrefix c) (addressPrefix c ++ "pub") ;;;
         r <- Client_Address c accountName ;;
         match r with
         | Err e => ret (0, None, Some e)
         | Ok accountAddress =>
             let context :=
               WithFromAddress (WithFromName (c_Context c) accountName) accountAddress in
             let txf := c_Factory c in
             r <- ask (tx_CalculateGas env context txf msgs)
                      (EvCalculateGas txf msgs) ;;
             match r with
             | Err e => ret (0, None, Some e)
             | Ok gas =>
                 let gas := uint64_add gas 10000 in
                 let txf := WithGas txf gas in
                 ret (gas, Some (provision context txf accountName msgs), None)
             end
         end)
  end.

(** [Client.BroadcastTxCreateAccount]. *)
Definition BroadcastTxCreateAccount (c : Client) (accountName : string)
  (msgs : list Msg) : M (Response * option error) :=
  r <- BroadcastTxWithProvisionCreateAccount c accountName msgs ;;
  match r with
  | (_, _, Some err) => ret (Response_zero, Some err)
  | (_, Some broadcast, None) => broadcast
  | (_, None, None) => lift (Panics "invalid memory address or nil pointer dereference")
  end.

End Pipeline.

(** ** Response.Decode *)

(** The error [Decode] returns comes from one of its three steps. *)
Inductive decodeError : Type :=
| HexError (e : hex.hexError)
| CodecError (e : error)
| AnyError (e : error).

Section Decoding.

(** The Go type of the caller's [message], and what
    [prototypes.UnmarshalAny(any, message)] leaves in it. *)
Variable T : Type.
Variable UnmarshalAny : Any -> res T.

Definition Decode (r : Response) : outcome (result decodeError T) :=
  match Response_TxResponse r with
  | None => Panics "invalid memory address or nil pointer dereference"
  | Some resp =>
      match hex.DecodeString (Data resp) with
      | Err err => Ret (Err (HexError err))
      | Ok data =>
          match codec r with
          | None => Panics "invalid memory address or nil pointer dereference"
          | Some cdc =>
              match Unmarshal_TxMsgData cdc data with
              | Err err => Ret (Err (CodecError err))
              | Ok txMsgData =>
                  match TxMsgData_Data txMsgData with
                  | [] => Panics "index out of range [0] with length 0"
                  | resData :: _ =>
                      match UnmarshalAny {| TypeUrl := MsgType resData ++ "Response";
                                            Value := MsgData_Data resData |} with
                      | Err err => Ret (Err (AnyError err))
                      | Ok m => Ret (Ok m)
                      end
                  end
              end
          end
      end
  end.

End Decoding.

(** ** Reading a trace *)

Definition isSequenceQuery (e : Event) : bool :=
  match e with EvGetAccountNumberSequence _ _ => true | _ => false end.

Definition isExistenceCheck (e : Event) : bool :=
  match e with EvEnsureExists _ _ => true | _ => false end.

Definition isRetrieverCall (e : Event) : bool :=
  isExistenceCheck e || isSequenceQuery e.

Definition isFaucetRequest (e : Event) : bool :=
  match e with EvFaucetTransfer _ _ _ => true | _ => false end.

Definition isBalanceQuery (e : Event) : bool :=
  match e with EvAllBalances _ _ _ => true | _ => false end.

Definition isRetry (e : Event) : bool :=
  match e with EvRetry _ => true | _ => false end.

Definition isSleep (e : Event) : bool :=
  match e with EvSleep _ => true | _ => false end.

Definition isSimulation (e : Event) : bool :=
  match e with EvCalculateGas _ _ _ => true | _ => false end.

Definition isSigning (e : Event) : bool :=
  match e with EvSign _ _ _ _ _ => true | _ => false end.

Definition count (f : Event -> bool) (t : list Event) : nat :=
  List.length (List.filter f t).

(** The transactions signed along a trace. *)
Fixpoint signedTxs (t : list Event) : list Tx :=
  match t with
  | [] => []
  | EvSign _ _ _ _ (Signed tx) :: rest => tx :: signedTxs rest
  | _ :: rest => signedTxs rest
  end.

(** The address configuration and the state of [mconf] at each signature. *)
Fixpoint signingConditions (t : list Event) : list (SdkConfig * bool) :=
  match t with
  | [] => []
  | EvSign _ _ config locked _ :: rest => (config, locked) :: signingConditions rest
  | _ :: rest => signingConditions rest
  end.

(** A faucet response carries no error, neither at the top nor in a transfer. *)
Definition faucetAccepted (resp : TransferResponse) : bool :=
  String.eqb (Response_Error resp) "" &&
  forallb (fun t => String.eqb (Transfer_Error t) "") (Transfers resp).

(** Some balance entry is in the faucet denom and reaches the minimum. *)
Definition hasEnough (c : Client) (balances : list Coin) : bool :=
  existsb (fun coin => String.eqb (Denom coin) (faucetDenom c)
                       && (faucetMinAmount c <=? Amount coin)) balances.

(** What a polling loop may do: query the balance and sleep. *)
Definition isPoll (e : Event) : bool := isBalanceQuery e || isSleep e.


(** What the funding stage may do. *)
Definition isFunding (e : Event) : bool :=
  match e with
  | EvGetByName _ _ | EvAllBalances _ _ _ | EvFaucetTransfer _ _ _
  | EvRetry _ | EvSleep _ => true
  | _ => false
  end.

(** What the provision function may do. *)
Definition isCommit (e : Event) : bool :=
  match e with
  | EvBuildUnsignedTx _ _ _ | EvSign _ _ _ _ _ | EvTxEncode _ _
  | EvBroadcastTx _ _ _ => true
  | _ => false
  end.

(** A computation is confined to a kind of events when it emits no other
    event and leaves the address configuration and the mutex alone. *)
Definition confined {W A : Type} (kind : Event -> bool) (m : M W A) : Prop :=
  forall p,
    Forall (fun e => kind e = true) (trace_of (m p)) /\
    sdkConfig (proc_of (m p)) = sdkConfig p /\
    mconf (proc_of (m p)) = mconf p.

(** The factory [prepareFactory] hands on when its query answers
    [(num, seq)]. *)
Definition resolved (txf : Factory) (num seq : uint64) : Factory :=
  let txf1 := if f_accountNumber txf =? 0 then WithAccountNumber txf num else txf in
  if f_sequence txf =? 0 then WithSequence txf1 seq else txf1.

(** The response a node gives for a result payload: the SDK writes the
    bytes as hexadecimal text, in upper case. *)
Definition responseOf (cdc : Codec) (upperCase : bool) (payload : list byte)
  : Response :=
  {| codec := Some cdc;
     Response_TxResponse :=
       Some {| TxHash := ""; Code := 0;
               Data := if upperCase
                       then strings.ToUpper (hex.EncodeToString payload)
                       else hex.EncodeToString payload;
               RawLog := "" |} |}.

(** The gas a call quoted, when it returned a provision function. *)
Definition quotedGas {W : Type}
  (o : outcome (uint64 * option (Provisioner W) * option error)) : option uint64 :=
  match o with
  | Ret (gas, Some _, None) => Some gas
  | _ => None
  end.

(** ** A scripted environment

    A small world to run the pipeline in: the ledger, the faucet and the
    keyring answer from a script.  The state of the world is the number of
    balance queries answered so far. *)

Module Demo.

Record Script : Type := {
  s_fundedAfter : nat;                 (* balance queries answered before funds show *)
  s_balances : list Coin;              (* the balances once they show *)
  s_faucet : res TransferResponse;
  s_more : nat;
  s_exists : option error;
  s_numseq : res (uint64 * uint64);
  s_gas : res uint64;
  s_broadcast : option TxResponse * option error
}.


Definition isForeign (m : Msg) : bool :=
  match msg_Value m with
  | [x73; x70; x6e] => true
  | _ => false
  end.

Definition accounts (name : string) : res Account :=
  if String.eqb name "alice" then Ok {| acc_Name := "alice"; acc_Address := [x01] |}
  else if String.eqb name "bob" then Ok {| acc_Name := "bob"; acc_Address := [x02] |}
  else Err (errors_New "account doesn't exist").

Definition env (s : Script) : Env nat :=
  {| registry_GetByName := fun name _ w => (accounts name, w);
     account_Address := fun a prefix => (prefix ++ "1" ++ acc_Name a)%string;
     bank_AllBalances := fun _ _ _ w =>
       (Ok (if Nat.ltb w (s_fundedAfter s) then [] else s_balances s), S w);
     faucet_Transfer := fun _ _ _ _ w => (s_faucet s, w);
     retry_More := fun _ _ w => (s_more s, w);
     retry_GiveUp := fun _ _ => errors_New "context deadline exceeded";
     retriever_EnsureExists := fun _ _ _ w => (s_exists s, w);
     retriever_GetAccountNumberSequence := fun _ _ _ w => (s_numseq s, w);
     tx_CalculateGas := fun _ _ _ _ w => (s_gas s, w);
     tx_BuildRefused := fun txf _ =>
       if String.eqb (f_chainID txf) ""
       then Some (errors_New "chain ID required but not specified") else None;
     txConfig_DefaultMode := SIGN_MODE_DIRECT;
     sdk_Sign := fun _ _ _ tx config w =>
       (if existsb isForeign (tx_Msgs tx)
           && negb (String.eqb (bech32AccountAddrPrefix config) "spn")
        then SignPanics ("invalid Bech32 prefix; expected "
                         ++ bech32AccountAddrPrefix config ++ ", got spn")
        else Signed [x73; x69; x67], w);
     tx_Encode := fun _ => Ok [x74; x78];
     ctx_BroadcastTx := fun _ _ _ w => (s_broadcast s, w) |}.

Definition accepted : TxResponse :=
  {| TxHash := "AB12"; Code := 0; Data := ""; RawLog := "[]" |}.

Definition funded : list Coin := [ {| Denom := "token"; Amount := 1000 |} ].

Definition script : Script :=
  {| s_fundedAfter := 0;
     s_balances := funded;
     s_faucet := Ok {| Response_Error := ""; Transfers := [] |};
     s_more := 3;
     s_exists := None;
     s_numseq := Ok (7, 3);
     s_gas := Ok 52000;
     s_broadcast := (Some accepted, None) |}.

Definition withFaucet (s : Script) (after : nat) (r : res TransferResponse) : Script :=
  {| s_fundedAfter := after; s_balances := s_balances s; s_faucet := r;
     s_more := s_more s; s_exists := s_exists s; s_numseq := s_numseq s;
     s_gas := s_gas s; s_broadcast := s_broadcast s |}.

Definition withExists (s : Script) (e : option error) : Script :=
  {| s_fundedAfter := s_fundedAfter s; s_balances := s_balances s;
     s_faucet := s_faucet s; s_more := s_more s; s_exists := e;
     s_numseq := s_numseq s; s_gas := s_gas s; s_broadcast := s_broadcast s |}.

Definition withGas (s : Script) (g : res uint64) : Script :=
  {| s_fundedAfter := s_fundedAfter s; s_balances := s_balances s;
     s_faucet := s_faucet s; s_more := s_more s; s_exists := s_exists s;
     s_numseq := s_numseq s; s_gas := g; s_broadcast := s_broadcast s |}.

Definition withBalances (s : Script) (b : list Coin) : Script :=
  {| s_fundedAfter := s_fundedAfter s; s_balances := b;
     s_faucet := s_faucet s; s_more := s_more s; s_exists := s_exists s;
     s_numseq := s_numseq s; s_gas := s_gas s; s_broadcast := s_broadcast s |}.

(** A codec for envelopes with short fields: every field is a tag byte, a
    length byte and the payload, as in the protobuf wire format. *)
Definition lengthByte (l : list byte) : byte :=
  match Byte.of_nat (List.length l) with Some b => b | None => x00 end.

Definition field (tag : byte) (payload : list byte) : list byte :=
  match payload with
  | [] => []
  | _ => tag :: lengthByte payload :: payload
  end.

Definition marshalMsgData (d : MsgData) : list byte :=
  field x0a (list_byte_of_string (MsgType d)) ++ field x12 (MsgData_Data d).

Definition marshalTxMsgData (m : TxMsgData) : list byte :=
  List.concat (List.map (fun d => x0a :: lengthByte (marshalMsgData d) :: marshalMsgData d)
                 (TxMsgData_Data m)).

Fixpoint fields (fuel : nat) (bs : list byte) : res (list (byte * list byte)) :=
  match fuel, bs with
  | _, [] => Ok []
  | S n, tag :: len :: rest =>
      if Nat.ltb (List.length rest) (Byte.to_nat len)
      then Err (errors_New "unexpected EOF")
      else match fields n (skipn (Byte.to_nat len) rest) with
           | Ok fs => Ok ((tag, firstn (Byte.to_nat len) rest) :: fs)
           | Err e => Err e
           end
  | _, _ => Err (errors_New "unexpected EOF")
  end.

Definition unmarshalMsgData (bs : list byte) : res MsgData :=
  match fields (List.length bs) bs with
  | Err e => Err e
  | Ok fs =>
      Ok (fold_left
            (fun d f =>
               match fst f with
               | x0a => {| MsgType := string_of_list_byte (snd f);
                           MsgData_Data := MsgData_Data d |}
               | x12 => {| MsgType := MsgType d; MsgData_Data := snd f |}
               | _ => d
               end)
            fs {| MsgType := ""; MsgData_Data := [] |})
  end.

Fixpoint unmarshalEntries (fs : list (byte * list byte)) : res (list MsgData) :=
  match fs with
  | [] => Ok []
  | (x0a, payload) :: rest =>
      match unmarshalMsgData payload, unmarshalEntries rest with
      | Ok d, Ok ds => Ok (d :: ds)
      | Err e, _ => Err e
      | _, Err e => Err e
      end
  | _ :: rest => unmarshalEntries rest
  end.

Definition unmarshalTxMsgData (bs : list byte) : res TxMsgData :=
  match fields (List.length bs) bs with
  | Err e => Err e
  | Ok fs =>
      match unmarshalEntries fs with
      | Ok ds => Ok {| TxMsgData_Data := ds |}
      | Err e => Err e
      end
  end.

Definition protoCodec : Codec := {| Unmarshal_TxMsgData := unmarshalTxMsgData |}.

(** A message type whose content is its bytes: [UnmarshalAny] checks the
    name after the last slash of the type URL, as the protobuf library does. *)
Definition unmarshalAnyAs (name : string) (any : Any) : res (list byte) :=
  if String.eqb (TypeUrl any) ("/" ++ name) then Ok (Value any)
  else Err (errors_New "mismatched message type").

Definition context0 : Context :=
  {| ctx_ChainID := "demo-1"; ctx_HomeDir := "/home/demo/.demo-1";
     ctx_FromName := ""; ctx_FromAddress := [];
     ctx_BroadcastMode := "block"; ctx_SkipConfirmation := true;
     ctx_Codec := Some protoCodec |}.

Definition client (prefix : string) (faucet : bool) : Client :=
  {| c_Factory := newFactory context0;
     c_Context := context0;
     addressPrefix := prefix;
     nodeAddress := defaultNodeAddress;
     chainID := "demo-1";
     useFaucet := faucet;
     faucetAddress := defaultFaucetAddress;
     faucetDenom := defaultFaucetDenom;
     faucetMinAmount := defaultFaucetMinAmount;
     homePath := "/home/demo/.demo-1" |}.

Definition proc0 : Proc nat :=
  {| world := 0%nat;
     sdkConfig := {| bech32AccountAddrPrefix := "cosmos";
                     bech32AccountPubPrefix := "cosmospub" |};
     mconf := false |}.

Definition send : Msg :=
  {| msg_TypeURL := "/cosmos.bank.v1beta1.MsgSend"; msg_Value := [x01; x02] |}.

End Demo.
(** ** More ways to read a trace *)

Definition isLock (e : Event) : bool :=
  match e with EvLock => true | _ => false end.

Definition isUnlock (e : Event) : bool :=
  match e with EvUnlock => true | _ => false end.

Definition isBroadcast (e : Event) : bool :=
  match e with EvBroadcastTx _ _ _ => true | _ => false end.

(** The prefixes [BroadcastTxWithProvision] installs for a client. *)
Definition installed (c : Client) : SdkConfig :=
  {| bech32AccountAddrPrefix := addressPrefix c;
     bech32AccountPubPrefix := (addressPrefix c ++ "pub")%string |}.

(** What [BroadcastTxWithProvision] may do once funding is over. *)
Definition isCritical (e : Event) : bool :=
  match e with
  | EvLock | EvUnlock | EvSetBech32PrefixForAccount _ _ | EvGetByName _ _
  | EvEnsureExists _ _ | EvGetAccountNumberSequence _ _ | EvCalculateGas _ _ _ => true
  | _ => false
  end.

(** A computation that never blocks: only [mconf.Lock] can. *)
Definition unblocking {W A : Type} (m : M W A) : Prop :=
  forall p, out_of (m p) <> Blocks.



(** [mconf] guards the address configuration along a trace: the mutex is
    taken only when free and released only when held, the configuration is
    written only while it is held, and it is free at the end. *)
Fixpoint guarded (held : bool) (t : list Event) : bool :=
  match t with
  | [] => negb held
  | EvLock :: rest => negb held && guarded true rest
  | EvUnlock :: rest => held && guarded false rest
  | EvSetBech32PrefixForAccount _ _ :: rest => held && guarded held rest
  | _ :: rest => guarded held rest
  end.

Definition touchesConfig (e : Event) : bool :=
  match e with
  | EvLock | EvUnlock | EvSetBech32PrefixForAccount _ _ => true
  | _ => false
  end.

(** What a run that started at [p] owes to the rest of the process: it
    does not wait for the mutex for ever, it leaves the mutex free, it has
    written the address configuration under the mutex only and at most in
    one critical section, after which the configuration stays that of the
    client. *)
Definition disciplined {W A : Type} (c : Client) (p : Proc W)
  (run : outcome A * Proc W * list Event) : Prop :=
  out_of run <> Blocks /\
  mconf (proc_of run) = false /\
  guarded false (trace_of run) = true /\
  (count isLock (trace_of run) <= 1)%nat /\
  sdkConfig (proc_of run) =
    if (count isLock (trace_of run) =? 0)%nat then sdkConfig p else installed c.

(** ** Building a client: the options and [New] *)

Section Building.

(** [cosmosaccount.KeyringBackend] with its value [KeyringTest] and its
    zero value, [cosmosaccount.Registry] and [*rpchttp.HTTP] come from
    other packages: they are handles here. *)
Variable KeyringBackend : Type.
Variable KeyringTest : KeyringBackend.
Variable KeyringBackend_zero : KeyringBackend.
Variable HTTP : Type.
Variable Registry : Type.

(** The state of the host: the network and the file system. *)
Variable H : Type.

(** The whole of [Client]: the record [Client] above, which the broadcasting
    functions read, with the two handles and the keyring settings, which
    only [New] and the options use.  The writer [out] is always
    [io.Discard] and is left out. *)
Record FullClient : Type := {
  base : Client;
  RPC : option HTTP;
  AccountRegistry : option Registry;
  keyringServiceName : string;
  keyringBackend : KeyringBackend
}.

(** The zero values [client.Context{}] and [Client{}]. *)
Definition Context_zero : Context :=
  {| ctx_ChainID := ""; ctx_HomeDir := ""; ctx_FromName := ""; ctx_FromAddress := [];
     ctx_BroadcastMode := ""; ctx_SkipConfirmation := false; ctx_Codec := None |}.

Definition Client_zero : Client :=
  {| c_Factory := Factory_zero; c_Context := Context_zero; addressPrefix := "";
     nodeAddress := ""; chainID := ""; useFaucet := false; faucetAddress := "";
     faucetDenom := ""; faucetMinAmount := 0; homePath := "" |}.

Definition FullClient_zero : FullClient :=
  {| base := Client_zero; RPC := None; AccountRegistry := None;
     keyringServiceName := ""; keyringBackend := KeyringBackend_zero |}.

(** Assignments to the fields of a [Client]. *)
Definition set_base (f : Client -> Client) (c : FullClient) : FullClient :=
  {| base := f (base c); RPC := RPC c; AccountRegistry := AccountRegistry c;
     keyringServiceName := keyringServiceName c; keyringBackend := keyringBackend c |}.

Definition set_homePath (path : string) (c : Client) : Client :=
  {| c_Factory := c_Factory c; c_Context := c_Context c;
     addressPrefix := addressPrefix c; nodeAddress := nodeAddress c;
     chainID := chainID c; useFaucet := useFaucet c;
     faucetAddress := faucetAddress c; faucetDenom := faucetDenom c;
     faucetMinAmount := faucetMinAmount c; homePath := path |}.

Definition set_nodeAddress (addr : string) (c : Client) : Client :=
  {| c_Factory := c_Factory c; c_Context := c_Context c;
     addressPrefix := addressPrefix c; nodeAddress := addr;
     chainID := chainID c; useFaucet := useFaucet c;
     faucetAddress := faucetAddress c; faucetDenom := faucetDenom c;
     faucetMinAmount := faucetMinAmount c; homePath := homePath c |}.

Definition set_addressPrefix (prefix : string) (c : Client) : Client :=
  {| c_Factory := c_Factory c; c_Context := c_Context c;
     addressPrefix := prefix; nodeAddress := nodeAddress c;
     chainID := chainID c; useFaucet := useFaucet c;
     faucetAddress := faucetAddress c; faucetDenom := faucetDenom c;
     faucetMinAmount := faucetMinAmount c; homePath := homePath c |}.

Definition set_chainID (id : string) (c : Client) : Client :=
  {| c_Factory := c_Factory c; c_Context := c_Context c;
     addressPrefix := addressPrefix c; nodeAddress := nodeAddress c;
     chainID := id; useFaucet := useFaucet c;
     faucetAddress := faucetAddress c; faucetDenom := faucetDenom c;
     faucetMinAmount := faucetMinAmount c; homePath := homePath c |}.

Definition set_faucet (use : bool) (address denom : string) (minAmount : uint64)
  (c : Client) : Client :=
  {| c_Factory := c_Factory c; c_Context := c_Context c;
     addressPrefix := addressPrefix c; nodeAddress := nodeAddress c;
     chainID := chainID c; useFaucet := use;
     faucetAddress := address; faucetDenom := denom;
     faucetMinAmount := minAmount; homePath := homePath c |}.

Definition set_Context_Factory (context : Context) (txf : Factory) (c : Client) : Client :=
  {| c_Factory := txf; c_Context := context;
     addressPrefix := addressPrefix c; nodeAddress := nodeAddress c;
     chainID := chainID c; useFaucet := useFaucet c;
     faucetAddress := faucetAddress c; faucetDenom := faucetDenom c;
     faucetMinAmount := faucetMinAmount c; homePath := homePath c |}.

(** [Option]: a function that configures the client. *)
Definition Option : Type := FullClient -> FullClient.

Definition WithHome (path : string) : Option := set_base (set_homePath path).

Definition WithKeyringServiceName (name : string) : Option :=
  fun c =>
    {| base := base c; RPC := RPC c; AccountRegistry := AccountRegistry c;
       keyringServiceName := name; keyringBackend := keyringBackend c |}.

Definition WithKeyringBackend (backend : KeyringBackend) : Option :=
  fun c =>
    {| base := base c; RPC := RPC c; AccountRegistry := AccountRegistry c;
       keyringServiceName := keyringServiceName c; keyringBackend := backend |}.

Definition WithNodeAddress (addr : string) : Option := set_base (set_nodeAddress addr).

Definition WithAddressPrefix (prefix : string) : Option :=
  set_base (set_addressPrefix prefix).

Definition WithUseFaucet (faucetAddress' denom : string) (minAmount : uint64) : Option :=
  set_base (fun c =>
    set_faucet true faucetAddress'
      (if negb (String.eqb denom "") then denom else faucetDenom c)
      (if negb (minAmount =? 0) then minAmount else faucetMinAmount c)
      c).

(** The options this package offers. *)
Inductive packageOption : Option -> Prop :=
| IsWithHome path : packageOption (WithHome path)
| IsWithKeyringServiceName name : packageOption (WithKeyringServiceName name)
| IsWithKeyringBackend backend : packageOption (WithKeyringBackend backend)
| IsWithNodeAddress addr : packageOption (WithNodeAddress addr)
| IsWithAddressPrefix prefix : packageOption (WithAddressPrefix prefix)
| IsWithUseFaucet address denom minAmount :
    packageOption (WithUseFaucet address denom minAmount).

(** What [New] calls outside the package.  [rpc_Status] gives
    [statusResp.NodeInfo.Network]; [cosmosaccount_New] takes the keyring
    service name, the keyring backend and the home. *)
Record Host : Type := {
  rpchttp_New : string -> string -> H -> res HTTP * H;
  rpc_Status : HTTP -> GoContext -> H -> res string * H;
  os_UserHomeDir : H -> res string * H;
  filepath_Join : string -> string -> string;
  cosmosaccount_New : string -> KeyringBackend -> string -> H -> res Registry * H;
  codec_NewProtoCodec : Codec
}.

Inductive BootEvent : Type :=
| EvRpcNew (remote wsEndpoint : string)
| EvStatus (ctx : GoContext)
| EvUserHomeDir
| EvRegistryNew (serviceName : string) (backend : KeyringBackend) (home : string).

Variable host : Host.

(** [flags.BroadcastBlock]. *)
Definition BroadcastBlock : string := "block".

(** [newContext]; the codec is the one [codec.NewProtoCodec] makes. *)
Definition newContext (chainID home : string) : Context :=
  {| ctx_ChainID := chainID; ctx_HomeDir := home; ctx_FromName := "";
     ctx_FromAddress := []; ctx_BroadcastMode := BroadcastBlock;
     ctx_SkipConfirmation := true; ctx_Codec := Some (codec_NewProtoCodec host) |}.

(** The client [New] starts from, before the options. *)
Definition New_defaults : FullClient :=
  {| base := {| c_Factory := Factory_zero; c_Context := Context_zero;
                addressPrefix := "cosmos"; nodeAddress := defaultNodeAddress;
                chainID := ""; useFaucet := false;
                faucetAddress := defaultFaucetAddress;
                faucetDenom := defaultFaucetDenom;
                faucetMinAmount := defaultFaucetMinAmount; homePath := "" |};
     RPC := None; AccountRegistry := None;
     keyringServiceName := ""; keyringBackend := KeyringTest |}.

(** The loop [for _, apply := range options { apply(&c) }]. *)
Definition applyOptions (options : list Option) (c : FullClient) : FullClient :=
  fold_left (fun c apply => apply c) options c.

(** The end of [New], from the call of [cosmosaccount.New] on. *)
Definition New_registry (c : FullClient) (h : H) (t : list BootEvent)
  : (FullClient * option error) * H * list BootEvent :=
  let ev := EvRegistryNew (keyringServiceName c) (keyringBackend c) (homePath (base c)) in
  match cosmosaccount_New host (keyringServiceName c) (keyringBackend c)
          (homePath (base c)) h with
  | (Err err, h') => ((FullClient_zero, Some err), h', t ++ [ev])
  | (Ok registry, h') =>
      let context := newContext (chainID (base c)) (homePath (base c)) in
      let c := {| base := set_Context_Factory context (newFactory context) (base c);
                  RPC := RPC c; AccountRegistry := Some registry;
                  keyringServiceName := keyringServiceName c;
                  keyringBackend := keyringBackend c |} in
      ((c, None), h', t ++ [ev])
  end.

(** [New]. *)
Definition New (ctx : GoContext) (options : list Option) (h : H)
  : (FullClient * option error) * H * list BootEvent :=
  let c := applyOptions options New_defaults in
  match rpchttp_New host (nodeAddress (base c)) "/websocket" h with
  | (Err err, h1) =>
      ((FullClient_zero, Some err), h1,
       [EvRpcNew (nodeAddress (base c)) "/websocket"])
  | (Ok rpc, h1) =>
      let c := {| base := base c; RPC := Some rpc; AccountRegistry := AccountRegistry c;
                  keyringServiceName := keyringServiceName c;
                  keyringBackend := keyringBackend c |} in
      let t1 := [EvRpcNew (nodeAddress (base c)) "/websocket"; EvStatus ctx] in
      match rpc_Status host rpc ctx h1 with
      | (Err err, h2) => ((FullClient_zero, Some err), h2, t1)
      | (Ok network, h2) =>
          let c := set_base (set_chainID network) c in
          if String.eqb (homePath (base c)) ""
          then
            match os_UserHomeDir host h2 with
            | (Err err, h3) => ((FullClient_zero, Some err), h3, t1 ++ [EvUserHomeDir])
            | (Ok home, h3) =>
                let path := filepath_Join host home ("." ++ chainID (base c)) in
                New_registry (set_base (set_homePath path) c) h3 (t1 ++ [EvUserHomeDir])
            end
          else New_registry c h2 t1
      end
  end.

End Building.

Arguments EvRpcNew {KeyringBackend} remote wsEndpoint.
Arguments EvStatus {KeyringBackend} ctx.
Arguments EvUserHomeDir {KeyringBackend}.

(** A host for the examples: the node reports the chain id [demo-1], the
    user's home is [/home/demo], and paths are joined with a slash. *)
Module DemoHost.

Definition host : Host string unit unit nat :=
  {| rpchttp_New := fun _ _ h => (Ok tt, h);
     rpc_Status := fun _ _ h => (Ok "demo-1", S h);
     os_UserHomeDir := fun h => (Ok "/home/demo", h);
     filepath_Join := fun dir name => (dir ++ "/" ++ name)%string;
     cosmosaccount_New := fun _ _ _ h => (Ok tt, h);
     codec_NewProtoCodec := Demo.protoCodec |}.

Definition New (options : list (Option string unit unit))
  : (FullClient string unit unit * option error) * nat * list (BootEvent string) :=
  New "test" "" host Background options 0%nat.

End DemoHost.

(** ** package strconv *)

Module strconv.

(** [ErrSyntax] and [ErrRange]. *)
Inductive parseError : Type :=
| ErrSyntax
| ErrRange.

(** The digit a byte stands for in [ParseUint]: the decimal digits, then
    the letters of either case from 10 on. *)
Definition digitOf (c : ascii) : option Z :=
  let c := Z.of_N (N_of_ascii c) in
  if (48 <=? c) && (c <=? 57) then Some (c - 48)
  else
    let l := Z.lor c 32 in
    if (97 <=? l) && (l <=? 122) then Some (l - 97 + 10) else None.

(** [maxUint64/10 + 1], the smallest number whose product by ten overflows. *)
Definition cutoff : uint64 := (uint64_modulus - 1) / 10 + 1.
Definition maxVal : uint64 := uint64_modulus - 1.

(** The loop of [ParseUint] over the bytes of the text, for base 10 and
    64 bits. *)
Fixpoint parseLoop (s : string) (n : uint64) : uint64 * option parseError :=
  match s with
  | EmptyString => (n, None)
  | String c rest =>
      match digitOf c with
      | None => (0, Some ErrSyntax)
      | Some d =>
          if 10 <=? d then (0, Some ErrSyntax)
          else if cutoff <=? n then (maxVal, Some ErrRange)
          else
            let n := (n * 10) mod uint64_modulus in
            let n1 := uint64_add n d in
            if (n1 <? n) || (maxVal <? n1) then (maxVal, Some ErrRange)
            else parseLoop rest n1
      end
  end.

(** [strconv.ParseUint(s, 10, 64)] of the Go standard library, with the
    base and the bit size of the one call in this repository: no sign, no
    prefix, no underscore. *)
Definition ParseUint (s : string) : uint64 * option parseError :=
  match s with
  | EmptyString => (0, Some ErrSyntax)
  | _ => parseLoop s 0
  end.

(** The text of a [*strconv.NumError] of [ParseUint] on [s]; [quote] is
    [strconv.Quote]. *)
Definition NumError (quote : string -> string) (s : string) (e : parseError) : error :=
  errorString ("strconv.ParseUint: parsing " ++ quote s ++ ": " ++
               match e with
               | ErrSyntax => "invalid syntax"
               | ErrRange => "value out of range"
               end).

(** The number a text of decimal digits writes, if it is one. *)
Definition isDigit (c : ascii) : bool :=
  let c := Z.of_N (N_of_ascii c) in (48 <=? c) && (c <=? 57).

Fixpoint decimal (s : string) (acc : Z) : option Z :=
  match s with
  | EmptyString => Some acc
  | String c rest =>
      if isDigit c then decimal rest (10 * acc + (Z.of_N (N_of_ascii c) - 48))
      else None
  end.

End strconv.

(** ** package starportcmd: the command to join a network *)

Module starportcmd.

Definition flagGentx : string := "gentx".

(** [cliquiz.Option] values, as the package builds them, and a
    [cliquiz.Question]. *)
Inductive QuizOption : Type :=
| Required
| DefaultAnswer (answer : string).

Record Question : Type := {
  q_Question : string;
  q_Options : list QuizOption
}.

(** [network.SourceLaunchID]. *)
Inductive SourceOption : Type :=
| SourceLaunchID (launchID : uint64).

Section Join.

(** The state of the world, and the handles of other packages. *)
Variable S : Type.
Variables Command Builder Spinner Blockchain InitOption : Type.

(** What [initializeNetwork] returns besides its error. *)
Record Session : Type := {
  nb : Builder;
  s : Spinner;
  shutdown : S -> S
}.

Inductive CliEvent : Type :=
| EvInitializeNetwork (cmd : Command)
| EvShutdown
| EvBlockchain (ctx : GoContext) (source : SourceOption) (options : list InitOption)
| EvSpinnerStop
| EvSpinnerStart
| EvIsEnabled (enabled : bool)
| EvGetIp (ip : string) (err : option error)
| EvAsk (question : Question) (answer : string) (err : option error)
| EvJoin (ctx : GoContext) (launchID : uint64) (amount : Coin)
         (publicAddr gentxPath : string) (err : option error).

(** What the handler calls outside this file.  [cliquiz_Ask] gives what
    the variable behind the question holds after the call, and the error. *)
Record Cli : Type := {
  initializeNetwork : Command -> S -> res Session * S;
  initOptionWithHomeFlag : Command -> list InitOption -> list InitOption;
  MustNotInitializedBefore : InitOption;
  cmd_Context : Command -> GoContext;
  flags_GetString : Command -> string -> string;
  strconv_Quote : string -> string;
  sdk_ParseCoinNormalized : string -> res Coin;
  nb_Blockchain : Builder -> GoContext -> SourceOption -> list InitOption ->
                  S -> res Blockchain * S;
  spinner_Stop : Spinner -> S -> S;
  spinner_Start : Spinner -> S -> S;
  xchisel_IsEnabled : S -> bool * S;
  ipify_GetIp : S -> (string * option error) * S;
  cliquiz_Ask : Question -> S -> (string * option error) * S;
  blockchain_Join : Blockchain -> GoContext -> uint64 -> Coin -> string -> string ->
                    S -> option error * S
}.

Variable cli : Cli.

(** A computation on the world that returns or panics and leaves a trace. *)
Definition IO (A : Type) : Type := S -> outcome A * S * list CliEvent.

Definition ret {A} (a : A) : IO A := fun w => (Ret a, w, []).

Definition bind {A B} (m : IO A) (k : A -> IO B) : IO B :=
  fun w =>
    match m w with
    | (Ret a, w1, t1) => match k a w1 with (o, w2, t2) => (o, w2, t1 ++ t2) end
    | (Panics msg, w1, t1) => (Panics msg, w1, t1)
    | (Blocks, w1, t1) => (Blocks, w1, t1)
    end.

Definition call {R} (f : S -> R * S) (ev : R -> CliEvent) : IO R :=
  fun w => match f w with (r, w1) => (Ret r, w1, [ev r]) end.

Definition act (f : S -> S) (ev : CliEvent) : IO unit :=
  fun w => (Ret tt, f w, [ev]).

(** [defer]: the deferred call runs when the body returns and when it
    panics. *)
Definition defer {A} (deferred : IO unit) (body : IO A) : IO A :=
  fun w =>
    match body w with
    | (Blocks, w1, t1) => (Blocks, w1, t1)
    | (o, w1, t1) =>
        match deferred w1 with
        | (Ret _, w2, t2) => (o, w2, t1 ++ t2)
        | (Panics msg, w2, t2) => (Panics msg, w2, t1 ++ t2)
        | (Blocks, w2, t2) => (Blocks, w2, t1 ++ t2)
        end
    end.

(** [args[i]]. *)
Definition index (args : list string) (i : nat) : IO string :=
  fun w =>
    match nth_error args i with
    | Some a => (Ret a, w, [])
    | None =>
        (Panics ("runtime error: index out of range [" ++ fmt_d (N.of_nat i)
                 ++ "] with length " ++ fmt_d (N.of_nat (List.length args))),
         w, [])
    end.

Local Notation "x <- m ;; k" := (bind m (fun x => k))
  (at level 61, m at next level, right associativity).
Local Notation "m ;;; k" := (bind m (fun _ => k))
  (at level 61, right associativity).

(** [askPublicAddress].  The named result [err] is still [nil] where it is
    tested, so the test always passes; the error of [ipify.GetIp] is
    dropped.  In the [return] statement Go leaves open whether the result
    [publicAddress] is read before or after the call of [cliquiz.Ask],
    which writes it; the gc compiler makes the call first, and so does
    this definition. *)
Definition askPublicAddress (s : Spinner) : IO (string * option error) :=
  let err : option error := None in
  defer (act (spinner_Start cli s) EvSpinnerStart)
    (act (spinner_Stop cli s) EvSpinnerStop ;;;
     let options := [Required] in
     enabled <- call (xchisel_IsEnabled cli) EvIsEnabled ;;
     options <-
       (if negb enabled
        then
          r <- call (ipify_GetIp cli) (fun r => EvGetIp (fst r) (snd r)) ;;
          let ip := fst r in
          match err with
          | None => ret (options ++ [DefaultAnswer (ip ++ ":26656")])
          | Some _ => ret options
          end
        else ret options) ;;
     let question := {| q_Question := "Peer's address"; q_Options := options |} in
     r <- call (cliquiz_Ask cli question) (fun r => EvAsk question (fst r) (snd r)) ;;
     ret (fst r, snd r)).

(** [networkChainJoinHandler]. *)
Definition networkChainJoinHandler (cmd : Command) (args : list string)
  : IO (option error) :=
  r <- call (initializeNetwork cli cmd) (fun _ => EvInitializeNetwork cmd) ;;
  match r with
  | Err err => ret (Some err)
  | Ok session =>
      defer (act (shutdown session) EvShutdown)
        (arg0 <- index args 0 ;;
         match strconv.ParseUint arg0 with
         | (_, Some e) =>
             ret (Some (errors_Wrap (strconv.NumError (strconv_Quote cli) arg0 e)
                          "error parsing launchID"))
         | (launchID, None) =>
             if launchID =? 0
             then ret (Some (errors_New "launch ID must be greater than 0"))
             else
               arg1 <- index args 1 ;;
               match sdk_ParseCoinNormalized cli arg1 with
               | Err err => ret (Some (errors_Wrap err "error parsing amount"))
               | Ok amount =>
                   let initOptions :=
                     initOptionWithHomeFlag cli cmd [MustNotInitializedBefore cli] in
                   let sourceOption := SourceLaunchID launchID in
                   r <- call (nb_Blockchain cli (nb session) (cmd_Context cli cmd)
                                sourceOption initOptions)
                             (fun _ => EvBlockchain (cmd_Context cli cmd) sourceOption
                                         initOptions) ;;
                   match r with
                   | Err err => ret (Some err)
                   | Ok blockchain =>
                       let gentxPath := flags_GetString cli cmd flagGentx in
                       r <- askPublicAddress (s session) ;;
                       match r with
                       | (_, Some err) => ret (Some err)
                       | (publicAddr, None) =>
                           err <- call (blockchain_Join cli blockchain
                                          (cmd_Context cli cmd) launchID amount
                                          publicAddr gentxPath)
                                       (EvJoin (cmd_Context cli cmd) launchID amount
                                          publicAddr gentxPath) ;;
                           match err with
                           | Some err => ret (Some err)
                           | None =>
                               act (spinner_Stop cli (s session)) EvSpinnerStop ;;;
                               ret None
                           end
                       end
                   end
               end
         end)
  end.

End Join.

Arguments EvInitializeNetwork {Command InitOption} cmd.
Arguments EvShutdown {Command InitOption}.
Arguments EvBlockchain {Command InitOption} ctx source options.
Arguments EvSpinnerStop {Command InitOption}.
Arguments EvSpinnerStart {Command InitOption}.
Arguments EvIsEnabled {Command InitOption} enabled.
Arguments EvGetIp {Command InitOption} ip err.
Arguments EvAsk {Command InitOption} question answer err.
Arguments EvJoin {Command InitOption} ctx launchID amount publicAddr gentxPath err.

End starportcmd.

(** A command line for the examples: the proxy is off, [ipify] fails, the
    user answers the question, and every call to the network succeeds. *)
Module DemoCli.

Import starportcmd.

Definition unreachable : error := errors_New "dial tcp: no route to host".

Definition cli : Cli nat unit unit unit unit string :=
  {| initializeNetwork := fun _ w =>
       (Ok {| nb := tt; s := tt; shutdown := fun w => S w |}, w);
     initOptionWithHomeFlag := fun _ options => options;
     MustNotInitializedBefore := "must-not-be-initialized-before";
     cmd_Context := fun _ => Background;
     flags_GetString := fun _ _ => "";
     strconv_Quote := fun text => String "034" (text ++ String "034" "");
     sdk_ParseCoinNormalized := fun text =>
       if String.eqb text "1000stake" then Ok {| Denom := "stake"; Amount := 1000 |}
       else Err (errors_New "invalid decimal coin expression");
     nb_Blockchain := fun _ _ _ _ w => (Ok tt, w);
     spinner_Stop := fun _ w => w;
     spinner_Start := fun _ w => w;
     xchisel_IsEnabled := fun w => (false, w);
     ipify_GetIp := fun w => (("", Some unreachable), w);
     cliquiz_Ask := fun _ w => (("203.0.113.7:26656", None), w);
     blockchain_Join := fun _ _ _ _ _ _ w => (None, w) |}.

End DemoCli.

(** ** Facts about strings *)

Lemma HasPrefix_app (p t : string) : strings.HasPrefix (p ++ t) p = true.
Proof.
  induction p as [|c p IH]; simpl.
  - now destruct t.
  - now rewrite Ascii.eqb_refl, IH.
Qed.

Lemma Contains_prefix (s p : string) :
  strings.HasPrefix s p = true -> strings.Contains s p = true.
Proof. destruct s; simpl; intros ->; reflexivity. Qed.

Lemma Contains_app_r (a t s : string) :
  strings.Contains t s = true -> strings.Contains (a ++ t) s = true.
Proof.
  intros H. induction a as [|c a IH]; simpl.
  - exact H.
  - rewrite IH. apply orb_true_r.
Qed.

Lemma Contains_middle (a s b : string) : strings.Contains (a ++ s ++ b) s = true.
Proof. apply Contains_app_r, Contains_prefix, HasPrefix_app. Qed.

Lemma Contains_self (s : string) : strings.Contains s s = true.
Proof.
  apply Contains_prefix. induction s as [|c s IH]; simpl.
  - reflexivity.
  - now rewrite Ascii.eqb_refl.
Qed.

(** ** handleBroadcastResult *)

(** C3.  Classification of a broadcast outcome: with no transport error a
    zero code gives no error and a non-zero code gives an error whose
    message contains the decimal code and the raw log as they are (code 5
    with log "insufficient funds" in particular); a transport error whose
    message contains "not found" is replaced by the balance hint, any
    other transport error is returned as it is. *)
Theorem handleBroadcastResult_classifies :
  (forall r, Code r = 0%N -> handleBroadcastResult (Some r) None = Ret None) /\
  (forall r, Code r <> 0%N ->
     exists e, handleBroadcastResult (Some r) None = Ret (Some e) /\
               strings.Contains (Error e) (fmt_d (Code r)) = true /\
               strings.Contains (Error e) (RawLog r) = true) /\
  (forall h d,
     exists e, handleBroadcastResult
                 (Some {| TxHash := h; Code := 5; Data := d;
                          RawLog := "insufficient funds" |}) None = Ret (Some e) /\
               strings.Contains (Error e) "5" = true /\
               strings.Contains (Error e) "insufficient funds" = true) /\
  (forall resp e, strings.Contains (Error e) "not found" = true ->
     handleBroadcastResult resp (Some e) = Ret (Some balanceHint)) /\
  (forall resp e, strings.Contains (Error e) "not found" = false ->
     handleBroadcastResult resp (Some e) = Ret (Some e)).
Proof.
  repeat split.
  - intros r H. unfold handleBroadcastResult. now rewrite H.
  - intros r H. unfold handleBroadcastResult.
    destruct (N.ltb_spec 0 (Code r)) as [_|Hle]; [|lia].
    eexists. split; [reflexivity|]. cbv beta iota delta [errors_New Error]. split.
    + apply Contains_middle.
    + do 3 apply Contains_app_r. apply Contains_self.
  - intros h d. eexists. split; [reflexivity|]. split; reflexivity.
  - intros resp e H. unfold handleBroadcastResult. now rewrite H.
  - intros resp e H. unfold handleBroadcastResult. now rewrite H.
Qed.

Lemma handleBroadcastResult_classifies_witness :
  handleBroadcastResult (Some Demo.accepted) None = Ret None /\
  (exists e, handleBroadcastResult
               (Some {| TxHash := "AB12"; Code := 11; Data := "";
                        RawLog := "out of gas" |}) None = Ret (Some e) /\
             strings.Contains (Error e) "11" = true /\
             strings.Contains (Error e) "out of gas" = true) /\
  handleBroadcastResult None (Some (errors_New "rpc error: account not found"))
    = Ret (Some balanceHint) /\
  handleBroadcastResult None (Some (errors_New "connection refused"))
    = Ret (Some (errors_New "connection refused")).
Proof.
  destruct handleBroadcastResult_classifies as (H0 & Hn & _ & Hnf & Hother).
  split; [apply H0; reflexivity|].
  split; [apply (Hn {| TxHash := "AB12"; Code := 11; Data := "";
                       RawLog := "out of gas" |}); discriminate|].
  split; [apply Hnf; reflexivity|apply Hother; reflexivity].
Defined.

(** ** Hexadecimal text *)

Lemma hex_byte_roundtrip (v : byte) (rest : string) :
  hex.DecodeString
    (String (hex.hexdigit (N.shiftr (Byte.to_N v) 4))
       (String (hex.hexdigit (N.land (Byte.to_N v) 15)) rest))
  = match hex.DecodeString rest with
    | Ok bs => Ok (v :: bs)
    | Err e => Err e
    end.
Proof. destruct v; reflexivity. Qed.

Lemma hex_roundtrip (bs : list byte) :
  hex.DecodeString (hex.EncodeToString bs) = Ok bs.
Proof.
  induction bs as [|v bs IH].
  - reflexivity.
  - cbn [hex.EncodeToString]. now rewrite hex_byte_roundtrip, IH.
Qed.

Lemma hex_byte_roundtrip_upper (v : byte) (rest : string) :
  hex.DecodeString
    (String (strings.upper (hex.hexdigit (N.shiftr (Byte.to_N v) 4)))
       (String (strings.upper (hex.hexdigit (N.land (Byte.to_N v) 15))) rest))
  = match hex.DecodeString rest with
    | Ok bs => Ok (v :: bs)
    | Err e => Err e
    end.
Proof. destruct v; reflexivity. Qed.

Lemma hex_roundtrip_upper (bs : list byte) :
  hex.DecodeString (strings.ToUpper (hex.EncodeToString bs)) = Ok bs.
Proof.
  induction bs as [|v bs IH].
  - reflexivity.
  - cbn [hex.EncodeToString strings.ToUpper].
    now rewrite hex_byte_roundtrip_upper, IH.
Qed.

(** ** Response.Decode *)

Section DecodeFacts.

Variable T : Type.
Variable UnmarshalAny : Any -> res T.
(* proto.Marshal on the caller's type and codec.Marshal on the envelope *)
Variable MarshalT : T -> list byte.
Variable MarshalEnvelope : TxMsgData -> list byte.

(** C7.  When the raw data decodes to an envelope with a first entry,
    [Decode] is the deserialization of that entry alone, under the type
    URL made of the entry's message type followed by "Response"; so an
    envelope of one result holding a marshalled [v], written in hex, decodes
    back to [v]. *)
Theorem Decode_first_entry_roundtrip :
  (forall r resp data cdc first rest,
     Response_TxResponse r = Some resp ->
     hex.DecodeString (Data resp) = Ok data ->
     codec r = Some cdc ->
     Unmarshal_TxMsgData cdc data = Ok {| TxMsgData_Data := first :: rest |} ->
     Decode UnmarshalAny r =
       match UnmarshalAny {| TypeUrl := MsgType first ++ "Response";
                             Value := MsgData_Data first |} with
       | Ok m => Ret (Ok m)
       | Err e => Ret (Err (AnyError e))
       end) /\
  (forall (v : T) (msgType : string) (cdc : Codec) (upperCase : bool),
     let envelope :=
       {| TxMsgData_Data := [ {| MsgType := msgType; MsgData_Data := MarshalT v |} ] |} in
     Unmarshal_TxMsgData cdc (MarshalEnvelope envelope) = Ok envelope ->
     UnmarshalAny {| TypeUrl := msgType ++ "Response"; Value := MarshalT v |} = Ok v ->
     Decode UnmarshalAny (responseOf cdc upperCase (MarshalEnvelope envelope))
       = Ret (Ok v)).
Proof.
  split.
  - intros r resp data cdc first rest Hresp Hhex Hcdc Henv.
    unfold Decode. now rewrite Hresp, Hhex, Hcdc, Henv.
  - intros v msgType cdc upperCase envelope Henv Hany.
    unfold Decode, responseOf.
    cbn [Response_TxResponse codec Data].
    assert (Hhex : hex.DecodeString
              (if upperCase
               then strings.ToUpper (hex.EncodeToString (MarshalEnvelope envelope))
               else hex.EncodeToString (MarshalEnvelope envelope))
            = Ok (MarshalEnvelope envelope)).
    { destruct upperCase; [apply hex_roundtrip_upper|apply hex_roundtrip]. }
    rewrite Hhex, Henv. subst envelope. cbn [TxMsgData_Data MsgType MsgData_Data].
    now rewrite Hany.
Qed.

(** C8.  When the decoded envelope has no result, [Decode] indexes the
    empty list and panics; no error is returned. *)
Theorem Decode_empty_envelope_panics (r : Response) (resp : TxResponse)
  (data : list byte) (cdc : Codec) :
  Response_TxResponse r = Some resp ->
  hex.DecodeString (Data resp) = Ok data ->
  codec r = Some cdc ->
  Unmarshal_TxMsgData cdc data = Ok {| TxMsgData_Data := [] |} ->
  Decode UnmarshalAny r = Panics "index out of range [0] with length 0" /\
  (forall e, Decode UnmarshalAny r <> Ret (Err e)).
Proof.
  intros Hresp Hhex Hcdc Henv.
  assert (H : Decode UnmarshalAny r = Panics "index out of range [0] with length 0").
  { unfold Decode. now rewrite Hresp, Hhex, Hcdc, Henv. }
  split; [exact H|]. intros e. rewrite H. discriminate.
Qed.

End DecodeFacts.

Lemma Decode_first_entry_roundtrip_witness :
  let v := [x2a; x07] in
  let envelope :=
    {| TxMsgData_Data := [ {| MsgType := "/demo.MsgCreateChain"; MsgData_Data := v |} ] |} in
  Decode (Demo.unmarshalAnyAs "demo.MsgCreateChainResponse")
    (responseOf Demo.protoCodec true (Demo.marshalTxMsgData envelope)) = Ret (Ok v).
Proof.
  exact (proj2 (Decode_first_entry_roundtrip
                  (Demo.unmarshalAnyAs "demo.MsgCreateChainResponse")
                  (fun v => v) Demo.marshalTxMsgData)
           [x2a; x07] "/demo.MsgCreateChain" Demo.protoCodec true
           eq_refl eq_refl).
Defined.

(** The response of a transaction that produced no result data. *)
Lemma Decode_empty_envelope_panics_witness :
  Decode (Demo.unmarshalAnyAs "demo.MsgCreateChainResponse")
    {| codec := Some Demo.protoCodec; Response_TxResponse := Some Demo.accepted |}
    = Panics "index out of range [0] with length 0" /\
  (forall e, Decode (Demo.unmarshalAnyAs "demo.MsgCreateChainResponse")
               {| codec := Some Demo.protoCodec;
                  Response_TxResponse := Some Demo.accepted |} <> Ret (Err e)).
Proof.
  exact (@Decode_empty_envelope_panics (list byte)
           (Demo.unmarshalAnyAs "demo.MsgCreateChainResponse")
           {| codec := Some Demo.protoCodec; Response_TxResponse := Some Demo.accepted |}
           Demo.accepted [] Demo.protoCodec eq_refl eq_refl eq_refl eq_refl).
Defined.

(** ** Reasoning on traces *)

Ltac trace_cases :=
  repeat match goal with
         | H : _ \/ _ |- _ => destruct H
         | H : False |- _ => destruct H
         | H : In _ [] |- _ => destruct H
         | H : In _ (_ :: _) |- _ => destruct H
         | H : In _ (_ ++ _) |- _ => apply in_app_or in H
         | H : @eq Event _ _ |- _ => first [discriminate H | injection H as ?; subst]
         end.

(** ** prepareFactory *)

Section PipelineFacts.

Variable W : Type.
Variable env : Env W.


End PipelineFacts.

(** ** checkAccountBalance *)

Section BalanceFacts.

Variable W : Type.
Variable env : Env W.

(** One balance query and nothing else; the answer goes through
    [scanBalances]. *)
Lemma checkAccountBalance_run (c : Client) (ctx : GoContext) (address : string)
  (p : Proc W) :
  let answer := bank_AllBalances env ctx address (sdkConfig p) (world p) in
  checkAccountBalance env c ctx address p =
    (match fst answer with
     | Err err => Ret (Some err)
     | Ok balances => scanBalances c balances
     end,
     {| world := snd answer; sdkConfig := sdkConfig p; mconf := mconf p |},
     [EvAllBalances ctx address (fst answer)]).
Proof.
  unfold checkAccountBalance, bind, ask, ret, lift.
  destruct (bank_AllBalances env ctx address (sdkConfig p) (world p)) as [[bs|e] w];
    cbn; [|reflexivity].
  destruct bs as [|b bs]; [reflexivity|].
  change (0 <? Z.of_nat (List.length (b :: bs))) with true. cbn iota.
  destruct (scanBalances c (b :: bs)); reflexivity.
Qed.

(** With every amount within 64 bits the scan succeeds exactly when some
    entry is in the faucet denom and reaches the minimum. *)
Lemma scanBalances_in_range (c : Client) (balances : list Coin) :
  Forall (fun coin => is_uint64 (Amount coin)) balances ->
  scanBalances c balances =
    if hasEnough c balances then Ret None
    else Ret (Some (errors_New "account has not enough balance")).
Proof.
  induction 1 as [|coin rest Hc _ IH]; [reflexivity|].
  cbn [scanBalances hasEnough existsb].
  destruct (String.eqb (Denom coin) (faucetDenom c)); cbn [andb orb]; [|exact IH].
  unfold Int_Uint64. destruct Hc as [H0 H1].
  destruct (Z.leb_spec 0 (Amount coin)); [|lia].
  destruct (Z.ltb_spec (Amount coin) uint64_modulus); [|lia]. cbn [andb].
  destruct (faucetMinAmount c <=? Amount coin); [reflexivity|exact IH].
Qed.

Lemma scanBalances_large (c : Client) (before after : list Coin) (coin : Coin) :
  Forall (fun b => Denom b <> faucetDenom c) before ->
  Denom coin = faucetDenom c ->
  uint64_modulus <= Amount coin ->
  scanBalances c (before ++ coin :: after) = Panics "Uint64() out of bounds".
Proof.
  intros Hbefore Hdenom Hbig.
  induction Hbefore as [|b rest Hb _ IH]; cbn [app scanBalances].
  - rewrite Hdenom, String.eqb_refl. unfold Int_Uint64.
    destruct (Z.ltb_spec (Amount coin) uint64_modulus); [lia|].
    now rewrite andb_false_r.
  - apply String.eqb_neq in Hb. now rewrite Hb.
Qed.

(** C5, where the code departs from it.  A balance in the faucet denom too
    large for 64 bits, met before any entry that suffices, is enough by the
    claim, yet [checkAccountBalance] panics in [Int.Uint64]. *)
Theorem checkAccountBalance_panics_on_large_amount (c : Client) (ctx : GoContext)
  (address : string) (p : Proc W) (before after : list Coin) (coin : Coin) :
  fst (bank_AllBalances env ctx address (sdkConfig p) (world p))
    = Ok (before ++ coin :: after) ->
  Forall (fun b => Denom b <> faucetDenom c) before ->
  Denom coin = faucetDenom c ->
  faucetMinAmount c < uint64_modulus ->
  uint64_modulus <= Amount coin ->
  hasEnough c (before ++ coin :: after) = true /\
  out_of (checkAccountBalance env c ctx address p) = Panics "Uint64() out of bounds".
Proof.
  intros Hans Hbefore Hdenom Hmin Hbig. split.
  - unfold hasEnough. rewrite existsb_app. cbn [existsb].
    rewrite Hdenom, String.eqb_refl.
    destruct (Z.leb_spec (faucetMinAmount c) (Amount coin)); [|lia].
    cbn. apply orb_true_r.
  - rewrite checkAccountBalance_run. unfold out_of. cbn [fst]. rewrite Hans.
    now apply scanBalances_large.
Qed.

(** Within 64 bits the balance check is the comparison the claim
    describes: it succeeds exactly when some entry is in the faucet denom
    and reaches the minimum, and fails with the balance error otherwise. *)
Theorem checkAccountBalance_in_range (c : Client) (ctx : GoContext)
  (address : string) (p : Proc W) (balances : list Coin) :
  fst (bank_AllBalances env ctx address (sdkConfig p) (world p)) = Ok balances ->
  Forall (fun coin => is_uint64 (Amount coin)) balances ->
  out_of (checkAccountBalance env c ctx address p) =
    if hasEnough c balances then Ret None
    else Ret (Some (errors_New "account has not enough balance")).
Proof.
  intros Hans Hrange. rewrite checkAccountBalance_run. unfold out_of. cbn [fst].
  rewrite Hans. now apply scanBalances_in_range.
Qed.

End BalanceFacts.

Lemma checkAccountBalance_in_range_witness :
  let low := [ {| Denom := "stake"; Amount := 500 |}; {| Denom := "token"; Amount := 99 |} ] in
  out_of (checkAccountBalance (Demo.env Demo.script) (Demo.client "cosmos" true)
            Background "cosmos1alice" Demo.proc0) = Ret None /\
  out_of (checkAccountBalance (Demo.env (Demo.withBalances Demo.script low))
            (Demo.client "cosmos" true) Background "cosmos1alice" Demo.proc0)
    = Ret (Some (errors_New "account has not enough balance")).
Proof.
  split.
  - apply (@checkAccountBalance_in_range nat (Demo.env Demo.script)
             (Demo.client "cosmos" true) Background "cosmos1alice" Demo.proc0
             Demo.funded eq_refl).
    repeat constructor; discriminate.
  - apply (@checkAccountBalance_in_range nat
             (Demo.env (Demo.withBalances Demo.script
                [ {| Denom := "stake"; Amount := 500 |};
                  {| Denom := "token"; Amount := 99 |} ]))
             (Demo.client "cosmos" true) Background "cosmos1alice" Demo.proc0
             [ {| Denom := "stake"; Amount := 500 |}; {| Denom := "token"; Amount := 99 |} ]
             eq_refl).
    repeat constructor; discriminate.
Defined.

Lemma checkAccountBalance_panics_on_large_amount_witness :
  let c := Demo.client "cosmos" true in
  let balances := [ {| Denom := "stake"; Amount := 5 |};
                    {| Denom := "token"; Amount := 18446744073709551616 |} ] in
  hasEnough c balances = true /\
  out_of (checkAccountBalance (Demo.env (Demo.withBalances Demo.script balances)) c
            Background "cosmos1alice" Demo.proc0)
    = Panics "Uint64() out of bounds".
Proof.
  apply (@checkAccountBalance_panics_on_large_amount nat
           (Demo.env (Demo.withBalances Demo.script
              [ {| Denom := "stake"; Amount := 5 |};
                {| Denom := "token"; Amount := 18446744073709551616 |} ]))
           (Demo.client "cosmos" true) Background "cosmos1alice" Demo.proc0
           [ {| Denom := "stake"; Amount := 5 |} ] []
           {| Denom := "token"; Amount := 18446744073709551616 |}).
  - reflexivity.
  - repeat constructor. discriminate.
  - reflexivity.
  - reflexivity.
  - discriminate.
Defined.

(** ** Composing runs *)

Section RunFacts.

Variable W : Type.
Variable env : Env W.

Lemma bind_run {A B} (m : M W A) (k : A -> M W B) (p : Proc W) :
  bind m k p =
    match out_of (m p) with
    | Ret a => (out_of (k a (proc_of (m p))),
                proc_of (k a (proc_of (m p))),
                trace_of (m p) ++ trace_of (k a (proc_of (m p))))
    | Panics msg => (Panics msg, proc_of (m p), trace_of (m p))
    | Blocks => (Blocks, proc_of (m p), trace_of (m p))
    end.
Proof.
  unfold bind, out_of, proc_of, trace_of.
  destruct (m p) as [[[a|msg|] p1] t1]; cbn; [|reflexivity..].
  now destruct (k a p1) as [[o p2] t2].
Qed.

Lemma ask_run {R} (f : Oracle W R) (ev : R -> Event) (p : Proc W) :
  ask f ev p =
    (Ret (fst (f (sdkConfig p) (world p))),
     {| world := snd (f (sdkConfig p) (world p)); sdkConfig := sdkConfig p;
        mconf := mconf p |},
     [ev (fst (f (sdkConfig p) (world p)))]).
Proof. unfold ask. now destruct (f (sdkConfig p) (world p)). Qed.

Lemma confined_bind {A B} (kind : Event -> bool) (m : M W A) (k : A -> M W B) :
  confined kind m -> (forall a, confined kind (k a)) -> confined kind (bind m k).
Proof.
  intros Hm Hk p. rewrite bind_run. destruct (Hm p) as (Ht & Hc & Hl).
  destruct (out_of (m p)) as [a|msg|]; cbn; auto.
  destruct (Hk a (proc_of (m p))) as (Ht' & Hc' & Hl').
  repeat split; [apply Forall_app; auto|congruence..].
Qed.

Lemma confined_ret {A} (kind : Event -> bool) (a : A) : confined kind (@ret W A a).
Proof. intros p. cbn. auto. Qed.

Lemma confined_lift {A} (kind : Event -> bool) (o : outcome A) :
  confined kind (@lift W A o).
Proof. intros p. cbn. auto. Qed.

Lemma confined_emit (kind : Event -> bool) (e : Event) :
  kind e = true -> confined kind (@emit W e).
Proof. intros H p. cbn. auto. Qed.

Lemma confined_ask {R} (kind : Event -> bool) (f : Oracle W R) (ev : R -> Event) :
  (forall r, kind (ev r) = true) -> confined kind (ask f ev).
Proof.
  intros H p. unfold ask. destruct (f (sdkConfig p) (world p)) as [r w]. cbn. auto.
Qed.

Lemma confined_weaken {A} (k1 k2 : Event -> bool) (m : M W A) :
  (forall e, k1 e = true -> k2 e = true) -> confined k1 m -> confined k2 m.
Proof.
  intros Hk Hm p. destruct (Hm p) as (Ht & Hc & Hl). repeat split; auto.
  eapply Forall_impl; [|exact Ht]. auto.
Qed.

Lemma checkAccountBalance_confined (c : Client) (ctx : GoContext) (address : string) :
  confined isPoll (checkAccountBalance env c ctx address).
Proof.
  unfold checkAccountBalance. apply confined_bind.
  - now apply confined_ask.
  - intros [bs|e]; [|apply confined_ret].
    destruct (0 <? Z.of_nat (List.length bs)); [apply confined_lift|apply confined_ret].
Qed.

Lemma retryLoop_confined (c : Client) (ctx : GoContext) (address : string)
  (b : BackOff) (more : nat) :
  confined isPoll (retryLoop env (checkAccountBalance env c ctx address) b more).
Proof.
  induction more as [|n IH]; cbn [retryLoop]; apply confined_bind;
    try apply checkAccountBalance_confined; intros [e|]; try apply confined_ret.
  apply confined_bind; [now apply confined_emit|auto].
Qed.

End RunFacts.

(** ** makeSureAccountHasTokens *)

Section FundingFacts.

Variable W : Type.
Variable env : Env W.

Lemma firstTransferError_none (transfers : list Transfer) :
  firstTransferError transfers = None <->
  forallb (fun t => String.eqb (Transfer_Error t) "") transfers = true.
Proof.
  induction transfers as [|t ts IH]; cbn; [tauto|].
  destruct (String.eqb (Transfer_Error t) ""); cbn; [exact IH|].
  split; discriminate.
Qed.

Lemma count_none (f kind : Event -> bool) (t : list Event) :
  Forall (fun e => kind e = true) t ->
  (forall e, kind e = true -> f e = false) ->
  count f t = 0%nat.
Proof.
  intros Ht Hf. unfold count. induction Ht as [|e l He _ IH]; [reflexivity|].
  cbn [filter]. now rewrite (Hf e He).
Qed.

Lemma count_app (f : Event -> bool) (t1 t2 : list Event) :
  count f (t1 ++ t2) = (count f t1 + count f t2)%nat.
Proof. unfold count. now rewrite filter_app, length_app. Qed.

Lemma backoff_Retry_trace (c : Client) (ctx : GoContext) (address : string)
  (b : BackOff) (p : Proc W) :
  exists polls,
    trace_of (backoff_Retry env (checkAccountBalance env c ctx address) b p)
      = EvRetry b :: polls /\
    Forall (fun e => isPoll e = true) polls.
Proof.
  unfold backoff_Retry. rewrite bind_run. cbn [emit out_of proc_of trace_of fst snd].
  rewrite bind_run.
  destruct (retry_More env b (sdkConfig p) (world p)) as [n w].
  cbn [out_of proc_of trace_of fst snd app].
  eexists. split; [reflexivity|]. apply retryLoop_confined.
Qed.

(** C4.  Once the faucet has answered, the funding step goes on to the
    polling loop only if neither the answer nor any of its transfers
    carries an error.  Otherwise [makeSureAccountHasTokens] returns an
    error at once: its trace is the first balance query and the one faucet
    request, so there is no second request and the loop is never entered. *)
Theorem makeSureAccountHasTokens_funding_step (c : Client) (ctx : GoContext)
  (address : string) (p : Proc W) (faucet : string) (req : TransferRequest)
  (resp : TransferResponse) :
  let run := makeSureAccountHasTokens env c ctx address p in
  In (EvFaucetTransfer faucet req (Ok resp)) (trace_of run) ->
  (faucetAccepted resp = false ->
     (exists e, out_of run = Ret (Some e)) /\
     (exists balances,
        trace_of run = [EvAllBalances ctx address balances;
                        EvFaucetTransfer faucet req (Ok resp)]) /\
     count isFaucetRequest (trace_of run) = 1%nat /\
     count isRetry (trace_of run) = 0%nat /\
     count isBalanceQuery (trace_of run) = 1%nat) /\
  (faucetAccepted resp = true ->
     count isFaucetRequest (trace_of run) = 1%nat /\
     count isRetry (trace_of run) = 1%nat).
Proof.
  cbn zeta. unfold makeSureAccountHasTokens. rewrite bind_run.
  rewrite checkAccountBalance_run. cbn [out_of proc_of trace_of fst snd].
  set (answer := bank_AllBalances env ctx address (sdkConfig p) (world p)).
  set (p1 := {| world := snd answer; sdkConfig := sdkConfig p; mconf := mconf p |}).
  destruct (match fst answer with
            | Ok balances => scanBalances c balances
            | Err err => Ret (Some err)
            end) as [[e0|]|msg|]; cbn [ret fst snd app];
    try (cbn; intros H; trace_cases; fail).
  rewrite bind_run, ask_run. cbn [out_of proc_of trace_of fst snd].
  destruct (fst (faucet_Transfer env (faucetAddress c) ctx
                   {| AccountAddress := address; Request_Denom := None; Request_Amount := None |} (sdkConfig p1) (world p1)))
    as [faucetResp|err]; cbn [out_of proc_of trace_of fst snd ret app];
    [|cbn; intros H; trace_cases].
  unfold faucetAccepted.
  destruct (String.eqb (Response_Error faucetResp) "") eqn:Etop; cbn [negb].
  - destruct (firstTransferError (Transfers faucetResp)) as [terr|] eqn:Eerr.
    + assert (Hno : forallb (fun t => String.eqb (Transfer_Error t) "")
                      (Transfers faucetResp) = false).
      { destruct (forallb _ _) eqn:E; [|reflexivity].
        apply firstTransferError_none in E. congruence. }
      cbn. intros H. trace_cases.
      rewrite Etop, Hno. cbn [andb]. split; [|discriminate].
      intros _. repeat split; eauto.
    + match goal with
      | |- context [backoff_Retry env ?op ?b ?q] =>
          destruct (backoff_Retry_trace c (WithTimeout ctx FaucetTransferEnsureDuration)
                      address b q) as (polls & Htrace & Hpolls)
      end.
      rewrite Htrace. intros H.
      assert (Hcount : forall f, (forall e, isPoll e = true -> f e = false) ->
                count f polls = 0%nat).
      { intros f Hf. now apply count_none with (kind := isPoll). }
      assert (Hresp : faucetResp = resp).
      { cbn in H. destruct H as [H|[H|[H|H]]]; try discriminate; [now inversion H|].
        rewrite Forall_forall in Hpolls. apply Hpolls in H. discriminate. }
      subst faucetResp. rewrite Etop.
      apply firstTransferError_none in Eerr. rewrite Eerr. cbn [andb].
      split; [discriminate|]. intros _. unfold count in *. cbn.
      rewrite (Hcount isFaucetRequest), (Hcount isRetry); [auto| |].
      * now intros [].
      * now intros [].
  - cbn. intros H. trace_cases.
    rewrite Etop. cbn [andb]. split; [|discriminate].
    intros _. repeat split; eauto.
Qed.

End FundingFacts.

(** ** The two stages of a broadcast *)

Section StageFacts.

Variable W : Type.
Variable env : Env W.

Lemma count_zero_in (f : Event -> bool) (t : list Event) (e : Event) :
  count f t = 0%nat -> In e t -> f e = false.
Proof.
  unfold count. induction t as [|x t IH]; cbn; [tauto|].
  destruct (f x) eqn:Ex; [discriminate|].
  intros H [->|Hin]; auto.
Qed.

Lemma isPoll_isFunding (e : Event) : isPoll e = true -> isFunding e = true.
Proof. now destruct e. Qed.

Lemma backoff_Retry_confined (c : Client) (ctx : GoContext) (address : string)
  (b : BackOff) :
  confined isFunding (backoff_Retry env (checkAccountBalance env c ctx address) b).
Proof.
  unfold backoff_Retry. apply confined_bind; [now apply confined_emit|]. intros _.
  apply confined_bind.
  - intros p. cbv beta.
    destruct (retry_More env b (sdkConfig p) (world p)) as [n w]. cbn. auto.
  - intros n. eapply confined_weaken; [apply isPoll_isFunding|].
    apply retryLoop_confined.
Qed.

Lemma makeSureAccountHasTokens_confined (c : Client) (ctx : GoContext)
  (address : string) :
  confined isFunding (makeSureAccountHasTokens env c ctx address).
Proof.
  unfold makeSureAccountHasTokens. apply confined_bind.
  - eapply confined_weaken; [apply isPoll_isFunding|].
    apply checkAccountBalance_confined.
  - intros [e|]; [|apply confined_ret].
    apply confined_bind; [now apply confined_ask|].
    intros [resp|e']; [|apply confined_ret].
    destruct (negb _); [apply confined_ret|].
    destruct (firstTransferError _); [apply confined_ret|].
    apply backoff_Retry_confined.
Qed.

Lemma prepareBroadcast_confined (c : Client) (ctx : GoContext) (accountName : string)
  (msgs : list Msg) :
  confined isFunding (prepareBroadcast env c ctx accountName msgs).
Proof.
  unfold prepareBroadcast, Client_Account. apply confined_bind.
  - now apply confined_ask.
  - intros [account|e]; [|apply confined_ret].
    destruct (useFaucet c); [apply makeSureAccountHasTokens_confined|apply confined_ret].
Qed.

(** The provision function builds, signs, encodes and broadcasts, and
    touches neither the address configuration nor the mutex. *)
Lemma provision_confined (context : Context) (txf : Factory) (accountName : string)
  (msgs : list Msg) :
  confined isCommit (provision env context txf accountName msgs).
Proof.
  unfold provision, tx_BuildUnsignedTx. apply confined_bind.
  - apply confined_bind; [now apply confined_emit|intros _; apply confined_ret].
  - intros [txUnsigned|e]; [|apply confined_ret].
    apply confined_bind.
    + intros p. unfold tx_Sign. cbv zeta.
      destruct (sdk_Sign env accountName (tx_signMode env txf) _ txUnsigned
                  (sdkConfig p) (world p)) as [[sigBytes|e|msg] w]; cbn; auto.
    + intros [txSigned|e]; [|apply confined_ret].
      apply confined_bind; [now apply confined_emit|]. intros _.
      destruct (tx_Encode env txSigned); [|apply confined_ret].
      apply confined_bind; [now apply confined_ask|]. intros b.
      apply confined_bind; [apply confined_lift|intros; apply confined_ret].
Qed.

(** Every signature the provision function makes is over the factory it
    was given and is made under the configuration and the lock state it
    was called in. *)
Lemma provision_signs (context : Context) (txf : Factory) (accountName : string)
  (msgs : list Msg) (p : Proc W) :
  let t := trace_of (provision env context txf accountName msgs p) in
  (forall tx, In tx (signedTxs t) ->
     tx_Msgs tx = msgs /\
     tx_GasLimit tx = f_gas txf /\
     exists sigBytes,
       tx_Signatures tx =
         [ {| sig_Signer := accountName; sig_Mode := tx_signMode env txf;
              sig_Data := {| sd_ChainID := f_chainID txf;
                             sd_AccountNumber := f_accountNumber txf;
                             sd_Sequence := f_sequence txf |};
              sig_Bytes := sigBytes |} ]) /\
  (forall cond, In cond (signingConditions t) -> cond = (sdkConfig p, mconf p)) /\
  count isRetrieverCall t = 0%nat.
Proof.
  cbn zeta. split; [|split].
  3: { apply count_none with (kind := isCommit);
         [apply provision_confined|now intros []]. }
  all: unfold provision, tx_BuildUnsignedTx, tx_Sign, bind, emit, ret, ask, lift, trace_of.
  all: destruct (tx_BuildRefused env txf msgs) as [e|]; cbn.
  all: try (destruct (sdk_Sign env accountName (tx_signMode env txf) _ _
                        (sdkConfig p) (world p)) as [[sigBytes|e|msg] w]; cbn).
  all: try (destruct (tx_Encode env _) as [txBytes|e]; cbn).
  all: try (destruct (ctx_BroadcastTx env context txBytes (sdkConfig p) w)
              as [[resp err] w']; cbn).
  all: try (destruct (handleBroadcastResult resp err); cbn).
  all: intros x Hx;
       repeat match goal with
              | H : _ \/ _ |- _ => destruct H
              | H : False |- _ => contradiction
              end; subst; cbn; eauto.
Qed.

End StageFacts.

(** ** BroadcastTxWithProvision *)

Section ProvisionFacts.

Variable W : Type.
Variable env : Env W.

Lemma defer_run {A} (d : M W unit) (body : M W A) (p : Proc W) :
  defer d body p =
    match out_of (body p) with
    | Blocks => (Blocks, proc_of (body p), trace_of (body p))
    | o =>
        (match out_of (d (proc_of (body p))) with
         | Ret _ => o
         | Panics msg => Panics msg
         | Blocks => Blocks
         end,
         proc_of (d (proc_of (body p))),
         trace_of (body p) ++ trace_of (d (proc_of (body p))))
    end.
Proof.
  unfold defer, out_of, proc_of, trace_of.
  destruct (body p) as [[[a|msg|] p1] t1]; cbn; [| |reflexivity];
    now destruct (d p1) as [[[[]|msg'|] p2] t2].
Qed.

(** The shape of a run of [BroadcastTxWithProvision]: either it stops
    before the simulation and returns no provision function, or its trace
    ends with the simulation and the release of [mconf], the existence
    check (and the sequence query, when a field was unset) came before, and
    what it returns is fixed by the answer of the simulation. *)
Lemma BroadcastTxWithProvision_shape (c : Client) (accountName : string)
  (msgs : list Msg) (p : Proc W) :
  let run := BroadcastTxWithProvision env c accountName msgs p in
  (count isSimulation (trace_of run) = 0%nat /\
   count isSigning (trace_of run) = 0%nat /\
   forall gas broadcast err, out_of run <> Ret (gas, Some broadcast, err)) \/
  (exists pre account txf r,
     let context :=
       WithFromAddress (WithFromName (c_Context c) accountName) (acc_Address account) in
     trace_of run = pre ++ [EvCalculateGas txf msgs r; EvUnlock] /\
     count isSimulation pre = 0%nat /\
     count isSigning pre = 0%nat /\
     In (EvEnsureExists (acc_Address account) None) pre /\
     ((f_accountNumber (c_Factory c) <> 0 /\ f_sequence (c_Factory c) <> 0 /\
       count isSequenceQuery pre = 0%nat /\ txf = c_Factory c) \/
      (exists num seq,
         (f_accountNumber (c_Factory c) = 0 \/ f_sequence (c_Factory c) = 0) /\
         In (EvGetAccountNumberSequence (acc_Address account) (Ok (num, seq))) pre /\
         txf = resolved (c_Factory c) num seq)) /\
     mconf (proc_of run) = false /\
     sdkConfig (proc_of run) =
       {| bech32AccountAddrPrefix := addressPrefix c;
          bech32AccountPubPrefix := (addressPrefix c ++ "pub")%string |} /\
     out_of run =
       match r with
       | Ok raw =>
           Ret (uint64_add raw 10000,
                Some (provision env context (WithGas txf (uint64_add raw 10000))
                        accountName msgs),
                None)
       | Err e => Ret (0, None, Some e)
       end).
Proof.
  cbn zeta.
  destruct (prepareBroadcast_confined env c Background accountName msgs p)
    as (Hprep & _ & Hlock).
  assert (Hsim : count isSimulation
                   (trace_of (prepareBroadcast env c Background accountName msgs p)) = 0%nat)
    by (apply count_none with (kind := isFunding); [exact Hprep|now intros []]).
  assert (Hsig : count isSigning
                   (trace_of (prepareBroadcast env c Background accountName msgs p)) = 0%nat)
    by (apply count_none with (kind := isFunding); [exact Hprep|now intros []]).
  assert (Hseq : count isSequenceQuery
                   (trace_of (prepareBroadcast env c Background accountName msgs p)) = 0%nat)
    by (apply count_none with (kind := isFunding); [exact Hprep|now intros []]).
  clear Hprep.
  cbv beta iota zeta delta [BroadcastTxWithProvision bind defer mconf_Lock mconf_Unlock
    SetBech32PrefixForAccount Client_Address Client_Account prepareFactory
    ask ret GetFromAddress].
  destruct (prepareBroadcast env c Background accountName msgs p)
    as [[[[e|]|msg|] p1] t1]; unfold out_of, proc_of, trace_of in *; cbn in *;
    try (left; rewrite ?app_nil_r; repeat split; auto; discriminate).
  destruct (mconf p1); cbn;
    try (left; rewrite ?app_nil_r; repeat split; auto; discriminate).
  destruct (registry_GetByName env accountName _ (world p1)) as [[account|e] w2]; cbn.
  2: { left. unfold count in *. rewrite !filter_app, !length_app, Hsim, Hsig. cbn.
       repeat split; auto; discriminate. }
  destruct (retriever_EnsureExists env _ _ _ w2) as [[e|] w3]; cbn.
  { left. unfold count in *. rewrite !filter_app, !length_app, Hsim, Hsig. cbn.
    repeat split; auto; discriminate. }
  destruct (f_accountNumber (c_Factory c) =? 0) eqn:En;
    destruct (f_sequence (c_Factory c) =? 0) eqn:Es; cbn.
  4: { (* both fields set: no query *)
       destruct (tx_CalculateGas env _ _ msgs _ w3) as [r w4]; right.
       exists (t1 ++ [EvLock;
                      EvSetBech32PrefixForAccount (addressPrefix c)
                        (addressPrefix c ++ "pub");
                      EvGetByName accountName (Ok account);
                      EvEnsureExists (acc_Address account) None]),
         account, (c_Factory c), r.
       apply Z.eqb_neq in En, Es. unfold count in *.
       rewrite !filter_app, !length_app, Hsim, Hsig, Hseq.
       destruct r as [raw|e]; cbn; rewrite <- app_assoc;
         repeat split; auto; apply in_or_app; right; cbn; auto. }
  all: destruct (retriever_GetAccountNumberSequence env _ _ _ w3)
         as [[[num seq]|e] w4]; cbn;
       try (left; unfold count in *; rewrite !filter_app, !length_app, Hsim, Hsig; cbn;
            repeat split; auto; discriminate).
  all: destruct (tx_CalculateGas env _ _ msgs _ w4) as [r w5]; right.
  all: exists (t1 ++ [EvLock;
                      EvSetBech32PrefixForAccount (addressPrefix c)
                        (addressPrefix c ++ "pub");
                      EvGetByName accountName (Ok account);
                      EvEnsureExists (acc_Address account) None;
                      EvGetAccountNumberSequence (acc_Address account) (Ok (num, seq))]),
         account, (resolved (c_Factory c) num seq), r.
  all: unfold resolved; rewrite En, Es.
  all: first [apply Z.eqb_eq in En | apply Z.eqb_neq in En];
       first [apply Z.eqb_eq in Es | apply Z.eqb_neq in Es].
  all: unfold count in *; rewrite !filter_app, !length_app, Hsim, Hsig.
  all: destruct r as [raw|e]; cbn; rewrite <- app_assoc.
  all: repeat split; auto; try (apply in_or_app; right; cbn; auto; fail).
  all: right; exists num, seq; repeat split; auto; apply in_or_app; right; cbn; tauto.
Qed.


Lemma BroadcastTxWithProvisionCreateAccount_shape (c : Client) (accountName : string)
  (msgs : list Msg) (p : Proc W) :
  let run := BroadcastTxWithProvisionCreateAccount env c accountName msgs p in
  count isRetrieverCall (trace_of run) = 0%nat /\
  count isSigning (trace_of run) = 0%nat /\
  forall gas broadcast err,
    out_of run = Ret (gas, Some broadcast, err) ->
    exists account raw,
      In (EvCalculateGas (c_Factory c) msgs (Ok raw)) (trace_of run) /\
      gas = uint64_add raw 10000 /\ err = None /\
      broadcast =
        provision env
          (WithFromAddress (WithFromName (c_Context c) accountName) (acc_Address account))
          (WithGas (c_Factory c) gas) accountName msgs.
Proof.
  cbn zeta.
  destruct (prepareBroadcast_confined env c Background accountName msgs p)
    as (Hprep & _ & Hlock).
  assert (Hret : count isRetrieverCall
                   (trace_of (prepareBroadcast env c Background accountName msgs p)) = 0%nat)
    by (apply count_none with (kind := isFunding); [exact Hprep|now intros []]).
  assert (Hsig : count isSigning
                   (trace_of (prepareBroadcast env c Background accountName msgs p)) = 0%nat)
    by (apply count_none with (kind := isFunding); [exact Hprep|now intros []]).
  clear Hprep.
  cbv beta iota zeta delta [BroadcastTxWithProvisionCreateAccount bind defer mconf_Lock
    mconf_Unlock SetBech32PrefixForAccount Client_Address Client_Account ask ret].
  destruct (prepareBroadcast env c Background accountName msgs p)
    as [[[[e|]|msg|] p1] t1]; unfold out_of, proc_of, trace_of in *; cbn in *;
    try (rewrite ?app_nil_r; repeat split; auto; discriminate).
  destruct (mconf p1); cbn;
    try (rewrite ?app_nil_r; repeat split; auto; discriminate).
  destruct (registry_GetByName env accountName _ (world p1)) as [[account|e] w2]; cbn.
  2: { unfold count in *. rewrite !filter_app, !length_app, Hret, Hsig. cbn.
       repeat split; auto; discriminate. }
  destruct (tx_CalculateGas env _ _ msgs _ w2) as [[raw|e] w3]; cbn;
    unfold count in *; rewrite !filter_app, !length_app, Hret, Hsig; cbn;
    repeat split; auto; try discriminate.
  intros gas broadcast err H. inversion H; subst.
  exists account, raw. repeat split; auto.
  apply in_or_app; right; cbn; tauto.
Qed.

(** The gas quoted, as the code computes it.  When [tx.CalculateGas]
    answers [raw], the gas returned is [raw + 10000] computed in 64 bits,
    that is modulo [2^64] (so it is [raw + 10000] whenever that sum fits),
    and every transaction the returned provision function signs declares
    that same figure. *)
Theorem BroadcastTxWithProvision_gas (c : Client) (accountName : string)
  (msgs : list Msg) (p : Proc W) (txf : Factory) (raw : uint64) :
  let run := BroadcastTxWithProvision env c accountName msgs p in
  In (EvCalculateGas txf msgs (Ok raw)) (trace_of run) ->
  let gas := (raw + 10000) mod 2 ^ 64 in
  (0 <= raw -> raw + 10000 < 2 ^ 64 -> gas = raw + 10000) /\
  exists broadcast,
    out_of run = Ret (gas, Some broadcast, None) /\
    forall p2 tx,
      In tx (signedTxs (trace_of (broadcast p2))) -> tx_GasLimit tx = gas.
Proof.
  cbn zeta. intros Hin. split.
  { intros H0 H1. apply Z.mod_small. lia. }
  destruct (BroadcastTxWithProvision_shape c accountName msgs p)
    as [(Hsim & _ & _)|(pre & account & txf0 & r & Htrace & Hsim & _ & _ & _ & _ & _ & Hout)].
  - apply (count_zero_in _ _ _ Hsim) in Hin. discriminate.
  - cbn zeta in *. rewrite Htrace in Hin. apply in_app_or in Hin.
    destruct Hin as [Hin|Hin].
    + apply (count_zero_in _ _ _ Hsim) in Hin. discriminate.
    + trace_cases. eexists. split; [exact Hout|].
      intros p2 tx Htx. now apply provision_signs in Htx.
Qed.

(** C1, where the code departs from it.  The gas is a [uint64] and
    [gas += 10000] wraps.  When [tx.CalculateGas] answers [raw] and
    [raw + 10000] is not below [2^64], the gas returned is
    [raw + 10000 - 2^64]: a figure below the margin of 10000 and below
    [raw] itself, not [raw + 10000]; and that figure is the gas which every
    transaction the returned provision function signs declares. *)
Theorem BroadcastTxWithProvision_gas_overflow (c : Client) (accountName : string)
  (msgs : list Msg) (p : Proc W) (txf : Factory) (raw : uint64) :
  let run := BroadcastTxWithProvision env c accountName msgs p in
  In (EvCalculateGas txf msgs (Ok raw)) (trace_of run) ->
  0 <= raw < 2 ^ 64 ->
  2 ^ 64 <= raw + 10000 ->
  exists gas broadcast,
    out_of run = Ret (gas, Some broadcast, None) /\
    gas = raw + 10000 - 2 ^ 64 /\
    gas < 10000 /\ gas < raw /\ gas <> raw + 10000 /\
    forall p2 tx,
      In tx (signedTxs (trace_of (broadcast p2))) -> tx_GasLimit tx = gas.
Proof.
  cbn zeta. intros Hin Hraw Hover.
  destruct (BroadcastTxWithProvision_gas c accountName msgs p txf raw Hin)
    as (_ & broadcast & Hout & Hsigned).
  assert (Hwrap : (raw + 10000) mod 2 ^ 64 = raw + 10000 - 2 ^ 64).
  { symmetry. apply Z.mod_unique with (q := 1); lia. }
  rewrite Hwrap in *.
  exists (raw + 10000 - 2 ^ 64), broadcast.
  split; [exact Hout|]. split; [reflexivity|].
  split; [lia|]. split; [lia|]. split; [lia|exact Hsigned].
Qed.

(** C9, where the code departs from it.  When [BroadcastTxWithProvision]
    hands back a provision function, [mconf] has already been released
    (the last call of the run is the unlock) and nothing has been signed.
    The provision function signs later, under whatever address
    configuration and lock state the process is in then: called right
    after the return it signs with the lock free. *)
Theorem provision_signs_after_unlock (c : Client) (accountName : string)
  (msgs : list Msg) (p : Proc W) (gas : uint64) (broadcast : Provisioner W) :
  let run := BroadcastTxWithProvision env c accountName msgs p in
  out_of run = Ret (gas, Some broadcast, None) ->
  mconf (proc_of run) = false /\
  (exists t, trace_of run = t ++ [EvUnlock]) /\
  count isSigning (trace_of run) = 0%nat /\
  (forall p2 cond,
     In cond (signingConditions (trace_of (broadcast p2))) ->
     cond = (sdkConfig p2, mconf p2)) /\
  (forall cond,
     In cond (signingConditions (trace_of (broadcast (proc_of run)))) ->
     snd cond = false).
Proof.
  cbn zeta. intros Hret.
  destruct (BroadcastTxWithProvision_shape c accountName msgs p)
    as [(_ & _ & Hno)|(pre & account & txf0 & r & Htrace & _ & Hsig & _ & _ & Hlock & _ & Hout)].
  - now apply Hno in Hret.
  - cbn zeta in *. rewrite Hout in Hret. destruct r as [raw|e]; [|discriminate].
    inversion Hret; subst.
    assert (Hcond : forall p2 cond,
              In cond (signingConditions
                         (trace_of (provision env
                            (WithFromAddress (WithFromName (c_Context c) accountName)
                               (acc_Address account))
                            (WithGas txf0 (uint64_add raw 10000)) accountName msgs p2))) ->
              cond = (sdkConfig p2, mconf p2)).
    { intros p2 cond Hin. now apply provision_signs in Hin. }
    repeat split; auto.
    + exists (pre ++ [EvCalculateGas txf0 msgs (Ok raw)]).
      rewrite Htrace, <- app_assoc. reflexivity.
    + rewrite Htrace, count_app, Hsig. reflexivity.
    + intros cond Hin. apply Hcond in Hin. subst cond. exact Hlock.
Qed.


End ProvisionFacts.

(** ** The theorems at work in the scripted environment *)



Lemma BroadcastTxWithProvision_gas_witness :
  let c := Demo.client "cosmos" false in
  let run := BroadcastTxWithProvision (Demo.env Demo.script) c "alice" [Demo.send]
               Demo.proc0 in
  In (EvCalculateGas (resolved (c_Factory c) 7 3) [Demo.send] (Ok 52000)) (trace_of run) /\
  exists broadcast,
    out_of run = Ret (62000, Some broadcast, None) /\
    forall p2 tx, In tx (signedTxs (trace_of (broadcast p2))) -> tx_GasLimit tx = 62000.
Proof.
  assert (H : In (EvCalculateGas (resolved (c_Factory (Demo.client "cosmos" false)) 7 3)
                    [Demo.send] (Ok 52000))
                (trace_of (BroadcastTxWithProvision (Demo.env Demo.script)
                             (Demo.client "cosmos" false) "alice" [Demo.send] Demo.proc0))).
  { cbn. do 6 right. left. reflexivity. }
  split; [exact H|].
  exact (proj2 (BroadcastTxWithProvision_gas (Demo.env Demo.script)
                  (Demo.client "cosmos" false) "alice" [Demo.send] Demo.proc0
                  (resolved (c_Factory (Demo.client "cosmos" false)) 7 3) 52000 H)).
Defined.

Lemma BroadcastTxWithProvision_gas_overflow_witness :
  let c := Demo.client "cosmos" false in
  let raw := 18446744073709549568 in
  let run := BroadcastTxWithProvision (Demo.env (Demo.withGas Demo.script (Ok raw))) c
               "alice" [Demo.send] Demo.proc0 in
  In (EvCalculateGas (resolved (c_Factory c) 7 3) [Demo.send] (Ok raw)) (trace_of run) /\
  quotedGas (out_of run) = Some 7952 /\
  exists gas broadcast,
    out_of run = Ret (gas, Some broadcast, None) /\
    gas = raw + 10000 - 2 ^ 64 /\
    gas < 10000 /\ gas < raw /\ gas <> raw + 10000 /\
    forall p2 tx,
      In tx (signedTxs (trace_of (broadcast p2))) -> tx_GasLimit tx = gas.
Proof.
  assert (H : In (EvCalculateGas (resolved (c_Factory (Demo.client "cosmos" false)) 7 3)
                    [Demo.send] (Ok 18446744073709549568))
                (trace_of (BroadcastTxWithProvision
                             (Demo.env (Demo.withGas Demo.script
                                          (Ok 18446744073709549568)))
                             (Demo.client "cosmos" false) "alice" [Demo.send]
                             Demo.proc0))).
  { cbn. do 6 right. left. reflexivity. }
  split; [exact H|]. split; [reflexivity|].
  apply (@BroadcastTxWithProvision_gas_overflow nat
           (Demo.env (Demo.withGas Demo.script (Ok 18446744073709549568)))
           (Demo.client "cosmos" false) "alice" [Demo.send] Demo.proc0
           (resolved (c_Factory (Demo.client "cosmos" false)) 7 3)
           18446744073709549568 H).
  - split; [discriminate|reflexivity].
  - discriminate.
Defined.

Lemma makeSureAccountHasTokens_funding_step_witness :
  let refused := {| Response_Error := "";
                    Transfers := [ {| Transfer_Recipient := "cosmos1alice";
                                      Transfer_Coin := "100token";
                                      Transfer_Error := "account has reached the max" |} ] |} in
  let c := Demo.client "cosmos" true in
  let req := {| AccountAddress := "cosmos1alice"; Request_Denom := None; Request_Amount := None |} in
  let run := makeSureAccountHasTokens
               (Demo.env (Demo.withFaucet Demo.script 5 (Ok refused))) c Background
               "cosmos1alice" Demo.proc0 in
  In (EvFaucetTransfer defaultFaucetAddress req (Ok refused)) (trace_of run) /\
  (exists e, out_of run = Ret (Some e)) /\
  (exists balances,
     trace_of run = [EvAllBalances Background "cosmos1alice" balances;
                     EvFaucetTransfer defaultFaucetAddress req (Ok refused)]) /\
  count isFaucetRequest (trace_of run) = 1%nat /\
  count isRetry (trace_of run) = 0%nat /\
  count isBalanceQuery (trace_of run) = 1%nat.
Proof.
  cbn zeta.
  assert (H : In (EvFaucetTransfer defaultFaucetAddress
                    {| AccountAddress := "cosmos1alice"; Request_Denom := None; Request_Amount := None |}
                    (Ok {| Response_Error := "";
                           Transfers := [ {| Transfer_Recipient := "cosmos1alice";
                                             Transfer_Coin := "100token";
                                             Transfer_Error := "account has reached the max" |} ] |}))
                (trace_of (makeSureAccountHasTokens
                   (Demo.env (Demo.withFaucet Demo.script 5
                      (Ok {| Response_Error := "";
                             Transfers := [ {| Transfer_Recipient := "cosmos1alice";
                                               Transfer_Coin := "100token";
                                               Transfer_Error := "account has reached the max" |} ] |})))
                   (Demo.client "cosmos" true) Background "cosmos1alice" Demo.proc0))).
  { cbn. right. left. reflexivity. }
  split; [exact H|].
  exact (proj1 (makeSureAccountHasTokens_funding_step _ _ _ _ _ _ _ _ H) eq_refl).
Defined.

(** Two clients with different prefixes, one after the other: the first
    quotes, the second quotes, the first commits.  The first client's
    transaction is signed under the second client's prefix, with the lock
    free. *)
Lemma provision_signs_after_unlock_witness :
  let first := Demo.client "cosmos" false in
  let second := Demo.client "spn" false in
  let quote1 := BroadcastTxWithProvision (Demo.env Demo.script) first "alice"
                  [Demo.send] Demo.proc0 in
  let quote2 := BroadcastTxWithProvision (Demo.env Demo.script) second "bob"
                  [Demo.send] (proc_of quote1) in
  let commit1 :=
    provision (Demo.env Demo.script)
      (WithFromAddress (WithFromName (c_Context first) "alice") [x01])
      (WithGas (resolved (c_Factory first) 7 3) 62000) "alice" [Demo.send] in
  out_of quote1 = Ret (62000, Some commit1, None) /\
  signingConditions (trace_of (commit1 (proc_of quote2))) <> [] /\
  forall cond,
    In cond (signingConditions (trace_of (commit1 (proc_of quote2)))) ->
    cond = ({| bech32AccountAddrPrefix := "spn"; bech32AccountPubPrefix := "spnpub" |},
            false).
Proof.
  cbn zeta. split; [reflexivity|]. split; [discriminate|].
  exact (proj1 (proj2 (proj2 (proj2
           (provision_signs_after_unlock (Demo.env Demo.script)
              (Demo.client "cosmos" false) "alice" [Demo.send] Demo.proc0
              eq_refl))))
           (proc_of (BroadcastTxWithProvision (Demo.env Demo.script)
                       (Demo.client "spn" false) "bob" [Demo.send]
                       (proc_of (BroadcastTxWithProvision (Demo.env Demo.script)
                                   (Demo.client "cosmos" false) "alice" [Demo.send]
                                   Demo.proc0))))).
Defined.


(** ** The polling loop *)

Section PollingFacts.

Variable W : Type.
Variable env : Env W.





End PollingFacts.


(** ** checkAccountBalance: which entries count *)

Section DenomFacts.

Variable W : Type.
Variable env : Env W.

(** The entries of the balances that are in the faucet denom. *)
Lemma scanBalances_other_denoms (c : Client) (balances : list Coin) :
  scanBalances c balances =
  scanBalances c
    (filter (fun coin => String.eqb (Denom coin) (faucetDenom c)) balances).
Proof.
  induction balances as [|coin rest IH]; [reflexivity|].
  cbn [scanBalances filter].
  destruct (String.eqb (Denom coin) (faucetDenom c)) eqn:E; [|exact IH].
  cbn [scanBalances]. rewrite E.
  destruct (Int_Uint64 (Amount coin)) as [amount| |]; [|reflexivity..].
  destruct (faucetMinAmount c <=? amount); [reflexivity|exact IH].
Qed.

Lemma scanBalances_first_enough (c : Client) (before after : list Coin) (coin : Coin) :
  Forall (fun b => Denom b = faucetDenom c -> 0 <= Amount b < faucetMinAmount c) before ->
  faucetMinAmount c <= uint64_modulus ->
  Denom coin = faucetDenom c ->
  faucetMinAmount c <= Amount coin < uint64_modulus ->
  0 <= faucetMinAmount c ->
  scanBalances c (before ++ coin :: after) = Ret None.
Proof.
  intros Hbefore Hmin Hdenom Hamount H0.
  induction Hbefore as [|b rest Hb _ IH]; cbn [app scanBalances].
  - rewrite Hdenom, String.eqb_refl. unfold Int_Uint64.
    destruct (Z.leb_spec 0 (Amount coin)); [|lia].
    destruct (Z.ltb_spec (Amount coin) uint64_modulus); [|lia]. cbn [andb].
    destruct (Z.leb_spec (faucetMinAmount c) (Amount coin)); [reflexivity|lia].
  - destruct (String.eqb (Denom b) (faucetDenom c)) eqn:E; [|exact IH].
    apply String.eqb_eq in E. specialize (Hb E). unfold Int_Uint64.
    destruct (Z.leb_spec 0 (Amount b)); [|lia].
    destruct (Z.ltb_spec (Amount b) uint64_modulus); [|lia]. cbn [andb].
    destruct (Z.leb_spec (faucetMinAmount c) (Amount b)); [lia|exact IH].
Qed.

(** Balances in other denoms never matter, whatever their size: when the
    query answers, the outcome is that of the entries in the faucet denom
    alone, so a check whose faucet-denom entries fit in 64 bits does not
    panic and is the comparison with the minimum.  A failed query comes
    back as it is. *)
Theorem checkAccountBalance_other_denoms (c : Client) (ctx : GoContext)
  (address : string) (p : Proc W) :
  let answer := fst (bank_AllBalances env ctx address (sdkConfig p) (world p)) in
  let mine := filter (fun coin => String.eqb (Denom coin) (faucetDenom c)) in
  (forall err, answer = Err err ->
     out_of (checkAccountBalance env c ctx address p) = Ret (Some err)) /\
  (forall balances, answer = Ok balances ->
     out_of (checkAccountBalance env c ctx address p) = scanBalances c (mine balances) /\
     (Forall (fun coin => is_uint64 (Amount coin)) (mine balances) ->
      out_of (checkAccountBalance env c ctx address p) =
        if hasEnough c balances then Ret None
        else Ret (Some (errors_New "account has not enough balance")))).
Proof.
  cbn zeta. split.
  - intros err H. rewrite checkAccountBalance_run. unfold out_of. cbn [fst]. now rewrite H.
  - intros balances H. rewrite checkAccountBalance_run. unfold out_of. cbn [fst].
    rewrite H. split; [apply scanBalances_other_denoms|].
    intros Hrange. rewrite scanBalances_other_denoms.
    rewrite scanBalances_in_range by exact Hrange.
    replace (hasEnough c (filter (fun coin => String.eqb (Denom coin) (faucetDenom c))
                            balances))
      with (hasEnough c balances); [reflexivity|].
    unfold hasEnough. clear. induction balances as [|b l IH]; [reflexivity|].
    cbn [existsb filter].
    destruct (String.eqb (Denom b) (faucetDenom c)) eqn:E; cbn [existsb andb orb].
    + now rewrite E, IH.
    + exact IH.
Qed.

(** The scan stops at the first entry that suffices: entries after it are
    not converted, so an amount too large for 64 bits behind it does no
    harm. *)
Theorem checkAccountBalance_first_enough (c : Client) (ctx : GoContext)
  (address : string) (p : Proc W) (before after : list Coin) (coin : Coin) :
  fst (bank_AllBalances env ctx address (sdkConfig p) (world p))
    = Ok (before ++ coin :: after) ->
  Forall (fun b => Denom b = faucetDenom c -> 0 <= Amount b < faucetMinAmount c) before ->
  0 <= faucetMinAmount c <= uint64_modulus ->
  Denom coin = faucetDenom c ->
  faucetMinAmount c <= Amount coin < uint64_modulus ->
  out_of (checkAccountBalance env c ctx address p) = Ret None.
Proof.
  intros Hans Hbefore [H0 Hmin] Hdenom Hamount.
  rewrite checkAccountBalance_run. unfold out_of. cbn [fst]. rewrite Hans.
  now apply scanBalances_first_enough.
Qed.

End DenomFacts.

(** ** makeSureAccountHasTokens: when the faucet is asked, and what it says *)

Section FaucetFacts.

Variable W : Type.
Variable env : Env W.

(** The faucet is asked exactly when the first balance check returns an
    error, be it a balance too low or a balance query that failed; the one
    request goes to the client's faucet and names the address alone.  When
    the first check succeeds the call returns at once: one balance query,
    no faucet request. *)
Theorem makeSureAccountHasTokens_asks_faucet (c : Client) (ctx : GoContext)
  (address : string) (p : Proc W) :
  let first := checkAccountBalance env c ctx address p in
  let run := makeSureAccountHasTokens env c ctx address p in
  let req := {| AccountAddress := address; Request_Denom := None;
                Request_Amount := None |} in
  (out_of first = Ret None -> run = first /\ count isFaucetRequest (trace_of run) = 0%nat) /\
  (forall msg, out_of first = Panics msg ->
     run = first /\ count isFaucetRequest (trace_of run) = 0%nat) /\
  (forall e, out_of first = Ret (Some e) ->
     count isFaucetRequest (trace_of run) = 1%nat /\
     exists r rest,
       trace_of run = trace_of first ++ EvFaucetTransfer (faucetAddress c) req r :: rest).
Proof.
  cbn zeta. unfold makeSureAccountHasTokens. rewrite bind_run.
  destruct (checkAccountBalance_confined env c ctx address p) as (Hpoll & _ & _).
  assert (Hnone : count isFaucetRequest
                    (trace_of (checkAccountBalance env c ctx address p)) = 0%nat)
    by (apply count_none with (kind := isPoll); [exact Hpoll|now intros []]).
  destruct (checkAccountBalance env c ctx address p) as [[o p1] t1].
  unfold out_of, proc_of, trace_of in *. cbn [fst snd] in *.
  split; [|split].
  - intros ->. cbn. now rewrite app_nil_r.
  - intros msg ->. auto.
  - intros e ->. cbv beta iota. rewrite bind_run, ask_run.
    cbn [out_of proc_of trace_of fst snd].
    destruct (fst (faucet_Transfer env (faucetAddress c) ctx _ (sdkConfig p1) (world p1)))
      as [resp|err] eqn:Er.
    2: { cbn. rewrite count_app, Hnone. split; [reflexivity|]. eauto. }
    destruct (negb (String.eqb (Response_Error resp) "")).
    { cbn. rewrite count_app, Hnone. split; [reflexivity|]. eauto. }
    destruct (firstTransferError (Transfers resp)).
    { cbn. rewrite count_app, Hnone. split; [reflexivity|]. eauto. }
    match goal with
    | |- context [backoff_Retry env ?op ?b ?q] =>
        destruct (backoff_Retry_trace env c (WithTimeout ctx FaucetTransferEnsureDuration)
                    address b q) as (polls & Htrace & Hpolls);
        destruct (backoff_Retry env op b q) as [[o2 p3] t3]
    end.
    unfold trace_of in *. cbn [fst snd] in *. subst t3.
    assert (Hp : count isFaucetRequest polls = 0%nat)
      by (apply count_none with (kind := isPoll); [exact Hpolls|now intros []]).
    rewrite count_app, Hnone. split; [|do 2 eexists; reflexivity].
    unfold count in *. cbn. now rewrite Hp.
Qed.

Lemma firstTransferError_first (before after : list Transfer) (t : Transfer) :
  Forall (fun x => Transfer_Error x = "") before ->
  Transfer_Error t <> "" ->
  firstTransferError (before ++ t :: after) = Some (Transfer_Error t).
Proof.
  intros Hbefore Ht. induction Hbefore as [|x l Hx _ IH]; cbn [app firstTransferError].
  - apply String.eqb_neq in Ht. now rewrite Ht.
  - rewrite Hx. exact IH.
Qed.

(** What a refusal of the faucet turns into.  A request that fails in
    transport comes back wrapped as "faucet server request failed: cause".
    A top-level error of the answer is reported as "cannot retrieve tokens
    from faucet: error" whatever the transfers say; without one, the error
    of the first transfer that has one is reported in the same way. *)
Theorem makeSureAccountHasTokens_faucet_errors (c : Client) (ctx : GoContext)
  (address : string) (p : Proc W) (faucet : string) (req : TransferRequest) :
  let run := makeSureAccountHasTokens env c ctx address p in
  (forall cause,
     In (EvFaucetTransfer faucet req (Err cause)) (trace_of run) ->
     exists e,
       out_of run = Ret (Some e) /\
       Error e = ("faucet server request failed: " ++ Error cause)%string /\
       count isRetry (trace_of run) = 0%nat) /\
  (forall resp,
     In (EvFaucetTransfer faucet req (Ok resp)) (trace_of run) ->
     (Response_Error resp <> "" ->
      out_of run = Ret (Some (errors_New ("cannot retrieve tokens from faucet: "
                                            ++ Response_Error resp)))) /\
     (forall before t after,
        Response_Error resp = "" ->
        Transfers resp = before ++ t :: after ->
        Forall (fun x => Transfer_Error x = "") before ->
        Transfer_Error t <> "" ->
        out_of run = Ret (Some (errors_New ("cannot retrieve tokens from faucet: "
                                              ++ Transfer_Error t))))).
Proof.
  cbn zeta. unfold makeSureAccountHasTokens. rewrite bind_run.
  rewrite checkAccountBalance_run. cbn [out_of proc_of trace_of fst snd].
  set (answer := bank_AllBalances env ctx address (sdkConfig p) (world p)).
  set (p1 := {| world := snd answer; sdkConfig := sdkConfig p; mconf := mconf p |}).
  destruct (match fst answer with
            | Ok balances => scanBalances c balances
            | Err err => Ret (Some err)
            end) as [[e0|]|msg|]; cbn [ret fst snd app];
    try (cbn; split; intros ? H; trace_cases; fail).
  rewrite bind_run, ask_run. cbn [out_of proc_of trace_of fst snd].
  destruct (fst (faucet_Transfer env (faucetAddress c) ctx
                   {| AccountAddress := address; Request_Denom := None;
                      Request_Amount := None |} (sdkConfig p1) (world p1)))
    as [faucetResp|err]; cbn [out_of proc_of trace_of fst snd ret app].
  2: { cbn. split; intros x H; trace_cases. eexists. repeat split. }
  destruct (String.eqb (Response_Error faucetResp) "") eqn:Etop; cbn [negb].
  2: { cbn. split; intros x H; trace_cases.
       apply String.eqb_neq in Etop. split; [reflexivity|]. intros; contradiction. }
  apply String.eqb_eq in Etop.
  destruct (firstTransferError (Transfers faucetResp)) as [terr|] eqn:Eerr.
  { cbn. split; intros x H; trace_cases. split; [intros; contradiction|].
    intros before t after _ Ht Hbefore Hne.
    rewrite Ht, (@firstTransferError_first before after t Hbefore Hne) in Eerr. congruence. }
  match goal with
  | |- context [backoff_Retry env ?op ?b ?q] =>
      destruct (backoff_Retry_trace env c (WithTimeout ctx FaucetTransferEnsureDuration)
                  address b q) as (polls & Htrace & Hpolls);
      destruct (backoff_Retry env op b q) as [[o2 p3] t3]
  end.
  unfold out_of, trace_of in *. cbn [fst snd] in *. subst t3.
  assert (Hp : forall e, In e polls -> isFaucetRequest e = false).
  { intros e He. rewrite Forall_forall in Hpolls. apply Hpolls in He. now destruct e. }
  split.
  - intros cause [H|[H|[H|H]]]; try discriminate. apply Hp in H. discriminate.
  - intros resp [H|[H|[H|H]]]; try discriminate; [|apply Hp in H; discriminate].
    inversion H; subst. split; [intros; contradiction|].
    intros before t after _ Ht Hbefore Hne.
    rewrite Ht, (@firstTransferError_first before after t Hbefore Hne) in Eerr. discriminate.
Qed.

End FaucetFacts.

(** ** What the quoting functions do to the mutex *)

Section DisciplineFacts.

Variable W : Type.
Variable env : Env W.

Lemma unblocking_bind {A B} (m : M W A) (k : A -> M W B) :
  unblocking m -> (forall a, unblocking (k a)) -> unblocking (bind m k).
Proof.
  intros Hm Hk p. rewrite bind_run. specialize (Hm p).
  destruct (out_of (m p)) as [a|msg|]; cbn; [apply Hk|discriminate|contradiction].
Qed.

Lemma unblocking_ret {A} (a : A) : unblocking (@ret W A a).
Proof. intros p. discriminate. Qed.

Lemma unblocking_emit (e : Event) : unblocking (@emit W e).
Proof. intros p. discriminate. Qed.

Lemma unblocking_ask {R} (f : Oracle W R) (ev : R -> Event) : unblocking (ask f ev).
Proof. intros p. rewrite ask_run. discriminate. Qed.

Lemma scanBalances_unblocking (c : Client) (balances : list Coin) :
  scanBalances c balances <> Blocks.
Proof.
  induction balances as [|coin rest IH]; cbn [scanBalances]; [discriminate|].
  destruct (String.eqb _ _); [|exact IH].
  unfold Int_Uint64. destruct (_ && _); [|discriminate].
  destruct (_ <=? _); [discriminate|exact IH].
Qed.

Lemma checkAccountBalance_unblocking (c : Client) (ctx : GoContext) (address : string) :
  unblocking (checkAccountBalance env c ctx address).
Proof.
  intros p. rewrite checkAccountBalance_run. unfold out_of. cbn [fst].
  destruct (fst _); [apply scanBalances_unblocking|discriminate].
Qed.

Lemma retryLoop_unblocking (c : Client) (ctx : GoContext) (address : string)
  (b : BackOff) (more : nat) :
  unblocking (retryLoop env (checkAccountBalance env c ctx address) b more).
Proof.
  induction more as [|n IH]; cbn [retryLoop]; apply unblocking_bind;
    try apply checkAccountBalance_unblocking; intros [e|]; try apply unblocking_ret.
  apply unblocking_bind; [apply unblocking_emit|auto].
Qed.

Lemma prepareBroadcast_unblocking (c : Client) (ctx : GoContext) (accountName : string)
  (msgs : list Msg) :
  unblocking (prepareBroadcast env c ctx accountName msgs).
Proof.
  unfold prepareBroadcast, Client_Account. apply unblocking_bind; [apply unblocking_ask|].
  intros [account|e]; [|apply unblocking_ret].
  destruct (useFaucet c); [|apply unblocking_ret].
  unfold makeSureAccountHasTokens. apply unblocking_bind;
    [apply checkAccountBalance_unblocking|].
  intros [e|]; [|apply unblocking_ret].
  apply unblocking_bind; [apply unblocking_ask|].
  intros [resp|e']; [|apply unblocking_ret].
  destruct (negb _); [apply unblocking_ret|].
  destruct (firstTransferError _); [apply unblocking_ret|].
  unfold backoff_Retry. apply unblocking_bind; [apply unblocking_emit|]. intros _.
  apply unblocking_bind.
  - intros p. cbv beta. destruct (retry_More env _ (sdkConfig p) (world p)). discriminate.
  - intros n. apply retryLoop_unblocking.
Qed.

Lemma BroadcastTxWithProvision_discipline (c : Client) (accountName : string)
  (msgs : list Msg) (p : Proc W) :
  let prep := prepareBroadcast env c Background accountName msgs p in
  let run := BroadcastTxWithProvision env c accountName msgs p in
  exists tail,
    trace_of run = trace_of prep ++ tail /\
    Forall (fun e => isCritical e = true) tail /\
    (mconf p = false -> guarded false tail = true) /\
    count isLock tail = count isUnlock tail /\
    (count isLock tail <= 1)%nat /\
    (count isLock tail = 0%nat ->
       sdkConfig (proc_of run) = sdkConfig p /\ mconf (proc_of run) = mconf p) /\
    (count isLock tail = 1%nat ->
       sdkConfig (proc_of run) = installed c /\ mconf (proc_of run) = false) /\
    (mconf p = false -> out_of run <> Blocks) /\
    (out_of prep = Ret None -> mconf p = false -> count isLock tail = 1%nat) /\
    (forall gas b err,
       out_of run = Ret (gas, b, err) ->
       (b = None <-> err <> None) /\ (err <> None -> gas = 0) /\
       (b <> None ->
        sdkConfig (proc_of run) = installed c /\ mconf (proc_of run) = false)) /\
    (forall msg, out_of run = Panics msg -> out_of prep = Panics msg).
Proof.
  cbn zeta.
  destruct (prepareBroadcast_confined env c Background accountName msgs p)
    as (_ & Hcfg & Hlock).
  pose proof (prepareBroadcast_unblocking c Background accountName msgs p) as Hblock.
  cbv beta iota zeta delta [BroadcastTxWithProvision bind defer mconf_Lock mconf_Unlock
    SetBech32PrefixForAccount Client_Address Client_Account prepareFactory
    ask ret GetFromAddress].
  destruct (prepareBroadcast env c Background accountName msgs p)
    as [[[[e|]|msg|] p1] t1]; unfold out_of, proc_of, trace_of in *; cbn in *;
    [| | |contradiction].
  2: destruct (mconf p1) eqn:Em; cbn.
  3: destruct (registry_GetByName env accountName _ (world p1)) as [[account|e] w2]; cbn.
  3: destruct (retriever_EnsureExists env _ _ _ w2) as [[e|] w3]; cbn.
  4: destruct ((f_accountNumber (c_Factory c) =? 0) || (f_sequence (c_Factory c) =? 0)); cbn.
  4: destruct (retriever_GetAccountNumberSequence env _ _ _ w3)
       as [[[num seq]|e] w4]; cbn.
  4: destruct (tx_CalculateGas env _ _ msgs _ w4) as [[raw|e] w5]; cbn.
  7: destruct (tx_CalculateGas env _ _ msgs _ w3) as [[raw|e] w5]; cbn.
  all: first [eexists; split; [reflexivity|]
             |exists []; split; [now rewrite app_nil_r|]];
       unfold count, installed; cbn.
  all: repeat match goal with |- _ /\ _ => split end.
  all: try (repeat constructor; fail).
  all: try (intros; discriminate).
  all: try (intros; congruence).
  all: try (intros _; split; congruence).
  all: intros gas b err H; inversion H; subst; repeat split;
       intros; try discriminate; try congruence; try contradiction.
Qed.

Lemma BroadcastTxWithProvisionCreateAccount_discipline (c : Client)
  (accountName : string) (msgs : list Msg) (p : Proc W) :
  let prep := prepareBroadcast env c Background accountName msgs p in
  let run := BroadcastTxWithProvisionCreateAccount env c accountName msgs p in
  exists tail,
    trace_of run = trace_of prep ++ tail /\
    Forall (fun e => isCritical e = true) tail /\
    (mconf p = false -> guarded false tail = true) /\
    count isLock tail = count isUnlock tail /\
    (count isLock tail <= 1)%nat /\
    (count isLock tail = 0%nat ->
       sdkConfig (proc_of run) = sdkConfig p /\ mconf (proc_of run) = mconf p) /\
    (count isLock tail = 1%nat ->
       sdkConfig (proc_of run) = installed c /\ mconf (proc_of run) = false) /\
    (mconf p = false -> out_of run <> Blocks) /\
    (out_of prep = Ret None -> mconf p = false -> count isLock tail = 1%nat) /\
    (forall gas b err,
       out_of run = Ret (gas, b, err) ->
       (b = None <-> err <> None) /\ (err <> None -> gas = 0) /\
       (b <> None ->
        sdkConfig (proc_of run) = installed c /\ mconf (proc_of run) = false)) /\
    (forall msg, out_of run = Panics msg -> out_of prep = Panics msg).
Proof.
  cbn zeta.
  destruct (prepareBroadcast_confined env c Background accountName msgs p)
    as (_ & Hcfg & Hlock).
  pose proof (prepareBroadcast_unblocking c Background accountName msgs p) as Hblock.
  cbv beta iota zeta delta [BroadcastTxWithProvisionCreateAccount bind defer mconf_Lock
    mconf_Unlock SetBech32PrefixForAccount Client_Address Client_Account ask ret].
  destruct (prepareBroadcast env c Background accountName msgs p)
    as [[[[e|]|msg|] p1] t1]; unfold out_of, proc_of, trace_of in *; cbn in *;
    [| | |contradiction].
  2: destruct (mconf p1) eqn:Em; cbn.
  3: destruct (registry_GetByName env accountName _ (world p1)) as [[account|e] w2]; cbn.
  3: destruct (tx_CalculateGas env _ _ msgs _ w2) as [[raw|e] w3]; cbn.
  all: first [eexists; split; [reflexivity|]
             |exists []; split; [now rewrite app_nil_r|]];
       unfold count, installed; cbn.
  all: repeat match goal with |- _ /\ _ => split end.
  all: try (repeat constructor; fail).
  all: try (intros; discriminate).
  all: try (intros; congruence).
  all: try (intros _; split; congruence).
  all: intros gas b err H; inversion H; subst; repeat split;
       intros; try discriminate; try congruence; try contradiction.
Qed.

End DisciplineFacts.

(** ** The provision function: sign, then broadcast *)

Section CommitFacts.

Variable W : Type.
Variable env : Env W.

Lemma signedTxs_app (t1 t2 : list Event) :
  signedTxs (t1 ++ t2) = signedTxs t1 ++ signedTxs t2.
Proof.
  induction t1 as [|e t1 IH]; [reflexivity|].
  destruct e; cbn; auto. destruct r; cbn; [now rewrite IH|auto|auto].
Qed.

Lemma signedTxs_none (t : list Event) :
  count isSigning t = 0%nat -> signedTxs t = [].
Proof.
  unfold count. induction t as [|e t IH]; [reflexivity|].
  destruct e; cbn; auto; discriminate.
Qed.

(** What one run of the provision function leaves behind. *)
Lemma provision_commit (context : Context) (txf : Factory)
  (accountName : string) (msgs : list Msg) (p : Proc W) :
  let run := provision env context txf accountName msgs p in
  (count isBroadcast (trace_of run) <= 1)%nat /\
  (forall bytes resp err,
     In (EvBroadcastTx bytes resp err) (trace_of run) ->
     exists tx,
       signedTxs (trace_of run) = [tx] /\ tx_Encode env tx = Ok bytes /\
       tx_Msgs tx = msgs /\ tx_GasLimit tx = f_gas txf) /\
  (count isBroadcast (trace_of run) = 0%nat ->
     (exists e, out_of run = Ret (Response_zero, Some e)) \/
     (exists msg t,
        out_of run = Panics msg /\
        trace_of run =
          t ++ [EvSign txf accountName (sdkConfig p) (mconf p) (SignPanics msg)] /\
        signedTxs (trace_of run) = [])) /\
  (forall r, out_of run = Ret (r, None) ->
     exists bytes resp,
       In (EvBroadcastTx bytes (Some resp) None) (trace_of run) /\
       Code resp = 0%N /\
       r = {| codec := ctx_Codec context; Response_TxResponse := Some resp |}).
Proof.
  cbn zeta.
  unfold provision, tx_BuildUnsignedTx, tx_Sign, bind, emit, ret, ask, lift,
    out_of, trace_of, count.
  destruct (tx_BuildRefused env txf msgs) as [e|]; cbn.
  2: destruct (sdk_Sign env accountName (tx_signMode env txf) _ _
                 (sdkConfig p) (world p)) as [[sigBytes|e|msg] w]; cbn.
  2: destruct (tx_Encode env _) as [txBytes|e] eqn:Eenc; cbn.
  2: destruct (ctx_BroadcastTx env context txBytes (sdkConfig p) w)
       as [[resp err] w']; cbn.
  2: unfold handleBroadcastResult; destruct err as [e|]; cbn.
  2: destruct (strings.Contains (Error e) "not found"); cbn.
  4: destruct resp as [r|]; cbn.
  4: destruct (N.ltb_spec 0 (Code r)); cbn.
  all: repeat match goal with |- _ /\ _ => split end.
  all: try lia.
  all: try (intros; trace_cases; fail).
  all: try (intros; discriminate).
  all: try (intros; eauto; fail).
  all: try (intros _; right; exists msg; eexists [_]; repeat split; fail).
  all: try (intros bytes resp0 err0 H0; trace_cases; eexists; split; [reflexivity|];
       repeat split; try assumption; try reflexivity; fail).
  intros r0 H0. inversion H0; subst. do 2 eexists.
  split; [do 3 right; left; reflexivity|]. split; [lia|reflexivity].
Qed.

(** The function [BroadcastTxWithProvision] returns broadcasts at most
    once, and only bytes that encode the one transaction it has just signed,
    over the messages and the gas it was built for.  When nothing is
    broadcast, either it returns the zero [Response] with an error, or
    [tx.Sign] has panicked on the signers of the messages: the panic is
    that of [tx.Sign], the call is the last event, made under the address
    configuration and the lock state the function was called in, and no
    transaction has been signed.  When it returns no error the node has
    answered the one broadcast with code 0, and the response carries that
    answer and the codec of the context. *)
Theorem provision_commits_once (context : Context) (txf : Factory)
  (accountName : string) (msgs : list Msg) (p : Proc W) :
  let run := provision env context txf accountName msgs p in
  (count isBroadcast (trace_of run) <= 1)%nat /\
  (forall bytes resp err,
     In (EvBroadcastTx bytes resp err) (trace_of run) ->
     exists tx,
       signedTxs (trace_of run) = [tx] /\ tx_Encode env tx = Ok bytes /\
       tx_Msgs tx = msgs /\ tx_GasLimit tx = f_gas txf) /\
  (count isBroadcast (trace_of run) = 0%nat ->
     (exists e, out_of run = Ret (Response_zero, Some e)) \/
     (exists msg t,
        out_of run = Panics msg /\
        trace_of run =
          t ++ [EvSign txf accountName (sdkConfig p) (mconf p) (SignPanics msg)] /\
        signedTxs (trace_of run) = [])) /\
  (forall r, out_of run = Ret (r, None) ->
     exists bytes resp,
       In (EvBroadcastTx bytes (Some resp) None) (trace_of run) /\
       Code resp = 0%N /\
       r = {| codec := ctx_Codec context; Response_TxResponse := Some resp |}).
Proof. exact (provision_commit context txf accountName msgs p). Qed.

End CommitFacts.

(** ** BroadcastTx and BroadcastTxCreateAccount, end to end *)

Section EndToEndFacts.

Variable W : Type.
Variable env : Env W.

Lemma in_count_pos (f : Event -> bool) (t : list Event) (e : Event) :
  In e t -> f e = true -> (1 <= count f t)%nat.
Proof.
  unfold count. induction t as [|x t IH]; cbn; [tauto|].
  intros [->|Hin] He.
  - rewrite He. cbn. lia.
  - specialize (IH Hin He). destruct (f x); cbn; lia.
Qed.

(** Quoting commits nothing: no event of the provision function. *)
Lemma quote_counts (f : Event -> bool) (c : Client) (accountName : string)
  (msgs : list Msg) (p : Proc W) :
  (forall e, isFunding e = true -> f e = false) ->
  (forall e, isCritical e = true -> f e = false) ->
  count f (trace_of (BroadcastTxWithProvision env c accountName msgs p)) = 0%nat /\
  count f (trace_of (BroadcastTxWithProvisionCreateAccount env c accountName msgs p))
    = 0%nat.
Proof.
  intros Hf Hc.
  destruct (prepareBroadcast_confined env c Background accountName msgs p)
    as (Hprep & _ & _).
  destruct (BroadcastTxWithProvision_discipline env c accountName msgs p)
    as (tail & -> & Htail & _).
  destruct (BroadcastTxWithProvisionCreateAccount_discipline env c accountName msgs p)
    as (tail' & -> & Htail' & _).
  rewrite !count_app.
  rewrite (@count_none f isFunding _ Hprep Hf).
  now rewrite (@count_none f isCritical _ Htail Hc), (@count_none f isCritical _ Htail' Hc).
Qed.

(** When [BroadcastTx] returns without error, one transaction has been
    signed and broadcast, once: it carries the messages given, the gas of
    the simulation plus 10000 (in 64 bits) and one signature by the account,
    the node has answered that broadcast with code 0, and the response
    returned holds this answer and the codec of the client's context. *)
Theorem BroadcastTx_accepted (c : Client) (accountName : string) (msgs : list Msg)
  (p : Proc W) (resp : Response) :
  let run := BroadcastTx env c accountName msgs p in
  out_of run = Ret (resp, None) ->
  exists txf raw tx bytes r,
    In (EvCalculateGas txf msgs (Ok raw)) (trace_of run) /\
    signedTxs (trace_of run) = [tx] /\
    tx_Msgs tx = msgs /\
    tx_GasLimit tx = (raw + 10000) mod 2 ^ 64 /\
    (exists sigBytes,
       tx_Signatures tx =
         [ {| sig_Signer := accountName; sig_Mode := tx_signMode env txf;
              sig_Data := {| sd_ChainID := f_chainID txf;
                             sd_AccountNumber := f_accountNumber txf;
                             sd_Sequence := f_sequence txf |};
              sig_Bytes := sigBytes |} ]) /\
    tx_Encode env tx = Ok bytes /\
    In (EvBroadcastTx bytes (Some r) None) (trace_of run) /\
    count isBroadcast (trace_of run) = 1%nat /\
    Code r = 0%N /\
    resp = {| codec := ctx_Codec (c_Context c); Response_TxResponse := Some r |}.
Proof.
  cbn zeta. unfold BroadcastTx. rewrite bind_run.
  destruct (quote_counts isBroadcast c accountName msgs p) as (Hnb & _);
    [now intros []|now intros []|].
  destruct (BroadcastTxWithProvision_shape env c accountName msgs p)
    as [(_ & _ & Hno)|(pre & account & txf & r0 & Htrace & _ & Hsig & _ & _ & _ & _ & Hout)].
  - destruct (out_of (BroadcastTxWithProvision env c accountName msgs p))
      as [[[gas [b|]] [e|]]|msg|]; cbn; try discriminate.
    now specialize (Hno gas b None).
  - cbn zeta in *. rewrite Hout. destruct r0 as [raw|e]; [|cbn; discriminate].
    cbv beta iota.
    set (q := proc_of (BroadcastTxWithProvision env c accountName msgs p)) in *.
    set (context := WithFromAddress (WithFromName (c_Context c) accountName)
                      (acc_Address account)) in *.
    set (txf' := WithGas txf (uint64_add raw 10000)) in *.
    destruct (provision_commit env context txf' accountName msgs q)
      as (Hle & Hbytes & _ & Hok).
    destruct (provision_signs env context txf' accountName msgs q) as (Hsigned & _ & _).
    cbn zeta in *.
    assert (Hq : signedTxs (trace_of (BroadcastTxWithProvision env c accountName msgs p))
                 = []).
    { apply signedTxs_none. rewrite Htrace, count_app, Hsig. reflexivity. }
    destruct (provision env context txf' accountName msgs q) as [[o q'] t'].
    unfold out_of, trace_of in *. cbn [fst snd] in *. intros Hret.
    destruct (Hok _ Hret) as (bytes & r & Hin & Hcode & ->).
    destruct (Hbytes _ _ _ Hin) as (tx & Htx & Henc & _).
    destruct (Hsigned tx) as (Hmsgs & Hgas & Hsigs); [rewrite Htx; now left|].
    exists txf, raw, tx, bytes, r.
    repeat split; auto.
    + rewrite Htrace. apply in_or_app. left. apply in_or_app. right. cbn. auto.
    + rewrite signedTxs_app, Hq. exact Htx.
    + apply in_or_app. now right.
    + rewrite count_app, Hnb. pose proof (in_count_pos isBroadcast _ _ Hin eq_refl). lia.
Qed.

(** When [BroadcastTxCreateAccount] returns without error, one transaction
    has been signed and broadcast, once, and the node has never been asked
    whether the account exists nor for its number and sequence: the
    signature is over the chain id, the account number and the sequence of
    the client's own factory.  The gas is that of the simulation plus 10000
    (in 64 bits), and the response holds the node's answer, of code 0. *)
Theorem BroadcastTxCreateAccount_accepted (c : Client) (accountName : string)
  (msgs : list Msg) (p : Proc W) (resp : Response) :
  let run := BroadcastTxCreateAccount env c accountName msgs p in
  out_of run = Ret (resp, None) ->
  exists raw tx bytes r,
    In (EvCalculateGas (c_Factory c) msgs (Ok raw)) (trace_of run) /\
    count isRetrieverCall (trace_of run) = 0%nat /\
    signedTxs (trace_of run) = [tx] /\
    tx_Msgs tx = msgs /\
    tx_GasLimit tx = (raw + 10000) mod 2 ^ 64 /\
    (exists sigBytes,
       tx_Signatures tx =
         [ {| sig_Signer := accountName; sig_Mode := tx_signMode env (c_Factory c);
              sig_Data := {| sd_ChainID := f_chainID (c_Factory c);
                             sd_AccountNumber := f_accountNumber (c_Factory c);
                             sd_Sequence := f_sequence (c_Factory c) |};
              sig_Bytes := sigBytes |} ]) /\
    tx_Encode env tx = Ok bytes /\
    In (EvBroadcastTx bytes (Some r) None) (trace_of run) /\
    count isBroadcast (trace_of run) = 1%nat /\
    Code r = 0%N /\
    resp = {| codec := ctx_Codec (c_Context c); Response_TxResponse := Some r |}.
Proof.
  cbn zeta. unfold BroadcastTxCreateAccount. rewrite bind_run.
  destruct (quote_counts isBroadcast c accountName msgs p) as (_ & Hnb);
    [now intros []|now intros []|].
  destruct (BroadcastTxWithProvisionCreateAccount_shape env c accountName msgs p)
    as (Hret0 & Hsig & Hshape).
  cbn zeta in *.
  destruct (out_of (BroadcastTxWithProvisionCreateAccount env c accountName msgs p))
    as [[[gas [b|]] [e|]]|msg|]; try (cbn; discriminate).
  destruct (Hshape gas b None eq_refl) as (account & raw & Hin0 & -> & _ & ->).
  cbv beta iota.
  set (q := proc_of (BroadcastTxWithProvisionCreateAccount env c accountName msgs p)) in *.
  set (context := WithFromAddress (WithFromName (c_Context c) accountName)
                    (acc_Address account)) in *.
  set (txf' := WithGas (c_Factory c) (uint64_add raw 10000)) in *.
  destruct (provision_commit env context txf' accountName msgs q)
    as (Hle & Hbytes & _ & Hok).
  destruct (provision_signs env context txf' accountName msgs q) as (Hsigned & _ & Hret1).
  cbn zeta in *.
  assert (Hq : signedTxs (trace_of (BroadcastTxWithProvisionCreateAccount env c
                                      accountName msgs p)) = [])
    by now apply signedTxs_none.
  destruct (provision env context txf' accountName msgs q) as [[o q'] t'].
  unfold out_of, trace_of in *. cbn [fst snd] in *. intros Hret.
  destruct (Hok _ Hret) as (bytes & r & Hin & Hcode & ->).
  destruct (Hbytes _ _ _ Hin) as (tx & Htx & Henc & _).
  destruct (Hsigned tx) as (Hmsgs & Hgas & Hsigs); [rewrite Htx; now left|].
  exists raw, tx, bytes, r.
  repeat split; auto.
  + apply in_or_app. now left.
  + rewrite count_app, Hret0, Hret1. reflexivity.
  + rewrite signedTxs_app, Hq. exact Htx.
  + apply in_or_app. now right.
  + rewrite count_app, Hnb. pose proof (in_count_pos isBroadcast _ _ Hin eq_refl). lia.
Qed.

End EndToEndFacts.

(** ** Where a broadcast can panic *)

Section PanicFacts.

Variable W : Type.
Variable env : Env W.










(** The provision function panics in two places only.  In [tx.Sign],
    when a message cannot parse its signer's address under the address
    configuration in force: nothing has been signed or broadcast then.  And
    in [handleBroadcastResult], when the node's client answers the
    broadcast with neither a response nor an error and the code of the
    absent response is read. *)
Lemma provision_panics (context : Context) (txf : Factory) (accountName : string)
  (msgs : list Msg) (p : Proc W) :
  let run := provision env context txf accountName msgs p in
  out_of run <> Blocks /\
  forall msg, out_of run = Panics msg ->
    (exists t,
       trace_of run =
         t ++ [EvSign txf accountName (sdkConfig p) (mconf p) (SignPanics msg)] /\
       signedTxs (trace_of run) = [] /\
       count isBroadcast (trace_of run) = 0%nat) \/
    (msg = "invalid memory address or nil pointer dereference" /\
     exists t bytes, trace_of run = t ++ [EvBroadcastTx bytes None None]).
Proof.
  cbn zeta.
  unfold provision, tx_BuildUnsignedTx, tx_Sign, bind, emit, ret, ask, lift,
    out_of, trace_of.
  destruct (tx_BuildRefused env txf msgs) as [e|]; cbn;
    [split; [discriminate|intros; discriminate]|].
  destruct (sdk_Sign env accountName (tx_signMode env txf) _ _
              (sdkConfig p) (world p)) as [[sigBytes|e|msg0] w]; cbn.
  2: split; [discriminate|intros; discriminate].
  2: { split; [discriminate|]. intros msg H. inversion H; subst. left.
       eexists [_]. repeat split. }
  destruct (tx_Encode env _) as [txBytes|e]; cbn;
    [|split; [discriminate|intros; discriminate]].
  destruct (ctx_BroadcastTx env context txBytes (sdkConfig p) w)
    as [[resp err] w']; cbn.
  unfold handleBroadcastResult. destruct err as [e|]; cbn.
  - destruct (strings.Contains (Error e) "not found"); cbn;
      (split; [discriminate|intros; discriminate]).
  - destruct resp as [r|]; cbn.
    + destruct (0 <? Code r)%N; cbn; (split; [discriminate|intros; discriminate]).
    + split; [discriminate|]. intros msg H. inversion H. right. split; [reflexivity|].
      eexists [_; _; _], txBytes. reflexivity.
Qed.

(** What the two quoting functions hand to their callers. *)
Lemma quote_hands_provision (c : Client) (accountName : string) (msgs : list Msg)
  (p : Proc W) (run : outcome (uint64 * option (Provisioner W) * option error)
                      * Proc W * list Event) :
  run = BroadcastTxWithProvision env c accountName msgs p \/
  run = BroadcastTxWithProvisionCreateAccount env c accountName msgs p ->
  let prep := prepareBroadcast env c Background accountName msgs p in
  (forall msg, out_of run = Panics msg ->
     out_of prep = Panics msg /\ run = (Panics msg, proc_of prep, trace_of prep)) /\
  (forall gas b err, out_of run = Ret (gas, b, err) ->
     match b, err with
     | Some broadcast, None =>
         exists context txf,
           broadcast = provision env context txf accountName msgs /\
           f_gas txf = gas /\ ctx_FromName context = accountName /\
           ctx_Codec context = ctx_Codec (c_Context c) /\
           sdkConfig (proc_of run) = installed c /\ mconf (proc_of run) = false
     | None, Some _ => True
     | _, _ => False
     end).
Proof.
  intros Hrun. cbn zeta. split.
  - intros msg Hp.
    assert (Hprep : out_of (prepareBroadcast env c Background accountName msgs p)
                    = Panics msg).
    { destruct Hrun as [->| ->].
      - now destruct (BroadcastTxWithProvision_discipline env c accountName msgs p)
          as (tail & _ & _ & _ & _ & _ & _ & _ & _ & _ & _ & H); apply H.
      - now destruct (BroadcastTxWithProvisionCreateAccount_discipline env c
                        accountName msgs p)
          as (tail & _ & _ & _ & _ & _ & _ & _ & _ & _ & _ & H); apply H. }
    split; [exact Hprep|].
    destruct Hrun as [->| ->];
      unfold BroadcastTxWithProvision, BroadcastTxWithProvisionCreateAccount;
      rewrite bind_run, Hprep; reflexivity.
  - intros gas b err Hret. destruct Hrun as [->| ->].
    + destruct (BroadcastTxWithProvision_discipline env c accountName msgs p)
        as (tail & _ & _ & _ & _ & _ & _ & _ & _ & _ & Hnil & _).
      destruct (Hnil _ _ _ Hret) as (Hiff & _ & Hcfg).
      destruct (BroadcastTxWithProvision_shape env c accountName msgs p)
        as [(_ & _ & Hno)|(pre & account & txf & r0 & _ & _ & _ & _ & _ & _ & _ & Hout)].
      * destruct b as [b|]; [now specialize (Hno gas b err)|].
        destruct err; [exact I|]. now apply (proj1 Hiff).
      * cbn zeta in Hout. rewrite Hout in Hret.
        destruct r0; inversion Hret; subst; [|exact I].
        destruct Hcfg as (Hc1 & Hc2); [discriminate|].
        do 2 eexists. split; [reflexivity|]. cbn. auto 10.
    + destruct (BroadcastTxWithProvisionCreateAccount_discipline env c accountName msgs p)
        as (tail & _ & _ & _ & _ & _ & _ & _ & _ & _ & Hnil & _).
      destruct (Hnil _ _ _ Hret) as (Hiff & _ & Hcfg).
      destruct (BroadcastTxWithProvisionCreateAccount_shape env c accountName msgs p)
        as (_ & _ & Hshape). cbn zeta in Hshape.
      destruct b as [b|].
      * destruct (Hshape _ _ _ Hret) as (account & raw & _ & _ & -> & ->).
        destruct Hcfg as (Hc1 & Hc2); [discriminate|].
        do 2 eexists. split; [reflexivity|]. auto 10.
      * destruct err; [exact I|]. now apply (proj1 Hiff).
Qed.


End PanicFacts.

(** ** The mutex and the address configuration *)

Section LockFacts.

Variable W : Type.
Variable env : Env W.

(** [BroadcastTx] and [BroadcastTxCreateAccount] are their quoting function
    followed, when it hands one over, by the provision function. *)
Lemma broadcast_after_quote (c : Client) (accountName : string) (msgs : list Msg)
  (p : Proc W) (run : outcome (Response * option error) * Proc W * list Event) :
  run = BroadcastTx env c accountName msgs p \/
  run = BroadcastTxCreateAccount env c accountName msgs p ->
  exists quote,
    (quote = BroadcastTxWithProvision env c accountName msgs p \/
     quote = BroadcastTxWithProvisionCreateAccount env c accountName msgs p) /\
    ((exists gas e, out_of quote = Ret (gas, None, Some e) /\
        run = (Ret (Response_zero, Some e), proc_of quote, trace_of quote ++ [])) \/
     (exists gas context txf,
        let broadcast := provision env context txf accountName msgs in
        out_of quote = Ret (gas, Some broadcast, None) /\
        f_gas txf = gas /\ ctx_Codec context = ctx_Codec (c_Context c) /\
        run = (out_of (broadcast (proc_of quote)),
               proc_of (broadcast (proc_of quote)),
               trace_of quote ++ trace_of (broadcast (proc_of quote)))) \/
     (exists msg, out_of quote = Panics msg /\
        run = (Panics msg, proc_of quote, trace_of quote)) \/
     (out_of quote = Blocks /\ run = (Blocks, proc_of quote, trace_of quote))).
Proof.
  intros Hrun.
  assert (Hq : exists quote,
            (quote = BroadcastTxWithProvision env c accountName msgs p \/
             quote = BroadcastTxWithProvisionCreateAccount env c accountName msgs p) /\
            run =
              bind (fun _ => quote)
                (fun r : uint64 * option (Provisioner W) * option error =>
                   match r with
                   | (_, _, Some err) => ret (Response_zero, Some err)
                   | (_, Some broadcast, None) => broadcast
                   | (_, None, None) =>
                       lift (Panics "invalid memory address or nil pointer dereference")
                   end) p).
  { destruct Hrun as [->| ->]; eexists; split; [left| |right|]; reflexivity. }
  destruct Hq as (quote & Hq & ->). exists quote. split; [exact Hq|].
  rewrite bind_run.
  destruct (@quote_hands_provision W env c accountName msgs p quote Hq) as (_ & Hret).
  destruct (out_of quote) as [[[gas b] err]|msg|] eqn:Eq.
  - specialize (Hret _ _ _ eq_refl).
    destruct b as [b|], err as [e|]; try contradiction.
    + destruct Hret as (context & txf & -> & Hgas & _ & Hcodec & _).
      right. left. exists gas, context, txf. cbn zeta. auto.
    + left. exists gas, e. auto.
  - do 2 right. left. eauto.
  - do 3 right. auto.
Qed.

Lemma guarded_skip (held : bool) (t1 t2 : list Event) :
  Forall (fun e => touchesConfig e = false) t1 ->
  guarded held (t1 ++ t2) = guarded held t2.
Proof.
  induction 1 as [|e t He _ IH]; [reflexivity|].
  destruct e; cbn in *; auto; discriminate.
Qed.

Lemma guarded_then (t1 t2 : list Event) (held : bool) :
  Forall (fun e => touchesConfig e = false) t2 ->
  guarded held (t1 ++ t2) = guarded held t1.
Proof.
  intros H2. revert held. induction t1 as [|e t1 IH]; intros held.
  - cbn [app]. rewrite <- (app_nil_r t2). now rewrite guarded_skip.
  - destruct e; cbn; rewrite ?IH; reflexivity.
Qed.

Lemma kind_untouched (kind : Event -> bool) (t : list Event) :
  (forall e, kind e = true -> touchesConfig e = false) ->
  Forall (fun e => kind e = true) t ->
  Forall (fun e => touchesConfig e = false) t.
Proof. intros Hk Ht. eapply Forall_impl; [|exact Ht]. exact Hk. Qed.

Lemma quote_disciplined (c : Client) (accountName : string) (msgs : list Msg)
  (p : Proc W) (quote : outcome (uint64 * option (Provisioner W) * option error)
                        * Proc W * list Event) :
  quote = BroadcastTxWithProvision env c accountName msgs p \/
  quote = BroadcastTxWithProvisionCreateAccount env c accountName msgs p ->
  mconf p = false ->
  disciplined c p quote.
Proof.
  intros Hq Hfree.
  destruct (prepareBroadcast_confined env c Background accountName msgs p)
    as (Hprep & _ & _).
  assert (H : exists tail,
    trace_of quote = trace_of (prepareBroadcast env c Background accountName msgs p)
                     ++ tail /\
    guarded false tail = true /\
    (count isLock tail <= 1)%nat /\
    (count isLock tail = 0%nat ->
       sdkConfig (proc_of quote) = sdkConfig p /\ mconf (proc_of quote) = mconf p) /\
    (count isLock tail = 1%nat ->
       sdkConfig (proc_of quote) = installed c /\ mconf (proc_of quote) = false) /\
    out_of quote <> Blocks).
  { destruct Hq as [->| ->];
      [destruct (BroadcastTxWithProvision_discipline env c accountName msgs p)
         as (tail & Ht & _ & Hg & _ & Hle & H0 & H1 & Hb & _)
      |destruct (BroadcastTxWithProvisionCreateAccount_discipline env c accountName msgs p)
         as (tail & Ht & _ & Hg & _ & Hle & H0 & H1 & Hb & _)];
      exists tail; auto 10. }
  unfold disciplined.
  destruct H as (tail & -> & Hg & Hle & H0 & H1 & Hb).
  assert (Hcount : count isLock
                     (trace_of (prepareBroadcast env c Background accountName msgs p)
                      ++ tail) = count isLock tail).
  { rewrite count_app.
    rewrite (@count_none isLock isFunding _ Hprep); [reflexivity|now intros []]. }
  rewrite Hcount.
  rewrite guarded_skip
    by (apply kind_untouched with (kind := isFunding); [now intros []|exact Hprep]).
  split; [exact Hb|].
  destruct (count isLock tail) as [|[|n]]; [| |lia]; cbn [Nat.eqb].
  - destruct (H0 eq_refl) as (-> & ->). auto.
  - destruct (H1 eq_refl) as (-> & ->). auto.
Qed.

Lemma broadcast_disciplined (c : Client) (accountName : string) (msgs : list Msg)
  (p : Proc W) (run : outcome (Response * option error) * Proc W * list Event) :
  run = BroadcastTx env c accountName msgs p \/
  run = BroadcastTxCreateAccount env c accountName msgs p ->
  mconf p = false ->
  disciplined c p run.
Proof.
  intros Hrun Hfree.
  destruct (broadcast_after_quote c accountName msgs p Hrun) as (quote & Hq & Hcases).
  destruct (quote_disciplined c accountName msgs p Hq Hfree)
    as (Hb & Hm & Hg & Hle & Hcfg).
  destruct Hcases as [(gas & e & _ & ->)|[(gas & context & txf & Hout)
                     |[(msg & _ & ->)|(Hblocks & _)]]].
  - rewrite app_nil_r. unfold disciplined. cbn [out_of proc_of trace_of fst snd].
    split; [discriminate|]. auto.
  - cbn zeta in Hout. destruct Hout as (_ & _ & _ & ->).
    destruct (provision_confined env context txf accountName msgs (proc_of quote))
      as (Hcommit & Hcfg' & Hm').
    destruct (provision_panics env context txf accountName msgs (proc_of quote))
      as (Hb' & _).
    cbn zeta in Hb'. unfold disciplined. cbn [out_of proc_of trace_of fst snd].
    rewrite count_app, (@count_none isLock isCommit _ Hcommit), Nat.add_0_r
      by now intros [].
    rewrite guarded_then
      by (apply kind_untouched with (kind := isCommit); [now intros []|exact Hcommit]).
    rewrite Hcfg', Hm'. auto.
  - unfold disciplined. cbn [out_of proc_of trace_of fst snd].
    split; [discriminate|]. auto.
  - contradiction.
Qed.

(** Called with the mutex [mconf] free, each of the four broadcasting
    functions returns or panics but never waits for the mutex, and leaves it
    free; it writes the process-wide address configuration only while
    holding the mutex, in at most one critical section; and when it has
    gone through that section the configuration is left set to the client's
    prefix (with [pub] appended for public keys): it is not restored. *)
Theorem broadcasts_respect_mconf (c : Client) (accountName : string)
  (msgs : list Msg) (p : Proc W) :
  mconf p = false ->
  disciplined c p (BroadcastTxWithProvision env c accountName msgs p) /\
  disciplined c p (BroadcastTxWithProvisionCreateAccount env c accountName msgs p) /\
  disciplined c p (BroadcastTx env c accountName msgs p) /\
  disciplined c p (BroadcastTxCreateAccount env c accountName msgs p).
Proof.
  intros Hfree.
  split; [apply (@quote_disciplined c accountName msgs p); auto|].
  split; [apply (@quote_disciplined c accountName msgs p); auto|].
  split; apply (@broadcast_disciplined c accountName msgs p); auto.
Qed.

(** What [BroadcastTxWithProvision] and [BroadcastTxWithProvisionCreateAccount]
    return: a provision function exactly when there is no error, and gas 0
    with an error.  The provision function is the one built for this
    account and these messages, over the client's codec and a factory
    whose gas is the gas returned. *)
Theorem quote_provision_or_error (c : Client) (accountName : string)
  (msgs : list Msg) (p : Proc W)
  (quote : outcome (uint64 * option (Provisioner W) * option error)
           * Proc W * list Event)
  (gas : uint64) (b : option (Provisioner W)) (err : option error) :
  quote = BroadcastTxWithProvision env c accountName msgs p \/
  quote = BroadcastTxWithProvisionCreateAccount env c accountName msgs p ->
  out_of quote = Ret (gas, b, err) ->
  (b = None <-> err <> None) /\
  (err <> None -> gas = 0) /\
  (forall broadcast, b = Some broadcast ->
     exists context txf,
       broadcast = provision env context txf accountName msgs /\
       f_gas txf = gas /\ ctx_FromName context = accountName /\
       ctx_Codec context = ctx_Codec (c_Context c)).
Proof.
  intros Hq Hret.
  destruct (@quote_hands_provision W env c accountName msgs p quote Hq) as (_ & Hp).
  specialize (Hp _ _ _ Hret).
  assert (Hnil : (b = None <-> err <> None) /\ (err <> None -> gas = 0)).
  { destruct Hq as [->| ->];
      [destruct (BroadcastTxWithProvision_discipline env c accountName msgs p)
         as (tail & _ & _ & _ & _ & _ & _ & _ & _ & _ & Hnil & _)
      |destruct (BroadcastTxWithProvisionCreateAccount_discipline env c accountName msgs p)
         as (tail & _ & _ & _ & _ & _ & _ & _ & _ & _ & Hnil & _)];
      destruct (Hnil _ _ _ Hret) as (H1 & H2 & _); split; assumption. }
  destruct Hnil as (Hiff & Hgas). split; [exact Hiff|]. split; [exact Hgas|].
  intros broadcast ->. destruct err; [contradiction|].
  destruct Hp as (context & txf & H1 & H2 & H3 & H4 & _).
  exists context, txf. auto.
Qed.

End LockFacts.

(** ** The account lookup and the faucet switch *)

Section LookupFacts.

Variable W : Type.
Variable env : Env W.

Lemma prepareBroadcast_run (c : Client) (ctx : GoContext) (accountName : string)
  (msgs : list Msg) (p : Proc W) :
  let answer := registry_GetByName env accountName (sdkConfig p) (world p) in
  let q := {| world := snd answer; sdkConfig := sdkConfig p; mconf := mconf p |} in
  prepareBroadcast env c ctx accountName msgs p =
    match fst answer with
    | Err e => (Ret (Some e), q, [EvGetByName accountName (Err e)])
    | Ok account =>
        if useFaucet c
        then
          let funding :=
            makeSureAccountHasTokens env c ctx
              (account_Address env account (addressPrefix c)) q in
          (out_of funding, proc_of funding,
           EvGetByName accountName (Ok account) :: trace_of funding)
        else (Ret None, q, [EvGetByName accountName (Ok account)])
    end.
Proof.
  cbn zeta. unfold prepareBroadcast, Client_Account. rewrite bind_run, ask_run.
  cbn [out_of proc_of trace_of fst snd].
  destruct (fst (registry_GetByName env accountName (sdkConfig p) (world p)))
    as [account|e]; [|reflexivity].
  destruct (useFaucet c); [|reflexivity].
  destruct (makeSureAccountHasTokens env c ctx _ _) as [[[o| |] q'] t']; reflexivity.
Qed.

(** An account name the registry does not know stops each of the four
    broadcasting functions at the lookup: the registry's error is returned
    as it is, with gas 0 and no provision function, or with the zero
    [Response]; the lookup is the only event, whether or not the client
    uses a faucet, and neither the mutex nor the address configuration is
    touched, even when the mutex is held by another call. *)
Theorem broadcasts_unknown_account (c : Client) (accountName : string)
  (msgs : list Msg) (p : Proc W) (e : error) :
  let answer := registry_GetByName env accountName (sdkConfig p) (world p) in
  let q := {| world := snd answer; sdkConfig := sdkConfig p; mconf := mconf p |} in
  let t := [EvGetByName accountName (Err e)] in
  fst answer = Err e ->
  BroadcastTxWithProvision env c accountName msgs p = (Ret (0, None, Some e), q, t) /\
  BroadcastTxWithProvisionCreateAccount env c accountName msgs p
    = (Ret (0, None, Some e), q, t) /\
  BroadcastTx env c accountName msgs p = (Ret (Response_zero, Some e), q, t) /\
  BroadcastTxCreateAccount env c accountName msgs p = (Ret (Response_zero, Some e), q, t).
Proof.
  cbn zeta. intros Hans.
  pose proof (prepareBroadcast_run c Background accountName msgs p) as Hprep.
  cbn zeta in Hprep. rewrite Hans in Hprep.
  assert (H1 : BroadcastTxWithProvision env c accountName msgs p =
               (Ret (0, None, Some e),
                {| world := snd (registry_GetByName env accountName (sdkConfig p) (world p));
                   sdkConfig := sdkConfig p; mconf := mconf p |},
                [EvGetByName accountName (Err e)])).
  { unfold BroadcastTxWithProvision. rewrite bind_run, Hprep. reflexivity. }
  assert (H2 : BroadcastTxWithProvisionCreateAccount env c accountName msgs p =
               (Ret (0, None, Some e),
                {| world := snd (registry_GetByName env accountName (sdkConfig p) (world p));
                   sdkConfig := sdkConfig p; mconf := mconf p |},
                [EvGetByName accountName (Err e)])).
  { unfold BroadcastTxWithProvisionCreateAccount. rewrite bind_run, Hprep. reflexivity. }
  split; [exact H1|]. split; [exact H2|].
  unfold BroadcastTx, BroadcastTxCreateAccount. rewrite !bind_run, H1, H2.
  split; reflexivity.
Qed.

(** A client that was not given a faucet never asks the bank for balances,
    never calls a faucet and never waits: in all four broadcasting
    functions no balance query, faucet request, retry or sleep occurs, and
    the first event is the lookup of the account. *)
Theorem broadcasts_without_faucet (c : Client) (accountName : string)
  (msgs : list Msg) (p : Proc W) :
  useFaucet c = false ->
  let quiet (t : list Event) :=
    (exists r rest, t = EvGetByName accountName r :: rest) /\
    count isBalanceQuery t = 0%nat /\ count isFaucetRequest t = 0%nat /\
    count isRetry t = 0%nat /\ count isSleep t = 0%nat in
  quiet (trace_of (BroadcastTxWithProvision env c accountName msgs p)) /\
  quiet (trace_of (BroadcastTxWithProvisionCreateAccount env c accountName msgs p)) /\
  quiet (trace_of (BroadcastTx env c accountName msgs p)) /\
  quiet (trace_of (BroadcastTxCreateAccount env c accountName msgs p)).
Proof.
  intros Hoff. cbn zeta.
  pose proof (prepareBroadcast_run c Background accountName msgs p) as Hprep.
  cbn zeta in Hprep. rewrite Hoff in Hprep.
  assert (Hp : exists r, trace_of (prepareBroadcast env c Background accountName msgs p)
                         = [EvGetByName accountName r]).
  { rewrite Hprep.
    destruct (fst (registry_GetByName env accountName (sdkConfig p) (world p)));
      eexists; reflexivity. }
  destruct Hp as (r & Hp). clear Hprep.
  assert (Hquote : forall quote,
    quote = BroadcastTxWithProvision env c accountName msgs p \/
    quote = BroadcastTxWithProvisionCreateAccount env c accountName msgs p ->
    exists tail, trace_of quote = EvGetByName accountName r :: tail /\
                 Forall (fun e => isCritical e = true) tail).
  { intros quote [->| ->];
      [destruct (BroadcastTxWithProvision_discipline env c accountName msgs p)
         as (tail & Ht & Hc & _)
      |destruct (BroadcastTxWithProvisionCreateAccount_discipline env c accountName msgs p)
         as (tail & Ht & Hc & _)];
      rewrite Hp in Ht; exists tail; auto. }
  assert (Hq : forall (tq tail more : list Event),
    tq = EvGetByName accountName r :: tail ->
    Forall (fun e => isCritical e = true) tail ->
    Forall (fun e => isCommit e = true) more ->
    (exists r0 rest, tq ++ more = EvGetByName accountName r0 :: rest) /\
    count isBalanceQuery (tq ++ more) = 0%nat /\
    count isFaucetRequest (tq ++ more) = 0%nat /\
    count isRetry (tq ++ more) = 0%nat /\
    count isSleep (tq ++ more) = 0%nat).
  { intros tq tail more -> Hc Hm. split; [cbn; eauto|].
    change (EvGetByName accountName r :: tail) with ([EvGetByName accountName r] ++ tail).
    rewrite !count_app.
    rewrite !(fun f H => @count_none f isCritical tail Hc H),
            !(fun f H => @count_none f isCommit more Hm H); try (now intros []).
    repeat split; reflexivity. }
  assert (Hrun : forall run,
    run = BroadcastTx env c accountName msgs p \/
    run = BroadcastTxCreateAccount env c accountName msgs p ->
    exists tq tail more,
      trace_of run = tq ++ more /\
      tq = EvGetByName accountName r :: tail /\
      Forall (fun e => isCritical e = true) tail /\
      Forall (fun e => isCommit e = true) more).
  { intros run Hr.
    destruct (broadcast_after_quote env c accountName msgs p Hr) as (quote & Hqq & Hcases).
    destruct (Hquote quote Hqq) as (tail & Ht & Hc).
    destruct Hcases as [(gas & e & _ & ->)|[(gas & context & txf & Hout)
                       |[(msg & _ & ->)|(_ & ->)]]].
    - exists (trace_of quote), tail, []. auto.
    - cbn zeta in Hout. destruct Hout as (_ & _ & _ & ->).
      exists (trace_of quote), tail,
        (trace_of (provision env context txf accountName msgs (proc_of quote))).
      repeat split; auto. apply provision_confined.
    - exists (trace_of quote), tail, []. rewrite app_nil_r. auto.
    - exists (trace_of quote), tail, []. rewrite app_nil_r. auto. }
  split; [|split; [|split]].
  - destruct (Hquote _ (or_introl eq_refl)) as (tail & Ht & Hc).
    rewrite <- (app_nil_r (trace_of _)). eapply Hq; eauto.
  - destruct (Hquote _ (or_intror eq_refl)) as (tail & Ht & Hc).
    rewrite <- (app_nil_r (trace_of _)). eapply Hq; eauto.
  - destruct (Hrun _ (or_introl eq_refl)) as (tq & tail & more & -> & Ht & Hc & Hm).
    eapply Hq; eauto.
  - destruct (Hrun _ (or_intror eq_refl)) as (tq & tail & more & -> & Ht & Hc & Hm).
    eapply Hq; eauto.
Qed.

End LookupFacts.

(** ** Decoding what a broadcast returns *)

Section DecodeAfterBroadcast.

Variable W : Type.
Variable env : Env W.
Variable T : Type.
Variable UnmarshalAny : Any -> res T.

(** The [Response] of [BroadcastTx] or [BroadcastTxCreateAccount], for a
    client whose context has a codec, as the one [New] builds.  Returned
    without error it holds that codec and the node's answer, of code 0, so
    [Decode] reads neither a nil response nor a nil codec: its only panic
    left is the index into an envelope without results.  Returned when
    nothing was broadcast it is the zero [Response], and [Decode] on it
    panics on the nil response. *)
Theorem Decode_after_broadcast (c : Client) (accountName : string) (msgs : list Msg)
  (p : Proc W) (run : outcome (Response * option error) * Proc W * list Event)
  (resp : Response) (err : option error) (cdc : Codec) :
  run = BroadcastTx env c accountName msgs p \/
  run = BroadcastTxCreateAccount env c accountName msgs p ->
  out_of run = Ret (resp, err) ->
  ctx_Codec (c_Context c) = Some cdc ->
  (err = None ->
     exists r,
       resp = {| codec := Some cdc; Response_TxResponse := Some r |} /\
       Code r = 0%N /\
       forall msg, Decode UnmarshalAny resp = Panics msg ->
         msg = "index out of range [0] with length 0" /\
         exists data envelope,
           hex.DecodeString (Data r) = Ok data /\
           Unmarshal_TxMsgData cdc data = Ok envelope /\
           TxMsgData_Data envelope = []) /\
  (count isBroadcast (trace_of run) = 0%nat ->
     resp = Response_zero /\ err <> None /\
     Decode UnmarshalAny resp = Panics "invalid memory address or nil pointer dereference").
Proof.
  intros Hrun Hret Hcodec.
  destruct (broadcast_after_quote env c accountName msgs p Hrun) as (quote & Hq & Hcases).
  destruct (@quote_counts W env isBroadcast c accountName msgs p) as (Hnb1 & Hnb2);
    [now intros []|now intros []|].
  assert (Hnb : count isBroadcast (trace_of quote) = 0%nat)
    by (destruct Hq as [->| ->]; assumption).
  clear Hnb1 Hnb2.
  destruct Hcases as [(gas & e & _ & ->)|[(gas & context & txf & Hout)
                     |[(msg & _ & ->)|(_ & ->)]]]; try discriminate.
  - cbn [out_of trace_of fst snd] in *. inversion Hret; subst.
    split; [discriminate|]. intros _. repeat split; discriminate.
  - cbn zeta in Hout. destruct Hout as (_ & _ & Hc & ->).
    destruct (provision_commit env context txf accountName msgs (proc_of quote))
      as (_ & _ & Hzero & Hok). cbn zeta in *.
    cbn [out_of trace_of fst snd] in *. fold (out_of (provision env context txf accountName msgs (proc_of quote))) in *.
    split.
    + intros ->. destruct (Hok _ Hret) as (bytes & r & _ & Hcode & ->).
      exists r. rewrite Hc, Hcodec. split; [reflexivity|]. split; [exact Hcode|].
      intros msg. unfold Decode. cbn.
      destruct (hex.DecodeString (Data r)) as [data|]; [|discriminate].
      destruct (Unmarshal_TxMsgData cdc data) as [[entries]|] eqn:Eu; [|discriminate].
      destruct entries as [|resData rest]; cbn.
      * intros H. inversion H. split; [reflexivity|]. exists data. eauto.
      * destruct (UnmarshalAny _); discriminate.
    + rewrite count_app, Hnb. cbn [Nat.add]. intros H0.
      destruct (Hzero H0) as [(e & He)|(msg & t & He & _)];
        unfold out_of in *; rewrite He in Hret; [|discriminate].
      inversion Hret; subst. repeat split; discriminate.
Qed.

End DecodeAfterBroadcast.

(** ** Building a client *)

Section BuildingFacts.

Variable KeyringBackend : Type.
Variables KeyringTest KeyringBackend_zero : KeyringBackend.
Variables HTTP Registry H : Type.
Variable host : Host KeyringBackend HTTP Registry H.

Lemma applyOptions_app (options more : list (Option KeyringBackend HTTP Registry))
  (c : FullClient KeyringBackend HTTP Registry) :
  applyOptions (options ++ more) c = applyOptions more (applyOptions options c).
Proof. apply fold_left_app. Qed.

(** A client [New] returns without error.  The handles are set; the chain
    id is the network name the node reports in its status, asked at the node
    address the options left; the context is [newContext] for that chain id
    and the home of the client, the factory is [newFactory] of that
    context, so that its account number and its sequence are 0; the
    registry has been opened with the keyring settings and the home of the
    client; and the prefix, the node address, the faucet and the keyring
    settings are as the options left them.  With an error the client
    returned is the zero [Client]. *)
Theorem New_builds (ctx : GoContext)
  (options : list (Option KeyringBackend HTTP Registry)) (h h' : H)
  (c : FullClient KeyringBackend HTTP Registry) (err : option error)
  (t : list (BootEvent KeyringBackend)) :
  New KeyringTest KeyringBackend_zero host ctx options h = ((c, err), h', t) ->
  let configured := applyOptions options (New_defaults KeyringTest HTTP Registry) in
  match err with
  | Some _ => c = FullClient_zero KeyringBackend_zero HTTP Registry
  | None =>
      exists rpc h1 network h2 registry,
        rpchttp_New host (nodeAddress (base configured)) "/websocket" h = (Ok rpc, h1) /\
        rpc_Status host rpc ctx h1 = (Ok network, h2) /\
        RPC c = Some rpc /\
        AccountRegistry c = Some registry /\
        chainID (base c) = network /\
        c_Context (base c) = newContext host network (homePath (base c)) /\
        c_Factory (base c) = newFactory (c_Context (base c)) /\
        f_chainID (c_Factory (base c)) = network /\
        f_accountNumber (c_Factory (base c)) = 0 /\
        f_sequence (c_Factory (base c)) = 0 /\
        f_gas (c_Factory (base c)) = defaultGasLimit /\
        last t EvUserHomeDir =
          EvRegistryNew (keyringServiceName c) (keyringBackend c) (homePath (base c)) /\
        addressPrefix (base c) = addressPrefix (base configured) /\
        nodeAddress (base c) = nodeAddress (base configured) /\
        useFaucet (base c) = useFaucet (base configured) /\
        faucetAddress (base c) = faucetAddress (base configured) /\
        faucetDenom (base c) = faucetDenom (base configured) /\
        faucetMinAmount (base c) = faucetMinAmount (base configured) /\
        keyringServiceName c = keyringServiceName configured /\
        keyringBackend c = keyringBackend configured
  end.
Proof.
  cbn zeta. unfold New.
  set (configured := applyOptions options (New_defaults KeyringTest HTTP Registry)).
  destruct (rpchttp_New host (nodeAddress (base configured)) "/websocket" h)
    as [[rpc|e] h1] eqn:Erpc.
  2: { intros E. inversion E; subst. reflexivity. }
  cbn [base RPC AccountRegistry keyringServiceName keyringBackend].
  destruct (rpc_Status host rpc ctx h1) as [[network|e] h2] eqn:Est.
  2: { intros E. inversion E; subst. reflexivity. }
  unfold New_registry, set_base.
  cbn [base RPC AccountRegistry keyringServiceName keyringBackend set_chainID
       set_homePath homePath chainID].
  destruct (String.eqb (homePath (base configured)) "").
  - destruct (os_UserHomeDir host h2) as [[home|e] h3].
    2: { intros E. inversion E; subst. reflexivity. }
    cbn [base RPC AccountRegistry keyringServiceName keyringBackend set_chainID
         set_homePath homePath chainID].
    destruct (cosmosaccount_New host _ _ _ h3) as [[registry|e] h4].
    2: { intros E. inversion E; subst. reflexivity. }
    intros E. inversion E; subst. exists rpc, h1, network, h2, registry.
    cbn. repeat split; auto.
  - destruct (cosmosaccount_New host _ _ _ h2) as [[registry|e] h4].
    2: { intros E. inversion E; subst. reflexivity. }
    intros E. inversion E; subst. exists rpc, h1, network, h2, registry.
    cbn. repeat split; auto.
Qed.

(** The home of the client.  A home left non-empty by the options is kept
    and [os.UserHomeDir] is not consulted, whatever [New] returns; an empty
    one, set by no option or by [WithHome] of the empty path, is replaced
    by the directory named after the chain id, with a dot before it, under
    the home of the user.  The context is given the same home. *)
Theorem New_home_directory (ctx : GoContext)
  (options : list (Option KeyringBackend HTTP Registry)) (h h' : H)
  (c : FullClient KeyringBackend HTTP Registry) (err : option error)
  (t : list (BootEvent KeyringBackend)) :
  New KeyringTest KeyringBackend_zero host ctx options h = ((c, err), h', t) ->
  let configured := applyOptions options (New_defaults KeyringTest HTTP Registry) in
  (homePath (base configured) <> "" ->
     ~ In EvUserHomeDir t /\
     (err = None -> homePath (base c) = homePath (base configured))) /\
  (homePath (base configured) = "" ->
     err = None ->
     In EvUserHomeDir t /\
     exists home h2 h3,
       os_UserHomeDir host h2 = (Ok home, h3) /\
       homePath (base c) = filepath_Join host home ("." ++ chainID (base c))) /\
  (err = None -> ctx_HomeDir (c_Context (base c)) = homePath (base c)).
Proof.
  cbn zeta. unfold New, New_registry, set_base.
  set (configured := applyOptions options (New_defaults KeyringTest HTTP Registry)).
  cbn [base RPC AccountRegistry keyringServiceName keyringBackend set_chainID
       set_homePath homePath chainID].
  destruct (rpchttp_New host _ _ h) as [[rpc|e] h1].
  2: { intros E. inversion E; subst. cbn. repeat split; try discriminate.
       intros [Hin|[]]. discriminate. }
  destruct (rpc_Status host rpc ctx h1) as [[network|e] h2].
  2: { intros E. inversion E; subst. cbn. repeat split; try discriminate.
       intros [Hin|[Hin|[]]]; discriminate. }
  destruct (String.eqb_spec (homePath (base configured)) "") as [Hhome|Hhome].
  - destruct (os_UserHomeDir host h2) as [[home|e] h3] eqn:Ehome.
    2: { intros E. inversion E; subst. repeat split; try discriminate; contradiction. }
    cbn [base RPC AccountRegistry keyringServiceName keyringBackend set_chainID
         set_homePath homePath chainID].
    destruct (cosmosaccount_New host _ _ _ h3) as [[registry|e] h4];
      intros E; inversion E; subst; cbn.
    + split; [contradiction|]. split; [|reflexivity].
      intros _ _. split; [tauto|]. exists home, h2, h3. auto.
    + repeat split; try discriminate; contradiction.
  - destruct (cosmosaccount_New host _ _ _ h2) as [[registry|e] h4];
      intros E; inversion E; subst; cbn.
    + split; [|split; [contradiction|reflexivity]].
      intros _. split; [|reflexivity]. intros [Hin|[Hin|[Hin|[]]]]; discriminate.
    + split; [|split; [contradiction|discriminate]].
      intros _. split; [|discriminate]. intros [Hin|[Hin|[Hin|[]]]]; discriminate.
Qed.

Lemma packageOption_faucet (o : Option KeyringBackend HTTP Registry)
  (c : FullClient KeyringBackend HTTP Registry) :
  packageOption o ->
  (faucetDenom (base c) <> "" -> faucetDenom (base (o c)) <> "") /\
  (faucetMinAmount (base c) <> 0 -> faucetMinAmount (base (o c)) <> 0) /\
  (useFaucet (base (o c)) = true <->
   useFaucet (base c) = true \/
   exists address denom minAmount, o = WithUseFaucet address denom minAmount).
Proof.
  intros [path|name|backend|addr|prefix|address denom minAmount]; cbn;
    try (split; [auto|split; [auto|]]; split; [auto|];
         intros [Hu|(a & d & m & Heq)]; [exact Hu|];
         apply (f_equal (fun o => useFaucet (base (o c)))) in Heq; exact Heq).
  split; [|split].
  - intros Hd. destruct (String.eqb_spec denom ""); cbn; auto.
  - intros Hm. destruct (Z.eqb_spec minAmount 0); cbn; auto.
  - split; [|reflexivity]. intros _. right. eauto.
Qed.

Lemma applyOptions_faucet (options : list (Option KeyringBackend HTTP Registry))
  (c : FullClient KeyringBackend HTTP Registry) :
  Forall (@packageOption KeyringBackend HTTP Registry) options ->
  (faucetDenom (base c) <> "" -> faucetDenom (base (applyOptions options c)) <> "") /\
  (faucetMinAmount (base c) <> 0 ->
   faucetMinAmount (base (applyOptions options c)) <> 0) /\
  (useFaucet (base (applyOptions options c)) = true <->
   useFaucet (base c) = true \/
   Exists (fun o => exists address denom minAmount,
                      o = WithUseFaucet address denom minAmount) options).
Proof.
  intros Hall. revert c. induction Hall as [|o rest Ho _ IH]; intros c.
  - cbn. split; [auto|split; [auto|]]. split; [auto|].
    intros [Hu|Hex]; [exact Hu|inversion Hex].
  - cbn [applyOptions fold_left]. fold (applyOptions rest (o c)).
    destruct (IH (o c)) as (IHd & IHm & IHu).
    destruct (packageOption_faucet c Ho) as (Hd & Hm & Hu).
    split; [auto|split; [auto|]].
    rewrite IHu, Hu. split.
    + intros [[Hc|Hex]|Hex]; auto.
    + intros [Hc|Hex]; [auto|]. inversion Hex; subst; auto.
Qed.

(** Whatever options of the package are given, a client [New] returns has
    a faucet denom that is not empty and a faucet minimum that is not 0: an
    empty denom or a zero minimum given to [WithUseFaucet] leaves the value
    in place, at first the default.  The client uses the faucet exactly
    when [WithUseFaucet] is among the options. *)
Theorem New_faucet_settings (ctx : GoContext)
  (options : list (Option KeyringBackend HTTP Registry)) (h h' : H)
  (c : FullClient KeyringBackend HTTP Registry) (t : list (BootEvent KeyringBackend)) :
  Forall (@packageOption KeyringBackend HTTP Registry) options ->
  New KeyringTest KeyringBackend_zero host ctx options h = ((c, None), h', t) ->
  faucetDenom (base c) <> "" /\
  faucetMinAmount (base c) <> 0 /\
  (useFaucet (base c) = true <->
   Exists (fun o => exists address denom minAmount,
                      o = WithUseFaucet address denom minAmount) options).
Proof.
  intros Hall.
  destruct (applyOptions_faucet (New_defaults KeyringTest HTTP Registry) Hall)
    as (Hd & Hm & Hu).
  unfold New, New_registry, set_base.
  set (configured := applyOptions options (New_defaults KeyringTest HTTP Registry)) in *.
  cbn [base RPC AccountRegistry keyringServiceName keyringBackend set_chainID
       set_homePath homePath chainID].
  destruct (rpchttp_New host _ _ h) as [[rpc|e] h1]; [|discriminate].
  destruct (rpc_Status host rpc ctx h1) as [[network|e] h2]; [|discriminate].
  assert (Hgoal : faucetDenom (base configured) <> "" /\
                  faucetMinAmount (base configured) <> 0 /\
                  (useFaucet (base configured) = true <->
                   Exists (fun o => exists address denom minAmount,
                                      o = WithUseFaucet address denom minAmount) options)).
  { split; [apply Hd; discriminate|]. split; [apply Hm; discriminate|].
    rewrite Hu. cbn. split; [intros [Hf|Hex]; [discriminate|exact Hex]|auto]. }
  destruct (String.eqb (homePath (base configured)) "").
  - destruct (os_UserHomeDir host h2) as [[home|e] h3]; [|discriminate].
    cbn [base RPC AccountRegistry keyringServiceName keyringBackend set_chainID
         set_homePath homePath chainID].
    destruct (cosmosaccount_New host _ _ _ h3) as [[registry|e] h4]; [|discriminate].
    intros E. inversion E; subst. exact Hgoal.
  - destruct (cosmosaccount_New host _ _ _ h2) as [[registry|e] h4]; [|discriminate].
    intros E. inversion E; subst. exact Hgoal.
Qed.

End BuildingFacts.

(** ** The first broadcasts of a client built by New *)

Section FreshClientFacts.

Variable KeyringBackend : Type.
Variables KeyringTest KeyringBackend_zero : KeyringBackend.
Variables HTTP Registry H : Type.
Variable host : Host KeyringBackend HTTP Registry H.
Variable W : Type.
Variable env : Env W.

(** What [BroadcastTx] signs: a transaction over the factory of the
    simulation. *)
Lemma BroadcastTx_signs (c : Client) (accountName : string) (msgs : list Msg)
  (p : Proc W) (tx : Tx) :
  let run := BroadcastTx env c accountName msgs p in
  In tx (signedTxs (trace_of run)) ->
  exists account txf sigBytes,
    ((f_accountNumber (c_Factory c) <> 0 /\ f_sequence (c_Factory c) <> 0 /\
      txf = c_Factory c) \/
     (exists num seq,
        (f_accountNumber (c_Factory c) = 0 \/ f_sequence (c_Factory c) = 0) /\
        In (EvGetAccountNumberSequence (acc_Address account) (Ok (num, seq)))
           (trace_of run) /\
        txf = resolved (c_Factory c) num seq)) /\
    tx_Signatures tx =
      [ {| sig_Signer := accountName; sig_Mode := tx_signMode env txf;
           sig_Data := {| sd_ChainID := f_chainID txf;
                          sd_AccountNumber := f_accountNumber txf;
                          sd_Sequence := f_sequence txf |};
           sig_Bytes := sigBytes |} ].
Proof.
  cbn zeta. unfold BroadcastTx. rewrite bind_run.
  destruct (BroadcastTxWithProvision_shape env c accountName msgs p)
    as [(_ & Hsig & Hno)|(pre & account & txf & r0 & Htrace & _ & Hsig & _ & Hq & _ & _
                          & Hout)].
  - pose proof (signedTxs_none _ Hsig) as Hnone.
    destruct (out_of (BroadcastTxWithProvision env c accountName msgs p))
      as [[[gas [b|]] [e|]]|msg|]; cbn [out_of proc_of trace_of fst snd ret lift];
      rewrite ?app_nil_r, ?signedTxs_app, ?Hnone; try contradiction.
    now specialize (Hno gas b None).
  - cbn zeta in *.
    assert (Hnone : signedTxs (trace_of (BroadcastTxWithProvision env c accountName
                                           msgs p)) = []).
    { apply signedTxs_none. rewrite Htrace, count_app, Hsig. reflexivity. }
    rewrite Hout. destruct r0 as [raw|e];
      cbn [out_of proc_of trace_of fst snd ret lift];
      rewrite ?app_nil_r, ?signedTxs_app, ?Hnone; [|contradiction].
    cbn [app]. intros Hin.
    match type of Hin with
    | In _ (signedTxs (trace_of (provision _ ?context ?txf' _ _ ?q))) =>
        destruct (provision_signs env context txf' accountName msgs q) as (Hsigned & _)
    end.
    cbn zeta in Hsigned. destruct (Hsigned tx Hin) as (_ & _ & sigBytes & Hs).
    exists account, txf, sigBytes. split; [|exact Hs].
    destruct Hq as [(Hn & Hs' & _ & ->)|(num & seq & Hz & Hin' & ->)]; [left; auto|].
    right. exists num, seq. repeat split; auto.
    apply in_or_app. left. rewrite Htrace. apply in_or_app. now left.
Qed.

(** What [BroadcastTxCreateAccount] signs: a transaction over the factory
    of the client. *)
Lemma BroadcastTxCreateAccount_signs (c : Client) (accountName : string)
  (msgs : list Msg) (p : Proc W) (tx : Tx) :
  let run := BroadcastTxCreateAccount env c accountName msgs p in
  In tx (signedTxs (trace_of run)) ->
  exists sigBytes,
    tx_Signatures tx =
      [ {| sig_Signer := accountName; sig_Mode := tx_signMode env (c_Factory c);
           sig_Data := {| sd_ChainID := f_chainID (c_Factory c);
                          sd_AccountNumber := f_accountNumber (c_Factory c);
                          sd_Sequence := f_sequence (c_Factory c) |};
           sig_Bytes := sigBytes |} ].
Proof.
  cbn zeta. unfold BroadcastTxCreateAccount. rewrite bind_run.
  destruct (BroadcastTxWithProvisionCreateAccount_shape env c accountName msgs p)
    as (_ & Hsig & Hshape). cbn zeta in *.
  pose proof (signedTxs_none _ Hsig) as Hnone.
  destruct (out_of (BroadcastTxWithProvisionCreateAccount env c accountName msgs p))
    as [[[gas [b|]] [e|]]|msg|]; cbn [out_of proc_of trace_of fst snd ret lift];
    rewrite ?app_nil_r, ?signedTxs_app, ?Hnone; try contradiction.
  destruct (Hshape gas b None eq_refl) as (account & raw & _ & -> & _ & ->).
  cbn [app]. intros Hin.
  match type of Hin with
  | In _ (signedTxs (trace_of (provision _ ?context ?txf' _ _ ?q))) =>
      destruct (provision_signs env context txf' accountName msgs q) as (Hsigned & _)
  end.
  cbn zeta in Hsigned. destruct (Hsigned tx Hin) as (_ & _ & sigBytes & Hs).
  exists sigBytes. exact Hs.
Qed.

(** A client fresh from [New] has account number 0 and sequence 0 in its
    factory, which the package reads as unset.  So every transaction its
    [BroadcastTx] signs carries the chain id the node reported to [New] and
    the account number and the sequence the node has answered to a query
    made in that same call; and every transaction its
    [BroadcastTxCreateAccount] signs carries that chain id with account
    number 0 and sequence 0. *)
Theorem New_client_signatures (ctx : GoContext)
  (options : list (Option KeyringBackend HTTP Registry)) (h h' : H)
  (c : FullClient KeyringBackend HTTP Registry) (t : list (BootEvent KeyringBackend))
  (accountName : string) (msgs : list Msg) (p : Proc W) (tx : Tx) :
  New KeyringTest KeyringBackend_zero host ctx options h = ((c, None), h', t) ->
  (In tx (signedTxs (trace_of (BroadcastTx env (base c) accountName msgs p))) ->
   exists account num seq sigBytes,
     In (EvGetAccountNumberSequence (acc_Address account) (Ok (num, seq)))
        (trace_of (BroadcastTx env (base c) accountName msgs p)) /\
     tx_Signatures tx =
       [ {| sig_Signer := accountName; sig_Mode := txConfig_DefaultMode env;
            sig_Data := {| sd_ChainID := chainID (base c);
                           sd_AccountNumber := num;
                           sd_Sequence := seq |};
            sig_Bytes := sigBytes |} ]) /\
  (In tx (signedTxs (trace_of (BroadcastTxCreateAccount env (base c) accountName msgs p))) ->
   exists sigBytes,
     tx_Signatures tx =
       [ {| sig_Signer := accountName; sig_Mode := txConfig_DefaultMode env;
            sig_Data := {| sd_ChainID := chainID (base c);
                           sd_AccountNumber := 0;
                           sd_Sequence := 0 |};
            sig_Bytes := sigBytes |} ]).
Proof.
  intros Hnew.
  assert (Hc : exists home, c_Factory (base c) = newFactory (newContext host (chainID (base c)) home)).
  { revert Hnew. unfold New, New_registry, set_base.
    set (configured := applyOptions options (New_defaults KeyringTest HTTP Registry)).
    cbn [base RPC AccountRegistry keyringServiceName keyringBackend set_chainID
         set_homePath homePath chainID].
    destruct (rpchttp_New host _ _ h) as [[rpc|e] h1]; [|discriminate].
    destruct (rpc_Status host rpc ctx h1) as [[network|e] h2]; [|discriminate].
    destruct (String.eqb (homePath (base configured)) "").
    - destruct (os_UserHomeDir host h2) as [[home|e] h3]; [|discriminate].
      cbn [base RPC AccountRegistry keyringServiceName keyringBackend set_chainID
           set_homePath homePath chainID].
      destruct (cosmosaccount_New host _ _ _ h3) as [[registry|e] h4]; [|discriminate].
      intros E. inversion E; subst. cbn. eauto.
    - destruct (cosmosaccount_New host _ _ _ h2) as [[registry|e] h4]; [|discriminate].
      intros E. inversion E; subst. cbn. eauto. }
  destruct Hc as (home & Hc). split.
  - intros Hin.
    destruct (@BroadcastTx_signs (base c) accountName msgs p tx Hin)
      as (account & txf & sigBytes & Hq & Hs).
    rewrite Hc in Hq.
    destruct Hq as [(Hn & _)|(num & seq & _ & Hquery & ->)]; [now cbn in Hn|].
    exists account, num, seq, sigBytes. split; [exact Hquery|]. exact Hs.
  - intros Hin.
    destruct (@BroadcastTxCreateAccount_signs (base c) accountName msgs p tx Hin)
      as (sigBytes & Hs).
    rewrite Hc in Hs. exists sigBytes. exact Hs.
Qed.

End FreshClientFacts.

(** ** The facts above at work *)

Lemma checkAccountBalance_first_enough_witness :
  let c := Demo.client "cosmos" true in
  let balances := [ {| Denom := "stake"; Amount := 5 |};
                    {| Denom := "token"; Amount := 1000 |};
                    {| Denom := "token"; Amount := 18446744073709551616 |} ] in
  out_of (checkAccountBalance (Demo.env (Demo.withBalances Demo.script balances)) c
            Background "cosmos1alice" Demo.proc0) = Ret None.
Proof.
  apply (@checkAccountBalance_first_enough nat
           (Demo.env (Demo.withBalances Demo.script
              [ {| Denom := "stake"; Amount := 5 |};
                {| Denom := "token"; Amount := 1000 |};
                {| Denom := "token"; Amount := 18446744073709551616 |} ]))
           (Demo.client "cosmos" true) Background "cosmos1alice" Demo.proc0
           [ {| Denom := "stake"; Amount := 5 |} ]
           [ {| Denom := "token"; Amount := 18446744073709551616 |} ]
           {| Denom := "token"; Amount := 1000 |}).
  - reflexivity.
  - repeat constructor. discriminate.
  - vm_compute. split; discriminate.
  - reflexivity.
  - vm_compute. split; [discriminate|reflexivity].
Defined.

Lemma BroadcastTx_accepted_witness :
  let run := BroadcastTx (Demo.env Demo.script) (Demo.client "cosmos" false) "alice"
               [Demo.send] Demo.proc0 in
  let resp := {| codec := Some Demo.protoCodec;
                 Response_TxResponse := Some Demo.accepted |} in
  out_of run = Ret (resp, None) /\
  exists tx,
    signedTxs (trace_of run) = [tx] /\ tx_Msgs tx = [Demo.send] /\
    count isBroadcast (trace_of run) = 1%nat.
Proof.
  cbv zeta. split; [reflexivity|].
  destruct (@BroadcastTx_accepted nat (Demo.env Demo.script) (Demo.client "cosmos" false)
              "alice" [Demo.send] Demo.proc0
              {| codec := Some Demo.protoCodec;
                 Response_TxResponse := Some Demo.accepted |} eq_refl)
    as (txf & raw & tx & bytes & r & _ & Hs & Hm & _ & _ & _ & _ & Hb & _).
  exists tx. auto.
Defined.

Lemma BroadcastTxCreateAccount_accepted_witness :
  let run := BroadcastTxCreateAccount (Demo.env Demo.script) (Demo.client "cosmos" false)
               "bob" [Demo.send] Demo.proc0 in
  let resp := {| codec := Some Demo.protoCodec;
                 Response_TxResponse := Some Demo.accepted |} in
  out_of run = Ret (resp, None) /\
  count isRetrieverCall (trace_of run) = 0%nat /\
  exists tx sigBytes,
    signedTxs (trace_of run) = [tx] /\
    tx_Signatures tx =
      [ {| sig_Signer := "bob"; sig_Mode := SIGN_MODE_DIRECT;
           sig_Data := {| sd_ChainID := "demo-1"; sd_AccountNumber := 0;
                          sd_Sequence := 0 |};
           sig_Bytes := sigBytes |} ].
Proof.
  cbv zeta. split; [reflexivity|].
  destruct (@BroadcastTxCreateAccount_accepted nat (Demo.env Demo.script)
              (Demo.client "cosmos" false) "bob" [Demo.send] Demo.proc0
              {| codec := Some Demo.protoCodec;
                 Response_TxResponse := Some Demo.accepted |} eq_refl)
    as (raw & tx & bytes & r & _ & Hr & Hs & _ & _ & (sigBytes & Hsig) & _).
  split; [exact Hr|]. exists tx, sigBytes. auto.
Defined.


Lemma broadcasts_respect_mconf_witness :
  let c := Demo.client "spn" false in
  let run := BroadcastTx (Demo.env Demo.script) c "alice" [Demo.send] Demo.proc0 in
  mconf Demo.proc0 = false /\
  disciplined c Demo.proc0 run /\
  count isLock (trace_of run) = 1%nat /\
  sdkConfig (proc_of run) =
    {| bech32AccountAddrPrefix := "spn"; bech32AccountPubPrefix := "spnpub" |}.
Proof.
  cbv zeta. split; [reflexivity|].
  split; [|split; reflexivity].
  exact (proj1 (proj2 (proj2
           (@broadcasts_respect_mconf nat (Demo.env Demo.script) (Demo.client "spn" false)
              "alice" [Demo.send] Demo.proc0 eq_refl)))).
Defined.

Lemma quote_provision_or_error_witness :
  let refused := Demo.withExists Demo.script (Some (errors_New "account not found")) in
  let quote := BroadcastTxWithProvision (Demo.env refused) (Demo.client "cosmos" false)
                 "alice" [Demo.send] Demo.proc0 in
  let err := Some (errors_New "account not found") in
  out_of quote = Ret (0, None, err) /\
  ((@None (Provisioner nat) = None <-> err <> None) /\ (err <> None -> 0 = 0)).
Proof.
  cbv zeta. split; [reflexivity|].
  destruct (@quote_provision_or_error nat
              (Demo.env (Demo.withExists Demo.script
                           (Some (errors_New "account not found"))))
              (Demo.client "cosmos" false) "alice" [Demo.send] Demo.proc0 _
              0 None (Some (errors_New "account not found"))
              (or_introl eq_refl) eq_refl) as (Hiff & Hgas & _).
  split; [exact Hiff|exact Hgas].
Defined.

Lemma broadcasts_unknown_account_witness :
  let c := Demo.client "cosmos" true in
  let e := errors_New "account doesn't exist" in
  BroadcastTx (Demo.env Demo.script) c "carol" [Demo.send] Demo.proc0
    = (Ret (Response_zero, Some e), Demo.proc0, [EvGetByName "carol" (Err e)]) /\
  BroadcastTxCreateAccount (Demo.env Demo.script) c "carol" [Demo.send] Demo.proc0
    = (Ret (Response_zero, Some e), Demo.proc0, [EvGetByName "carol" (Err e)]).
Proof.
  cbv zeta.
  exact (proj2 (proj2
           (@broadcasts_unknown_account nat (Demo.env Demo.script)
              (Demo.client "cosmos" true) "carol" [Demo.send] Demo.proc0
              (errors_New "account doesn't exist") eq_refl))).
Defined.

Lemma broadcasts_without_faucet_witness :
  let run := BroadcastTx (Demo.env (Demo.withBalances Demo.script []))
               (Demo.client "cosmos" false) "alice" [Demo.send] Demo.proc0 in
  useFaucet (Demo.client "cosmos" false) = false /\
  count isBalanceQuery (trace_of run) = 0%nat /\
  count isFaucetRequest (trace_of run) = 0%nat.
Proof.
  cbv zeta. split; [reflexivity|].
  destruct (@broadcasts_without_faucet nat (Demo.env (Demo.withBalances Demo.script []))
              (Demo.client "cosmos" false) "alice" [Demo.send] Demo.proc0 eq_refl)
    as (_ & _ & (_ & Hb & Hf & _) & _).
  split; [exact Hb|exact Hf].
Defined.

Lemma Decode_after_broadcast_witness :
  let run := BroadcastTx (Demo.env Demo.script) (Demo.client "cosmos" false) "alice"
               [Demo.send] Demo.proc0 in
  let resp := {| codec := Some Demo.protoCodec;
                 Response_TxResponse := Some Demo.accepted |} in
  out_of run = Ret (resp, None) /\
  Decode (Demo.unmarshalAnyAs "MsgSendResponse") resp
    = Panics "index out of range [0] with length 0" /\
  exists r, resp = {| codec := Some Demo.protoCodec; Response_TxResponse := Some r |} /\
            Code r = 0%N.
Proof.
  cbv zeta. split; [reflexivity|]. split; [reflexivity|].
  destruct (@Decode_after_broadcast nat (Demo.env Demo.script) (list byte)
              (Demo.unmarshalAnyAs "MsgSendResponse") (Demo.client "cosmos" false)
              "alice" [Demo.send] Demo.proc0 _
              {| codec := Some Demo.protoCodec;
                 Response_TxResponse := Some Demo.accepted |}
              None Demo.protoCodec (or_introl eq_refl) eq_refl eq_refl)
    as (Hok & _).
  destruct (Hok eq_refl) as (r & Hr & Hcode & _). exists r. auto.
Defined.

Lemma New_builds_witness :
  let run := DemoHost.New [WithAddressPrefix "spn"; WithUseFaucet "http://faucet" "" 0] in
  let c := fst (fst (fst run)) in
  snd (fst (fst run)) = None /\
  chainID (base c) = "demo-1"%string /\
  homePath (base c) = "/home/demo/.demo-1"%string /\
  addressPrefix (base c) = "spn"%string /\
  faucetDenom (base c) = "token"%string /\
  exists rpc h1 network h2 registry,
    rpchttp_New DemoHost.host "http://localhost:26657" "/websocket" 0%nat = (Ok rpc, h1) /\
    rpc_Status DemoHost.host rpc Background h1 = (Ok network, h2) /\
    RPC c = Some rpc /\ AccountRegistry c = Some registry /\
    chainID (base c) = network /\
    c_Context (base c) = newContext DemoHost.host network (homePath (base c)) /\
    c_Factory (base c) = newFactory (c_Context (base c)).
Proof.
  cbv zeta. do 5 (split; [reflexivity|]).
  destruct (@New_builds string "test" "" unit unit nat DemoHost.host Background
              [WithAddressPrefix "spn"; WithUseFaucet "http://faucet" "" 0]
              0%nat _ _ None _ eq_refl)
    as (rpc & h1 & network & h2 & registry & H1 & H2 & H3 & H4 & H5 & H6 & H7 & _).
  exists rpc, h1, network, h2, registry. auto 10.
Defined.

Lemma New_home_directory_witness :
  let run := DemoHost.New [WithHome "/srv/chain"] in
  let c := fst (fst (fst run)) in
  snd (fst (fst run)) = None /\
  homePath (base c) = "/srv/chain"%string /\
  ~ In EvUserHomeDir (snd run).
Proof.
  cbv zeta. split; [reflexivity|]. split; [reflexivity|].
  destruct (@New_home_directory string "test" "" unit unit nat DemoHost.host Background
              [WithHome "/srv/chain"] 0%nat _ _ None _ eq_refl) as (Hset & _).
  destruct Hset as (Hnot & _); [discriminate|exact Hnot].
Defined.

Lemma New_faucet_settings_witness :
  let run := DemoHost.New [WithUseFaucet "http://faucet" "" 0; WithNodeAddress "http://node"] in
  let c := fst (fst (fst run)) in
  snd (fst (fst run)) = None /\
  faucetDenom (base c) <> ""%string /\ faucetMinAmount (base c) <> 0 /\
  useFaucet (base c) = true.
Proof.
  cbv zeta. split; [reflexivity|].
  destruct (@New_faucet_settings string "test" "" unit unit nat DemoHost.host Background
              [WithUseFaucet "http://faucet" "" 0; WithNodeAddress "http://node"]
              0%nat _ _ _
              (Forall_cons _ (IsWithUseFaucet string unit unit "http://faucet" "" 0)
                 (Forall_cons _ (IsWithNodeAddress string unit unit "http://node")
                    (Forall_nil _)))
              eq_refl) as (Hd & Hm & _).
  split; [exact Hd|]. split; [exact Hm|reflexivity].
Defined.

Lemma New_client_signatures_witness :
  let c := fst (fst (fst (DemoHost.New []))) in
  let run := BroadcastTxCreateAccount (Demo.env Demo.script) (base c) "bob" [Demo.send]
               Demo.proc0 in
  snd (fst (fst (DemoHost.New []))) = None /\
  (exists tx, In tx (signedTxs (trace_of run))) /\
  forall tx, In tx (signedTxs (trace_of run)) ->
    exists sigBytes,
      tx_Signatures tx =
        [ {| sig_Signer := "bob"; sig_Mode := SIGN_MODE_DIRECT;
             sig_Data := {| sd_ChainID := "demo-1"; sd_AccountNumber := 0;
                            sd_Sequence := 0 |};
             sig_Bytes := sigBytes |} ].
Proof.
  cbv zeta. split; [reflexivity|]. split; [eexists; left; reflexivity|].
  intros tx.
  exact (proj2 (@New_client_signatures string "test" "" unit unit nat DemoHost.host nat
                  (Demo.env Demo.script) Background [] 0%nat _ _ _ "bob" [Demo.send]
                  Demo.proc0 tx eq_refl)).
Defined.

(** ** strconv.ParseUint *)

Section ParseUintFacts.

Import strconv.

Lemma digitOf_digit (c : ascii) :
  isDigit c = true -> digitOf c = Some (Z.of_N (N_of_ascii c) - 48).
Proof. unfold isDigit, digitOf. cbv zeta. now intros ->. Qed.

Lemma digitOf_other (c : ascii) (d : Z) :
  isDigit c = false -> digitOf c = Some d -> 10 <= d.
Proof.
  unfold isDigit, digitOf. cbv zeta. intros ->.
  destruct ((97 <=? Z.lor (Z.of_N (N_of_ascii c)) 32) &&
            (Z.lor (Z.of_N (N_of_ascii c)) 32 <=? 122)) eqn:E; [|discriminate].
  intros H. inversion H. apply andb_prop in E. lia.
Qed.

Lemma isDigit_range (c : ascii) :
  isDigit c = true -> 0 <= Z.of_N (N_of_ascii c) - 48 <= 9.
Proof. unfold isDigit. cbv zeta. intros H. apply andb_prop in H. lia. Qed.

Lemma decimal_grows (s : string) (acc v : Z) :
  0 <= acc -> decimal s acc = Some v -> acc <= v.
Proof.
  revert acc. induction s as [|c rest IH]; intros acc Hacc; cbn [decimal].
  - intros H. inversion H. lia.
  - destruct (isDigit c) eqn:Ec; [|discriminate]. intros H.
    pose proof (isDigit_range c Ec). apply IH in H; lia.
Qed.

(** The loop from an accumulator [n] that fits: it succeeds exactly on
    decimal digits whose number, continued from [n], fits in 64 bits. *)
Lemma parseLoop_decimal (s : string) (n v : Z) :
  0 <= n < uint64_modulus ->
  parseLoop s n = (v, None) <-> decimal s n = Some v /\ v < uint64_modulus.
Proof.
  revert n. induction s as [|c rest IH]; intros n Hn; cbn [parseLoop decimal].
  - split.
    + intros H. inversion H; subst. split; [reflexivity|lia].
    + intros [H _]. inversion H. reflexivity.
  - destruct (isDigit c) eqn:Ec.
    + rewrite (digitOf_digit c Ec). pose proof (isDigit_range c Ec) as Hd.
      set (d := Z.of_N (N_of_ascii c) - 48) in *.
      destruct (Z.leb_spec 10 d); [lia|].
      unfold cutoff, maxVal, uint64_add, uint64_modulus in *.
      change ((2 ^ 64 - 1) / 10 + 1) with 1844674407370955162.
      destruct (Z.leb_spec 1844674407370955162 n) as [Hcut|Hcut].
      * split; [discriminate|]. intros [Hdec Hv].
        apply decimal_grows in Hdec; lia.
      * rewrite (Z.mod_small (n * 10)) by lia.
        destruct (Z_lt_le_dec (n * 10 + d) (2 ^ 64)) as [Hfit|Hover].
        -- rewrite (Z.mod_small (n * 10 + d)) by lia.
           destruct (Z.ltb_spec (n * 10 + d) (n * 10)); [lia|].
           destruct (Z.ltb_spec (2 ^ 64 - 1) (n * 10 + d)); [lia|]. cbn [orb].
           replace (10 * n + d) with (n * 10 + d) by lia.
           apply IH. lia.
        -- assert (Hwrap : (n * 10 + d) mod 2 ^ 64 = n * 10 + d - 2 ^ 64).
           { symmetry. apply Z.mod_unique with (q := 1); lia. }
           rewrite Hwrap.
           destruct (Z.ltb_spec (n * 10 + d - 2 ^ 64) (n * 10)); [|lia]. cbn [orb].
           split; [discriminate|]. intros [Hdec Hv].
           replace (10 * n + d) with (n * 10 + d) in Hdec by lia.
           apply decimal_grows in Hdec; lia.
    + split; [|intros [H _]; discriminate].
      destruct (digitOf c) as [d|] eqn:Ed; [|discriminate].
      pose proof (digitOf_other c Ec Ed).
      destruct (Z.leb_spec 10 d); [discriminate|lia].
Qed.

(** [ParseUint(s, 10, 64)] returns without error exactly on the non-empty
    texts of decimal digits that write a number below [2^64], and then
    returns that number. *)
Lemma ParseUint_decimal (s : string) (v : Z) :
  ParseUint s = (v, None) <->
  s <> ""%string /\ decimal s 0 = Some v /\ v < uint64_modulus.
Proof.
  unfold ParseUint. destruct s as [|c rest].
  - split; [discriminate|]. intros [H _]. now contradiction H.
  - rewrite parseLoop_decimal by (unfold uint64_modulus; lia).
    split; [intros [H1 H2]; repeat split; auto; discriminate|tauto].
Qed.

End ParseUintFacts.

(** ** The command to join a network *)

Section JoinFacts.

Import starportcmd.

Variable S : Type.
Variables Command Builder Spinner Blockchain InitOption : Type.
Variable cli : Cli S Command Builder Spinner Blockchain InitOption.

(** One run of [askPublicAddress]: the spinner is stopped first and
    started again last; the question is asked once, is required, and when
    the chisel proxy is not enabled it offers the address [ipify] gave,
    with port 26656, as default answer, whether or not [ipify] failed; the
    answer and the error of the question are returned. *)
Lemma askPublicAddress_run (sp : Spinner) (w : S) :
  let w1 := spinner_Stop cli sp w in
  let enabled := xchisel_IsEnabled cli w1 in
  let located := ipify_GetIp cli (snd enabled) in
  let options :=
    if fst enabled then [Required]
    else [Required; DefaultAnswer (fst (fst located) ++ ":26656")] in
  let question := {| q_Question := "Peer's address"; q_Options := options |} in
  let asked := cliquiz_Ask cli question
                 (if fst enabled then snd enabled else snd located) in
  askPublicAddress cli sp w =
    (Ret (fst asked),
     spinner_Start cli sp (snd asked),
     [EvSpinnerStop; EvIsEnabled (fst enabled)]
     ++ (if fst enabled then []
         else [EvGetIp (fst (fst located)) (snd (fst located))])
     ++ [EvAsk question (fst (fst asked)) (snd (fst asked));
         EvSpinnerStart]).
Proof.
  cbv zeta. unfold askPublicAddress, defer, bind, act, call, ret.
  destruct (xchisel_IsEnabled cli (spinner_Stop cli sp w)) as [[|] w2]; cbn.
  - destruct (cliquiz_Ask cli _ w2) as [[answer err] w3]. reflexivity.
  - destruct (ipify_GetIp cli w2) as [[ip e] w3]; cbn.
    destruct (cliquiz_Ask cli _ w3) as [[answer err] w4]. reflexivity.
Qed.

(** The question [askPublicAddress] asks.  The spinner is stopped first
    and started again last, and the question is asked once, between the
    two; the answer and the error of the question are what is returned.
    The question is required.  With the chisel proxy enabled [ipify] is not
    called and no default answer is offered.  Without it, the default
    answer offered is what [ipify.GetIp] gave as address, with port 26656,
    whatever the error [ipify.GetIp] returned with it: the error tested
    there is the result [err], still nil. *)
Theorem askPublicAddress_question (sp : Spinner) (w : S) :
  let run := askPublicAddress cli sp w in
  exists enabled mid question answer err,
    snd run = [EvSpinnerStop; EvIsEnabled enabled] ++ mid
              ++ [EvAsk question answer err; EvSpinnerStart] /\
    fst (fst run) = Ret (answer, err) /\
    q_Question question = "Peer's address"%string /\
    (enabled = true -> mid = [] /\ q_Options question = [Required]) /\
    (forall ip e,
       In (EvGetIp ip e) (snd run) ->
       enabled = false /\ mid = [EvGetIp ip e] /\
       q_Options question = [Required; DefaultAnswer (ip ++ ":26656")]) /\
    (enabled = false -> exists ip e, In (EvGetIp ip e) (snd run)).
Proof.
  cbv zeta. rewrite askPublicAddress_run.
  destruct (xchisel_IsEnabled cli (spinner_Stop cli sp w)) as [[|] w2]; cbn [fst snd].
  - destruct (cliquiz_Ask cli _ w2) as [[answer err] w3] eqn:Eask. cbn [fst snd].
    exists true, []. do 3 eexists. split; [reflexivity|]. split; [reflexivity|].
    split; [reflexivity|]. split; [auto|]. split; [|discriminate].
    intros ip e [H|[H|[H|[H|[]]]]]; discriminate.
  - destruct (ipify_GetIp cli w2) as [[ip0 e0] w3]. cbn [fst snd].
    destruct (cliquiz_Ask cli _ w3) as [[answer err] w4] eqn:Eask. cbn [fst snd].
    exists false. do 4 eexists. split; [reflexivity|]. split; [reflexivity|].
    split; [reflexivity|]. split; [discriminate|]. split.
    + intros ip e [H|[H|[H|[H|[H|[]]]]]]; try discriminate.
      inversion H; subst. auto.
    + intros _. exists ip0, e0. cbn. auto.
Qed.

Ltac handler_paths :=
  cbv beta iota zeta delta [networkChainJoinHandler bind call act defer ret index];
  match goal with
  | |- context [initializeNetwork ?c ?cmd ?w] =>
      destruct (initializeNetwork c cmd w) as [[session|err0] w1]
  end;
  cbv beta iota; cbn [fst snd];
  try (match goal with
       | |- context [nth_error ?args _] => destruct args as [|arg0 [|arg1 args]]
       end; cbn [nth_error]; cbv beta iota);
  try (match goal with
       | |- context [strconv.ParseUint ?a] =>
           destruct (strconv.ParseUint a) as [n [e|]] eqn:Eparse
       end; cbv beta iota);
  try (match goal with
       | |- context [?n =? 0] => destruct (Z.eqb_spec n 0) as [Hzero|Hzero]
       end; cbv beta iota);
  try (match goal with
       | |- context [sdk_ParseCoinNormalized ?c ?a] =>
           destruct (sdk_ParseCoinNormalized c a) as [coin|e] eqn:Ecoin
       end; cbv beta iota);
  try (match goal with
       | |- context [nb_Blockchain ?c ?b ?x ?so ?io ?w] =>
           destruct (nb_Blockchain c b x so io w) as [[blockchain|e] w2]
       end; cbv beta iota);
  try (rewrite askPublicAddress_run; cbv zeta;
       match goal with
       | |- context [xchisel_IsEnabled ?c ?w] =>
           destruct (xchisel_IsEnabled c w) as [[|] w3]
       end; cbn [fst snd];
       try (match goal with
            | |- context [ipify_GetIp ?c ?w] =>
                destruct (ipify_GetIp c w) as [[ip e] w4]
            end; cbn [fst snd]);
       match goal with
       | |- context [cliquiz_Ask ?c ?q ?w] =>
           destruct (cliquiz_Ask c q w) as [[answer [e'|]] w5]
       end; cbn [fst snd]; cbv beta iota;
       try (match goal with
            | |- context [blockchain_Join ?c ?b ?x ?i ?a ?p ?g ?w] =>
                destruct (blockchain_Join c b x i a p g w) as [[e''|] w6]
            end; cbv beta iota));
  cbn [fst snd app].

(** The deferred [shutdown].  When [initializeNetwork] fails its error is
    returned and nothing else is done.  When it succeeds, [shutdown] is
    called exactly once, as the last step, on every path: on each error
    return, on success, and when an argument is missing and the handler
    panics on the index. *)
Theorem networkChainJoinHandler_shutdown (cmd : Command) (args : list string) (w : S) :
  let init := initializeNetwork cli cmd w in
  let run := networkChainJoinHandler cli cmd args w in
  match fst init with
  | Err err => run = (Ret (Some err), snd init, [EvInitializeNetwork cmd])
  | Ok session =>
      exists mid w',
        snd run = EvInitializeNetwork cmd :: mid ++ [EvShutdown] /\
        snd (fst run) = shutdown session w' /\
        ~ In EvShutdown mid /\
        fst (fst run) <> Blocks /\
        (forall msg, fst (fst run) = Panics msg ->
           mid = [] /\ (List.length args < 2)%nat)
  end.
Proof.
  cbv zeta. handler_paths.
  all: try reflexivity.
  all: match goal with
       | |- exists mid _, (_ :: ?t) = _ /\ _ => exists (removelast t)
       end; eexists; (split; [reflexivity|]); (split; [reflexivity|]).
  all: (split; [intros H; cbn in H; intuition discriminate|]).
  all: (split; [discriminate|]).
  all: intros msg H; try discriminate; (split; [reflexivity|cbn; lia]).
Qed.

Lemma ParseUint_nonneg (arg : string) (n : Z) :
  strconv.ParseUint arg = (n, None) -> 0 <= n.
Proof.
  intros H. apply ParseUint_decimal in H. destruct H as (_ & Hdec & _).
  apply decimal_grows in Hdec; lia.
Qed.

(** Which launch IDs reach the network.  [nb.Blockchain] is called for
    launch ID [id] exactly when [initializeNetwork] succeeds, there are two
    arguments, the first is a non-empty text of decimal digits that writes
    [id] with [1 <= id < 2^64] (a sign, a space, a prefix or a separator
    makes it invalid, leading zeros do not), and the second parses as a
    coin. *)
Theorem networkChainJoinHandler_launchID (cmd : Command) (args : list string) (w : S)
  (id : uint64) :
  let init := initializeNetwork cli cmd w in
  let run := networkChainJoinHandler cli cmd args w in
  (exists ctx options, In (EvBlockchain ctx (SourceLaunchID id) options) (snd run)) <->
  (exists session arg0 arg1 amount,
     fst init = Ok session /\
     nth_error args 0 = Some arg0 /\ nth_error args 1 = Some arg1 /\
     arg0 <> ""%string /\ strconv.decimal arg0 0 = Some id /\
     1 <= id < uint64_modulus /\
     sdk_ParseCoinNormalized cli arg1 = Ok amount).
Proof.
  cbv zeta. handler_paths.
  all: split;
    [intros (ctx & options & Hin)
    |intros (session' & a0 & a1 & amt & Hi & H0 & H1 & Hne & Hdec & Hrange & Hc)].
  all: try (cbn in Hin; intuition discriminate).
  all: try discriminate.
  all: try (cbn in H0, H1; inversion H0; inversion H1; subst;
            assert (Hp : strconv.ParseUint a0 = (id, None))
              by (apply ParseUint_decimal; tauto);
            rewrite Hp in Eparse; inversion Eparse; subst;
            first [lia | congruence | do 2 eexists; cbn; eauto; fail]).
  all: pose proof (ParseUint_nonneg _ Eparse) as Hpos;
       apply ParseUint_decimal in Eparse; destruct Eparse as (Hne & Hdec & Hlt).
  all: assert (id = n)
         by (cbn in Hin;
             repeat match goal with
                    | H : _ \/ _ |- _ => destruct H
                    | H : False |- _ => contradiction
                    | H : EvBlockchain _ _ _ = EvBlockchain _ _ _ |- _ =>
                        inversion H; clear H
                    | H : _ = EvBlockchain _ _ _ |- _ => discriminate H
                    end; congruence).
  all: subst id; do 4 eexists; repeat split; eauto; lia.
Qed.

Ltac join_events :=
  repeat match goal with
         | H : In _ _ |- _ => cbn in H
         | H : _ \/ _ |- _ => destruct H
         | H : False |- _ => contradiction
         | H : EvJoin _ _ _ _ _ _ = EvJoin _ _ _ _ _ _ |- _ => inversion H; clear H
         | H : _ = EvJoin _ _ _ _ _ _ |- _ => discriminate H
         end.

(** The request to join.  [blockchain.Join] is called at most once, after
    the blockchain was obtained for the same launch ID and after the
    question was answered without error; it is given the launch ID written
    by the first argument, at least 1, the coin parsed from the second
    argument, the answer to the question as public address and the value
    of the flag [gentx]; what it returns is what the handler returns; and
    after it only the spinner is stopped, when it succeeded, and
    [shutdown] runs. *)
Theorem networkChainJoinHandler_join (cmd : Command) (args : list string) (w : S)
  (ctx : GoContext) (id : uint64) (amount : Coin) (addr gentx : string)
  (err : option error) :
  let run := networkChainJoinHandler cli cmd args w in
  In (EvJoin ctx id amount addr gentx err) (snd run) ->
  fst (fst run) = Ret err /\
  ctx = cmd_Context cli cmd /\
  gentx = flags_GetString cli cmd flagGentx /\
  (exists arg0 arg1,
     nth_error args 0 = Some arg0 /\ nth_error args 1 = Some arg1 /\
     strconv.decimal arg0 0 = Some id /\ 1 <= id < uint64_modulus /\
     sdk_ParseCoinNormalized cli arg1 = Ok amount) /\
  (exists pre question rest,
     snd run =
       pre ++ EvBlockchain ctx (SourceLaunchID id)
                (initOptionWithHomeFlag cli cmd [MustNotInitializedBefore cli])
           :: rest
           ++ [EvAsk question addr None; EvSpinnerStart;
               EvJoin ctx id amount addr gentx err]
           ++ (match err with None => [EvSpinnerStop] | Some _ => [] end)
           ++ [EvShutdown] /\
     (forall ctx' id' amount' addr' gentx' err',
        ~ In (EvJoin ctx' id' amount' addr' gentx' err') (pre ++ rest))).
Proof.
  cbv zeta. handler_paths.
  all: intros Hin; join_events; subst.
  all: pose proof (ParseUint_nonneg _ Eparse) as Hpos;
       apply ParseUint_decimal in Eparse; destruct Eparse as (Hne & Hdec & Hlt).
  all: split; [reflexivity|]; split; [reflexivity|]; split; [reflexivity|].
  all: (split; [do 2 eexists; repeat split; eauto; lia|]).
  all: match goal with
       | |- context [EvGetIp ?ip ?e] =>
           exists [EvInitializeNetwork cmd]; eexists;
           exists [EvSpinnerStop; EvIsEnabled false; EvGetIp ip e]
       | |- _ =>
           exists [EvInitializeNetwork cmd]; eexists;
           exists [EvSpinnerStop; EvIsEnabled true]
       end.
  all: (split; [cbn; reflexivity|]).
  all: intros ctx' id' amount' addr' gentx' err' H; join_events.
Qed.

(** The handler returns nil exactly when [blockchain.Join] was called and
    returned nil. *)
Theorem networkChainJoinHandler_success (cmd : Command) (args : list string) (w : S) :
  let run := networkChainJoinHandler cli cmd args w in
  fst (fst run) = Ret None <->
  exists id amount addr gentx,
    In (EvJoin (cmd_Context cli cmd) id amount addr gentx None) (snd run).
Proof.
  cbv zeta. handler_paths.
  all: split; [intros H; try discriminate|intros (id & amt & addr & gentx & H)].
  all: try (join_events; fail).
  all: try reflexivity.
  all: do 4 eexists; cbn; eauto 10.
Qed.

End JoinFacts.

Lemma networkChainJoinHandler_join_witness :
  let run := starportcmd.networkChainJoinHandler DemoCli.cli tt ["007"; "1000stake"]
               0%nat in
  let question :=
    {| starportcmd.q_Question := "Peer's address";
       starportcmd.q_Options :=
         [starportcmd.Required; starportcmd.DefaultAnswer ":26656"] |} in
  snd run =
    [ starportcmd.EvInitializeNetwork tt;
      starportcmd.EvBlockchain Background (starportcmd.SourceLaunchID 7)
        ["must-not-be-initialized-before"%string];
      starportcmd.EvSpinnerStop;
      starportcmd.EvIsEnabled false;
      starportcmd.EvGetIp "" (Some DemoCli.unreachable);
      starportcmd.EvAsk question "203.0.113.7:26656" None;
      starportcmd.EvSpinnerStart;
      starportcmd.EvJoin Background 7 {| Denom := "stake"; Amount := 1000 |}
        "203.0.113.7:26656" "" None;
      starportcmd.EvSpinnerStop;
      starportcmd.EvShutdown ] /\
  fst (fst run) = Ret None /\
  exists arg0 arg1,
    nth_error ["007"; "1000stake"]%string 0 = Some arg0 /\
    nth_error ["007"; "1000stake"]%string 1 = Some arg1 /\
    strconv.decimal arg0 0 = Some 7 /\ 1 <= 7 < uint64_modulus /\
    starportcmd.sdk_ParseCoinNormalized DemoCli.cli arg1
      = Ok {| Denom := "stake"; Amount := 1000 |}.
Proof.
  cbv zeta. split; [reflexivity|].
  assert (Hin : In (starportcmd.EvJoin Background 7 {| Denom := "stake"; Amount := 1000 |}
                      "203.0.113.7:26656" "" None)
                   (snd (starportcmd.networkChainJoinHandler DemoCli.cli tt
                           ["007"; "1000stake"]%string 0%nat)))
    by (cbn; tauto).
  destruct (@networkChainJoinHandler_join nat unit unit unit unit string DemoCli.cli tt
              ["007"; "1000stake"]%string 0%nat Background 7
              {| Denom := "stake"; Amount := 1000 |} "203.0.113.7:26656" "" None Hin)
    as (Hout & _ & _ & Hargs & _).
  split; [exact Hout|exact Hargs].
Defined.
